(** * BlackRoad Battery Manager: a shallow embedding of [battery_manager.py]

    The development follows [src/battery_manager.py]: the three dataclasses
    and the three SQLite tables, the [BatteryManager] methods
    ([add_device], [_get_device], [record_reading], [_check_alerts],
    [_fire_alert], [list_devices], [fleet_status]) and the Python and SQLite
    behaviour they rely on.

    - Python [float] is IEEE 754 binary64: Rocq's primitive [float].
    - Python exceptions are an explicit [outcome]; a method that touches the
      database returns its outcome together with the database it leaves.
    - A [with sqlite3.connect(...) as conn:] block is a transaction: the
      statements work on a pending copy, [conn.commit()] publishes it, and
      leaving the block by an exception rolls the pending changes back.
    - What the process cannot decide (the wall clock, a failing disk or a
      locked database) is an input: a [Clock] and a [Faults] oracle.
    - SQLite is part of the behaviour: integers are 64-bit and an int
      outside that range is refused when it is bound, a REAL column holds
      no NaN and no negative zero, AUTOINCREMENT stops at the largest
      rowid. *)

From Stdlib Require Import ZArith Floats String Ascii List Bool Lia.
From Stdlib Require Import DecimalString Permutation OrderedTypeEx Sorted.
Import ListNotations.

Set Warnings "-inexact-float".

Set Implicit Arguments.

(* ------------------------------------------------------------------ *)
(** ** Python exceptions *)

Inductive exn : Type :=
| IntegrityError      (* sqlite3.IntegrityError: NOT NULL / UNIQUE violated *)
| OperationalError    (* sqlite3.OperationalError: the store is unavailable,
                         or an AUTOINCREMENT table is full *)
| OverflowError       (* Python int too large to convert to SQLite INTEGER *)
| TypeError
| ZeroDivisionError.

Inductive outcome (A : Type) : Type :=
| Returns (a : A)
| Raises (e : exn).

Arguments Returns {A} a.
Arguments Raises {A} e.

(* ------------------------------------------------------------------ *)
(** ** Python floats and the builtins applied to them *)

Module PyFloat.

Open Scope Z_scope.

(** [x != x] *)
Definition isnan (x : float) : bool := PrimFloat.is_nan x.

(** An integer as a spec float, exactly (the mantissa is not normalised;
    it is only fed to [SFdiv] and [binary_normalize], which round). *)
Definition Z2SF (z : Z) : spec_float :=
  match z with
  | Z0 => S754_zero false
  | Zpos p => S754_finite false p 0
  | Zneg p => S754_finite true p 0
  end.

(** Conversion [int -> float] (round to nearest even). *)
Definition of_int (z : Z) : float :=
  SF2Prim (binary_normalize prec emax z 0 false).

(** [a / b] on two Python ints with [b <> 0]: the correctly rounded
    quotient. *)
Definition int_quotient (a b : Z) : float :=
  SF2Prim (SFdiv prec emax (Z2SF a) (Z2SF b)).

(** [x / y] on floats: Python raises where IEEE would give inf or nan. *)
Definition truediv (x y : float) : outcome float :=
  if PrimFloat.eqb y 0 then Raises ZeroDivisionError
  else Returns (PrimFloat.div x y).

(** [x / n] with [n] a Python int. *)
Definition truediv_int (x : float) (n : Z) : outcome float :=
  if n =? 0 then Raises ZeroDivisionError
  else Returns (PrimFloat.div x (of_int n)).

(** [num / den] rounded to the nearest integer, ties to even
    ([den > 0]). *)
Definition round_half_even (num den : Z) : Z :=
  let q := num / den in
  let r := num mod den in
  match 2 * r ?= den with
  | Lt => q
  | Gt => q + 1
  | Eq => if Z.even q then q else q + 1
  end.

(** The integer nearest to [m * 2^e * 10^ndigits], ties to even: the
    digits a correctly rounded decimal conversion keeps. *)
Definition scaled_round (m : positive) (e : Z) (ndigits : nat) : Z :=
  let p := Z.pos m * 10 ^ Z.of_nat ndigits in
  if 0 <=? e then p * 2 ^ e else round_half_even p (2 ^ (- e)).

(** The float nearest to the decimal [k / 10^ndigits] with the sign [s]
    (a zero of that sign for [k = 0]): what [float(text)] gives for the
    decimal text. *)
Definition of_decimal (s : bool) (k : Z) (ndigits : nat) : float :=
  match k with
  | Zpos p =>
      SF2Prim (SFdiv prec emax (S754_finite s p 0)
                 (Z2SF (10 ^ Z.of_nat ndigits)))
  | _ => SF2Prim (S754_zero s)
  end.

(** [round(x, ndigits)] for [0 <= ndigits]: the float nearest to the
    decimal that the correctly rounded conversion of [x] to [ndigits]
    places gives; infinities, nan and zeros round to themselves, and
    beyond 323 places every float does. *)
Definition round (x : float) (ndigits : nat) : float :=
  if (323 <? Z.of_nat ndigits) then x else
  match Prim2SF x with
  | S754_finite s m e => of_decimal s (scaled_round m e ndigits) ndigits
  | _ => x
  end.

Definition string_of_Z (z : Z) : string :=
  NilZero.string_of_uint (N.to_uint (Z.to_N z)).

(** [f"{x:.1f}"] *)
Definition format_1f (x : float) : string :=
  match Prim2SF x with
  | S754_zero s => if s then "-0.0" else "0.0"
  | S754_infinity s => if s then "-inf" else "inf"
  | S754_nan => "nan"
  | S754_finite s m e =>
      let k := scaled_round m e 1 in
      (if s then "-" else "") ++ string_of_Z (k / 10) ++ "."
        ++ string_of_Z (k mod 10)
  end%string.

(** [x >= y], [x > y] *)
Definition geb (x y : float) : bool := PrimFloat.leb y x.
Definition gtb (x y : float) : bool := PrimFloat.ltb y x.

End PyFloat.

(* ------------------------------------------------------------------ *)
(** ** What "rounded to [n] decimal places" means *)

(** [k] is the integer nearest to the fraction [num / den] (with
    [0 < den]), and the even one when two integers are equally near. *)
Definition nearest_int (num den k : Z) : Prop :=
  (2 * Z.abs (num - k * den) <= den)%Z /\
  ((2 * Z.abs (num - k * den) = den)%Z -> Z.even k = true).

(** The magnitude [m * 2^e] of a finite float, times [10^n], as a
    fraction of two integers. *)
Definition scaled_num (m : positive) (e : Z) (n : nat) : Z :=
  (Z.pos m * 10 ^ Z.of_nat n * 2 ^ Z.max e 0)%Z.

Definition scaled_den (e : Z) : Z := (2 ^ Z.max (- e) 0)%Z.

(** [y] is [x] rounded to [n] decimal places: for a finite [x] with [k]
    the integer nearest to [|x| * 10^n] (ties to even), [y] is the float
    nearest to the decimal [k / 10^n], with the sign of [x]; a zero, an
    infinity and NaN are left as they are. *)
Definition rounded_to (n : nat) (x y : float) : Prop :=
  match Prim2SF x with
  | S754_finite s m e =>
      exists k : Z,
        (0 <= k)%Z /\ nearest_int (scaled_num m e n) (scaled_den e) k /\
        y = PyFloat.of_decimal s k n
  | _ => y = x
  end.

(** [text] is [x] written with one decimal: the digits of the integer
    nearest to [|x| * 10] (ties to even) with a point before the last
    one, after the sign. *)
Definition renders_1f (x : float) (text : string) : Prop :=
  match Prim2SF x with
  | S754_zero s => text = if s then "-0.0"%string else "0.0"%string
  | S754_infinity s => text = if s then "-inf"%string else "inf"%string
  | S754_nan => text = "nan"%string
  | S754_finite s m e =>
      exists k : Z,
        (0 <= k)%Z /\ nearest_int (scaled_num m e 1) (scaled_den e) k /\
        text = ((if s then "-" else "") ++ PyFloat.string_of_Z (k / 10)
                ++ "." ++ PyFloat.string_of_Z (k mod 10))%string
  end.

(* ------------------------------------------------------------------ *)
(** ** [datetime] *)

(** A [datetime] value: the microseconds of its wall-clock fields counted
    from 0001-01-01T00:00:00, and the UTC offset in microseconds when the
    value is aware ([None] when it is naive). *)
Record datetime : Type := {
  wall_us   : Z;
  utcoffset : option Z
}.

(** [a - b] in microseconds.  Python refuses to subtract a naive and an
    aware datetime (TypeError). *)
Definition datetime_sub (a b : datetime) : outcome Z :=
  match utcoffset a, utcoffset b with
  | None, None => Returns (wall_us a - wall_us b)%Z
  | Some oa, Some ob => Returns ((wall_us a - oa) - (wall_us b - ob))%Z
  | _, _ => Raises TypeError
  end.

(** [timedelta.total_seconds()]: the microsecond count over [10**6]. *)
Definition total_seconds (us : Z) : float := PyFloat.int_quotient us 1000000.

(** What differs between interpreter versions: the texts
    [datetime.fromisoformat] accepts ([None] stands for its ValueError),
    and whether the builtin [sum] adds floats with a compensation term
    (CPython 3.12 and later) or plainly. *)
Class PyRuntime : Type := {
  fromisoformat : string -> option datetime;
  compensated_sum : bool
}.

(** One step of the compensated loop of [sum]: the running total [f] and
    the compensation [c] after adding [x] (Neumaier's variant of Kahan
    summation). *)
Definition neumaier_step (st : float * float) (x : float) : float * float :=
  let '(f, c) := st in
  let t := PrimFloat.add f x in
  (t,
   if PrimFloat.leb (PrimFloat.abs x) (PrimFloat.abs f)
   then PrimFloat.add c (PrimFloat.add (PrimFloat.sub f t) x)
   else PrimFloat.add c (PrimFloat.add (PrimFloat.sub x t) f)).

(** [sum(xs)] over floats, from the int start value 0: the first float is
    added to 0 in float arithmetic, the others left to right; the
    compensated loop adds its correction at the end when that is a
    non-zero finite number.  (On no float at all [sum] gives the int 0;
    the module calls it on a non-empty fleet only.) *)
Definition py_sum {rt : PyRuntime} (xs : list float) : float :=
  match xs with
  | [] => 0%float
  | x :: xs' =>
      let first := PrimFloat.add 0 x in
      if compensated_sum then
        let '(f, c) := fold_left neumaier_step xs' (first, 0%float) in
        if negb (PrimFloat.eqb c 0) && PrimFloat.is_finite c
        then PrimFloat.add f c else f
      else fold_left PrimFloat.add xs' first
  end.

(* ------------------------------------------------------------------ *)
(** ** Data models (the dataclasses; a table row carries its rowid) *)

Module IoTDevice.

Record t : Type := mk {
  id                   : Z;
  name                 : string;
  device_type          : string;
  location             : string;
  battery_type         : string;
  battery_capacity_mah : Z;
  current_pct          : float;
  last_seen            : string;
  status               : string;
  firmware_version     : string;
  notes                : string;
  created_at           : option string
}.

Definition health_label (self : t) : string :=
  if PyFloat.geb (current_pct self) 60 then "healthy"
  else if PyFloat.geb (current_pct self) 30 then "warning"
  else if PyFloat.geb (current_pct self) 15 then "low"
  else "critical".

(** [days_remaining(daily_drain_pct)]; the source's default rate is 2.0. *)
Definition days_remaining (self : t) (daily_drain_pct : float)
    : outcome (option float) :=
  if PrimFloat.leb daily_drain_pct 0 then Returns None
  else match PyFloat.truediv (current_pct self) daily_drain_pct with
       | Raises e => Raises e
       | Returns q => Returns (Some (PyFloat.round q 1))
       end.

End IoTDevice.

Module BatteryReading.

Record t : Type := mk {
  id            : Z;
  device_id     : Z;
  reading_time  : string;
  battery_pct   : float;
  voltage_mv    : option float;
  temperature_c : option float;
  signal_rssi   : option Z;
  drain_rate    : option float
}.

End BatteryReading.

Module BatteryAlert.

Record t : Type := mk {
  id            : Z;
  device_id     : Z;
  alert_type    : string;
  threshold     : float;
  current_value : float;
  message       : string;
  resolved      : bool;
  created_at    : option string
}.

End BatteryAlert.

(* ------------------------------------------------------------------ *)
(** ** The SQLite database *)

(** The three tables of [_init_db], rows in rowid order, and the
    AUTOINCREMENT counters SQLite keeps in [sqlite_sequence]. *)
Record DB : Type := {
  iot_devices          : list IoTDevice.t;
  battery_readings     : list BatteryReading.t;
  battery_alerts       : list BatteryAlert.t;
  seq_iot_devices      : Z;
  seq_battery_readings : Z;
  seq_battery_alerts   : Z
}.

(** SQLite integers are 64-bit signed; binding a Python int outside that
    range to a statement parameter raises OverflowError. *)
Definition is_int64 (z : Z) : bool :=
  ((- 2 ^ 63 <=? z) && (z <=? 2 ^ 63 - 1))%Z.

Definition opt_int (z : option Z) : list Z :=
  match z with
  | Some i => [i]
  | None => []
  end.

(** The rowid an AUTOINCREMENT table gives its next row: one more than
    the largest rowid the table ever held.  When that was the largest
    rowid there is, the INSERT fails (SQLITE_FULL). *)
Definition next_rowid (seq : Z) (ids : list Z) : Z :=
  (Z.max seq (fold_right Z.max 0 ids) + 1)%Z.

Definition rowid_available (seq : Z) (ids : list Z) : bool :=
  (next_rowid seq ids <=? 2 ^ 63 - 1)%Z.

(** What a REAL column gives back for a float stored in it: SQLite keeps
    a float with an integer value as that integer, so a negative zero comes
    back as 0.0; every other number comes back as it went in. *)
Definition sqlite_real (x : float) : float :=
  if PrimFloat.eqb x 0 then 0%float else x.

(** Binding a Python float to a REAL column: SQLite has no NaN and stores
    NULL in its place. *)
Definition bind_real (x : float) : option float :=
  if PyFloat.isnan x then None else Some (sqlite_real x).

Definition bind_real_opt (x : option float) : option float :=
  match x with
  | Some v => bind_real v
  | None => None
  end.

(** The environment of one method call: [datetime.now().isoformat()] as
    Python reads it, and SQLite's [CURRENT_TIMESTAMP]. *)
Record Clock : Type := {
  now_isoformat     : string;
  current_timestamp : string
}.

(** Which store statements of a call fail: statement [k] (counted from 0
    in the order the method issues them, [commit] included) raises
    OperationalError when the oracle holds at [k]. *)
Definition Faults : Type := nat -> bool.

Definition no_faults : Faults := fun _ => false.

Definition shift (n : nat) (flt : Faults) : Faults := fun k => flt (n + k)%nat.

(* ------------------------------------------------------------------ *)
(** ** Methods as state transformers that may raise *)

Definition M (S A : Type) : Type := S -> outcome A * S.

Definition ret {S A : Type} (a : A) : M S A := fun s => (Returns a, s).

Definition bind {S A B : Type} (m : M S A) (k : A -> M S B) : M S B :=
  fun s =>
    match m s with
    | (Returns a, s') => k a s'
    | (Raises e, s') => (Raises e, s')
    end.

Definition lift {S A : Type} (o : outcome A) : M S A := fun s => (o, s).

Declare Scope py_scope.
Delimit Scope py_scope with py.
Notation "x <- m ;; k" := (bind m (fun x => k))
  (at level 61, m at next level, right associativity) : py_scope.
Notation "m ;;; k" := (bind m (fun _ => k))
  (at level 61, right associativity) : py_scope.

(** An open connection: what is committed, and the pending state the
    statements of the current transaction have produced. *)
Record connection : Type := {
  committed : DB;
  pending   : DB
}.

(** [conn.execute(sql, params)]: the Python ints among the parameters
    ([ints]) are bound first, then the statement runs on the pending
    state; a statement that fails changes nothing. *)
Definition execute {A : Type} (flt : Faults) (k : nat) (ints : list Z)
    (stmt : DB -> outcome (A * DB)) : M connection A :=
  fun c =>
    if flt k then (Raises OperationalError, c)
    else if negb (forallb is_int64 ints) then (Raises OverflowError, c)
    else match stmt (pending c) with
         | Returns (a, db') =>
             (Returns a, {| committed := committed c; pending := db' |})
         | Raises e => (Raises e, c)
         end.

(** [conn.commit()] *)
Definition commit (flt : Faults) (k : nat) : M connection unit :=
  fun c =>
    if flt k then (Raises OperationalError, c)
    else (Returns tt, {| committed := pending c; pending := pending c |}).

(** [with sqlite3.connect(db_path) as conn: body]: on normal exit the
    connection commits, on an exception it rolls back. *)
Definition with_connection {A : Type} (body : M connection A) : M DB A :=
  fun db =>
    match body {| committed := db; pending := db |} with
    | (Returns a, c) => (Returns a, pending c)
    | (Raises e, c) => (Raises e, committed c)
    end.

(* ------------------------------------------------------------------ *)
(** ** SQL statements of the module *)

(** The statements run on parameters that are bound: what [execute]
    let through. *)
Module Sql.

Open Scope Z_scope.

(** [SELECT * FROM iot_devices WHERE id = ?] then [fetchone()] *)
Definition select_device (device_id : Z) (db : DB)
    : outcome (option IoTDevice.t * DB) :=
  Returns (find (fun d => IoTDevice.id d =? device_id) (iot_devices db), db).

(** The later of two rows by [reading_time] (TEXT, compared bytewise);
    of two rows with the same text the one met first stays. *)
Definition later (best : option BatteryReading.t) (r : BatteryReading.t)
    : option BatteryReading.t :=
  match best with
  | None => Some r
  | Some b =>
      if String.ltb (BatteryReading.reading_time b)
                    (BatteryReading.reading_time r)
      then Some r else best
  end.

Definition latest_reading (device_id : Z) (rows : list BatteryReading.t)
    : option BatteryReading.t :=
  fold_left later
    (filter (fun r => BatteryReading.device_id r =? device_id) rows) None.

(** [SELECT battery_pct, reading_time FROM battery_readings
     WHERE device_id = ? ORDER BY reading_time DESC LIMIT 1] *)
Definition select_prev (device_id : Z) (db : DB)
    : outcome (option (float * string) * DB) :=
  Returns
    (option_map
       (fun r => (BatteryReading.battery_pct r, BatteryReading.reading_time r))
       (latest_reading device_id (battery_readings db)),
     db).

(** [INSERT INTO battery_readings (...) VALUES (?, ?, ?, ?, ?, ?, ?)];
    [battery_pct] is REAL NOT NULL.  Gives [cur.lastrowid]. *)
Definition insert_reading (device_id : Z) (ts : string) (battery_pct : float)
    (voltage_mv temperature_c : option float) (signal_rssi : option Z)
    (drain_rate : option float) (db : DB) : outcome (Z * DB) :=
  let ids := map BatteryReading.id (battery_readings db) in
  if negb (rowid_available (seq_battery_readings db) ids)
  then Raises OperationalError else
  match bind_real battery_pct with
  | None => Raises IntegrityError
  | Some pct =>
      let rowid := next_rowid (seq_battery_readings db) ids in
      Returns
        (rowid,
         {| iot_devices := iot_devices db;
            battery_readings :=
              battery_readings db ++
                [BatteryReading.mk rowid device_id ts pct
                   (bind_real_opt voltage_mv) (bind_real_opt temperature_c)
                   signal_rssi (bind_real_opt drain_rate)];
            battery_alerts := battery_alerts db;
            seq_iot_devices := seq_iot_devices db;
            seq_battery_readings := rowid;
            seq_battery_alerts := seq_battery_alerts db |})
  end.

Definition set_state (battery_pct : float) (ts new_status : string)
    (d : IoTDevice.t) : IoTDevice.t :=
  IoTDevice.mk (IoTDevice.id d) (IoTDevice.name d) (IoTDevice.device_type d)
    (IoTDevice.location d) (IoTDevice.battery_type d)
    (IoTDevice.battery_capacity_mah d)
    battery_pct ts new_status
    (IoTDevice.firmware_version d) (IoTDevice.notes d)
    (IoTDevice.created_at d).

(** [UPDATE iot_devices SET current_pct=?, last_seen=?, status=?
     WHERE id=?]; [current_pct] is REAL NOT NULL, checked on the rows the
    statement changes. *)
Definition update_device (battery_pct : float) (ts new_status : string)
    (device_id : Z) (db : DB) : outcome (unit * DB) :=
  if existsb (fun d => IoTDevice.id d =? device_id) (iot_devices db)
     && PyFloat.isnan battery_pct
  then Raises IntegrityError
  else
    Returns
      (tt,
       {| iot_devices :=
            map (fun d => if IoTDevice.id d =? device_id
                          then set_state (sqlite_real battery_pct) ts
                                 new_status d
                          else d)
                (iot_devices db);
          battery_readings := battery_readings db;
          battery_alerts := battery_alerts db;
          seq_iot_devices := seq_iot_devices db;
          seq_battery_readings := seq_battery_readings db;
          seq_battery_alerts := seq_battery_alerts db |}).

(** [INSERT INTO battery_alerts (device_id, alert_type, threshold,
     current_value, message) VALUES (?, ?, ?, ?, ?)]; [threshold] and
    [current_value] are REAL NOT NULL, [resolved] defaults to 0 and
    [created_at] to CURRENT_TIMESTAMP. *)
Definition insert_alert (now : string) (device_id : Z) (atype : string)
    (threshold current : float) (message : string) (db : DB)
    : outcome (unit * DB) :=
  let ids := map BatteryAlert.id (battery_alerts db) in
  if negb (rowid_available (seq_battery_alerts db) ids)
  then Raises OperationalError else
  match bind_real threshold, bind_real current with
  | Some th, Some cur =>
      let rowid := next_rowid (seq_battery_alerts db) ids in
      Returns
        (tt,
         {| iot_devices := iot_devices db;
            battery_readings := battery_readings db;
            battery_alerts :=
              battery_alerts db ++
                [BatteryAlert.mk rowid device_id atype th cur message
                   false (Some now)];
            seq_iot_devices := seq_iot_devices db;
            seq_battery_readings := seq_battery_readings db;
            seq_battery_alerts := rowid |})
  | _, _ => Raises IntegrityError
  end.

(** [INSERT INTO iot_devices (name, device_type, location, battery_type,
     battery_capacity_mah, current_pct, last_seen, firmware_version, notes)
     VALUES (?, ?, ?, ?, ?, 100.0, ?, ?, ?)]; [name] is UNIQUE, [status]
    defaults to 'online' and [created_at] to CURRENT_TIMESTAMP. *)
Definition insert_device (now : string) (name device_type location
    battery_type : string) (capacity_mah : Z) (ts firmware notes : string)
    (db : DB) : outcome (Z * DB) :=
  let ids := map IoTDevice.id (iot_devices db) in
  if negb (rowid_available (seq_iot_devices db) ids)
  then Raises OperationalError
  else if existsb (fun d => String.eqb (IoTDevice.name d) name)
                  (iot_devices db)
  then Raises IntegrityError
  else
    let rowid := next_rowid (seq_iot_devices db) ids in
    Returns
      (rowid,
       {| iot_devices :=
            iot_devices db ++
              [IoTDevice.mk rowid name device_type location battery_type
                 capacity_mah 100 ts "online" firmware notes (Some now)];
          battery_readings := battery_readings db;
          battery_alerts := battery_alerts db;
          seq_iot_devices := rowid;
          seq_battery_readings := seq_battery_readings db;
          seq_battery_alerts := seq_battery_alerts db |}).

(** [ORDER BY current_pct ASC]: a stable insertion sort on the REAL
    column. *)
Fixpoint insert_by_pct (d : IoTDevice.t) (l : list IoTDevice.t)
    : list IoTDevice.t :=
  match l with
  | [] => [d]
  | x :: l' =>
      if PrimFloat.leb (IoTDevice.current_pct d) (IoTDevice.current_pct x)
      then d :: l else x :: insert_by_pct d l'
  end.

Definition order_by_pct (l : list IoTDevice.t) : list IoTDevice.t :=
  fold_right insert_by_pct [] l.

(** [SELECT * FROM iot_devices [WHERE status = ?]
     ORDER BY current_pct ASC] then [fetchall()] *)
Definition select_devices (status : option string) (db : DB)
    : outcome (list IoTDevice.t * DB) :=
  Returns
    (order_by_pct
       (match status with
        | None => iot_devices db
        | Some s =>
            filter (fun d => String.eqb (IoTDevice.status d) s)
                   (iot_devices db)
        end),
     db).

(** [SELECT COUNT( * ) FROM battery_alerts WHERE resolved=0] *)
Definition count_unresolved (db : DB) : outcome (nat * DB) :=
  Returns
    (length (filter (fun a => negb (BatteryAlert.resolved a))
                    (battery_alerts db)),
     db).

End Sql.

(* ------------------------------------------------------------------ *)
(** ** Core business logic: [class BatteryManager] *)

(** The dict [fleet_status] returns, a field per key. *)
Record FleetStatus : Type := {
  total_devices   : nat;
  avg_battery_pct : float;
  healthy         : nat;
  warning         : nat;
  low             : nat;
  critical        : nat;
  active_alerts   : nat
}.

Module BatteryManager.

Section Methods.

Context {rt : PyRuntime}.

Open Scope py_scope.

Definition LOW_PCT : float := 30.
Definition CRITICAL_PCT : float := 15.

(** A fresh database file after [_init_db]: three empty tables. *)
Definition _init_db : DB :=
{| iot_devices := []; battery_readings := []; battery_alerts := [];
   seq_iot_devices := 0; seq_battery_readings := 0;
   seq_battery_alerts := 0 |}.

Definition _get_device (flt : Faults) (device_id : Z)
  : M DB (option IoTDevice.t) :=
with_connection (execute flt 0 [device_id] (Sql.select_device device_id)).

Definition add_device (clk : Clock) (flt : Faults)
  (name device_type location battery_type : string) (capacity_mah : Z)
  (firmware notes : string) : M DB (option IoTDevice.t) :=
let ts := now_isoformat clk in
lastrowid <-
  with_connection
    (rowid <- execute flt 0 [capacity_mah]
                (Sql.insert_device (current_timestamp clk) name
                   device_type location battery_type capacity_mah ts
                   firmware notes) ;;
     commit flt 1 ;;;
     ret rowid) ;;
_get_device (shift 2 flt) lastrowid.

(** The [if prev: try: ... except ValueError: pass] block of
  [record_reading]: the value [drain_rate] holds after it. *)
Definition drain_rate_of (ts : string) (prev : option (float * string))
  (battery_pct : float) : outcome (option float) :=
match prev with
| None => Returns None
| Some (prev_pct, prev_time) =>
    match fromisoformat ts with
    | None => Returns None
    | Some t1 =>
        match fromisoformat prev_time with
        | None => Returns None
        | Some t0 =>
            match datetime_sub t1 t0 with
            | Raises e => Raises e
            | Returns us =>
                match PyFloat.truediv_int (total_seconds us) 3600 with
                | Raises e => Raises e
                | Returns elapsed_h =>
                    if PyFloat.gtb elapsed_h 0 then
                      match PyFloat.truediv
                              (PrimFloat.sub prev_pct battery_pct)
                              elapsed_h with
                      | Raises e => Raises e
                      | Returns q => Returns (Some (PyFloat.round q 4))
                      end
                    else Returns None
                end
            end
        end
    end
end.

Definition new_status_of (battery_pct : float) : string :=
if PrimFloat.leb battery_pct CRITICAL_PCT then "critical"
else if PrimFloat.leb battery_pct LOW_PCT then "warning"
else "online".

Definition _fire_alert (clk : Clock) (flt : Faults) (device_id : Z)
  (atype : string) (threshold current : float) (message : string)
  : M DB unit :=
with_connection
  (execute flt 0 [device_id]
     (Sql.insert_alert (current_timestamp clk) device_id atype threshold
        current message) ;;;
   commit flt 1).

Definition _check_alerts (clk : Clock) (flt : Faults) (device_id : Z)
  (pct : float) : M DB unit :=
if PrimFloat.leb pct CRITICAL_PCT then
  _fire_alert clk flt device_id "critical" CRITICAL_PCT pct
    ("CRITICAL: battery at " ++ PyFloat.format_1f pct ++ "%!")
else if PrimFloat.leb pct LOW_PCT then
  _fire_alert clk flt device_id "low_battery" LOW_PCT pct
    ("Battery low: " ++ PyFloat.format_1f pct ++ "%")
else ret tt.

Definition record_reading (clk : Clock) (flt : Faults) (device_id : Z)
  (battery_pct : float) (voltage_mv temperature_c : option float)
  (signal_rssi : option Z) : M DB BatteryReading.t :=
let ts := now_isoformat clk in
res <-
  with_connection
    (prev <- execute flt 0 [device_id] (Sql.select_prev device_id) ;;
     drain_rate <- lift (drain_rate_of ts prev battery_pct) ;;
     let new_status := new_status_of battery_pct in
     lastrowid <- execute flt 1 (device_id :: opt_int signal_rssi)
                    (Sql.insert_reading device_id ts battery_pct
                       voltage_mv temperature_c signal_rssi drain_rate) ;;
     execute flt 2 [device_id]
       (Sql.update_device battery_pct ts new_status device_id) ;;;
     commit flt 3 ;;;
     ret (lastrowid, drain_rate)) ;;
_check_alerts clk (shift 4 flt) device_id battery_pct ;;;
ret (BatteryReading.mk (fst res) device_id ts battery_pct voltage_mv
       temperature_c signal_rssi (snd res)).

Definition list_devices (flt : Faults) (status : option string)
  : M DB (list IoTDevice.t) :=
let status :=
  match status with
  | Some EmptyString => None      (* [if status:] *)
  | s => s
  end in
with_connection (execute flt 0 [] (Sql.select_devices status)).

Definition count_if (p : IoTDevice.t -> bool) (devices : list IoTDevice.t)
  : nat :=
length (filter p devices).

Definition fleet_status (flt : Faults) : M DB FleetStatus :=
devices <- list_devices flt None ;;
let total := length devices in
alerts <- with_connection
            (execute (shift 1 flt) 0 [] Sql.count_unresolved) ;;
avg <- lift
         (if Nat.eqb total 0 then Returns 0%float
          else match PyFloat.truediv_int
                       (py_sum (map IoTDevice.current_pct devices))
                       (Z.of_nat total) with
               | Raises e => Raises e
               | Returns q => Returns (PyFloat.round q 1)
               end) ;;
ret {| total_devices := total;
       avg_battery_pct := avg;
       healthy :=
         count_if (fun d => PyFloat.geb (IoTDevice.current_pct d) 60)
                  devices;
       warning :=
         count_if (fun d => PrimFloat.leb 30 (IoTDevice.current_pct d)
                            && PrimFloat.ltb (IoTDevice.current_pct d) 60)
                  devices;
       low :=
         count_if (fun d => PrimFloat.leb 15 (IoTDevice.current_pct d)
                            && PrimFloat.ltb (IoTDevice.current_pct d) 30)
                  devices;
       critical :=
         count_if (fun d => PrimFloat.ltb (IoTDevice.current_pct d) 15)
                  devices;
       active_alerts := alerts |}.

End Methods.

End BatteryManager.

(* ------------------------------------------------------------------ *)
(** ** A runtime to run the methods on concrete inputs *)

(** Instances of [PyRuntime] for evaluating the methods: a parser of the
    texts [datetime.isoformat()] itself writes, [YYYY-MM-DD*HH:MM:SS] with
    any one character for [*], then [.ffffff] or nothing, then a UTC
    offset [+HH:MM] or [-HH:MM] or nothing (an aware value), with the plain
    or with the compensated sum.  [datetime.fromisoformat] accepts more
    texts than these (a date alone, a time without seconds, and more from
    one interpreter version to the next), which is why the theorems below
    are stated for every runtime; these two only serve the examples, on
    texts of the form above. *)
Module BasicRuntime.

Open Scope Z_scope.

Definition digit (c : ascii) : option Z :=
  let n := Z.of_N (N_of_ascii c) in
  if (48 <=? n) && (n <=? 57) then Some (n - 48) else None.

Fixpoint digits (n : nat) (s : string) (acc : Z) : option (Z * string) :=
  match n with
  | O => Some (acc, s)
  | S n' =>
      match s with
      | String c s' =>
          match digit c with
          | Some d => digits n' s' (acc * 10 + d)
          | None => None
          end
      | EmptyString => None
      end
  end.

Definition expect (c : ascii) (s : string) : option string :=
  match s with
  | String c' s' => if Ascii.eqb c c' then Some s' else None
  | EmptyString => None
  end.

Definition is_leap (y : Z) : bool :=
  (y mod 4 =? 0) && (negb (y mod 100 =? 0) || (y mod 400 =? 0)).

Definition days_in_month (y m : Z) : Z :=
  if m =? 2 then (if is_leap y then 29 else 28)
  else if (m =? 4) || (m =? 6) || (m =? 9) || (m =? 11) then 30
  else 31.

Definition days_before_year (y : Z) : Z :=
  let p := y - 1 in p * 365 + p / 4 - p / 100 + p / 400.

Definition days_before_month (y m : Z) : Z :=
  fold_right Z.add 0
    (map (days_in_month y)
         (filter (fun k => k <? m) [1; 2; 3; 4; 5; 6; 7; 8; 9; 10; 11])).

Definition obind {A B : Type} (o : option A) (k : A -> option B)
    : option B :=
  match o with
  | Some a => k a
  | None => None
  end.

Definition skip (s : string) : option string :=
  match s with
  | String _ s' => Some s'
  | EmptyString => None
  end.

(** The microseconds, when the text goes on with [.ffffff]. *)
Definition fraction (s : string) : option (Z * string) :=
  match expect "." s with
  | Some s' => digits 6 s' 0
  | None => Some (0, s)
  end.

(** The UTC offset in microseconds that ends the text, if any. *)
Definition offset (s : string) : option (option Z) :=
  match s with
  | EmptyString => Some None
  | String c s' =>
      obind (if Ascii.eqb c "+" then Some 1
             else if Ascii.eqb c "-" then Some (-1) else None) (fun sign =>
      obind (digits 2 s' 0) (fun '(h, s) =>
      obind (expect ":" s) (fun s =>
      obind (digits 2 s 0) (fun '(mi, s) =>
      match s with
      | EmptyString =>
          if (h <? 24) && (mi <? 60)
          then Some (Some (sign * ((h * 60 + mi) * 60 * 1000000)))
          else None
      | _ => None
      end))))
  end.

Definition fromisoformat_basic (s : string) : option datetime :=
  obind (digits 4 s 0) (fun '(y, s) =>
  obind (expect "-" s) (fun s =>
  obind (digits 2 s 0) (fun '(mo, s) =>
  obind (expect "-" s) (fun s =>
  obind (digits 2 s 0) (fun '(d, s) =>
  obind (skip s) (fun s =>
  obind (digits 2 s 0) (fun '(h, s) =>
  obind (expect ":" s) (fun s =>
  obind (digits 2 s 0) (fun '(mi, s) =>
  obind (expect ":" s) (fun s =>
  obind (digits 2 s 0) (fun '(sec, s) =>
  obind (fraction s) (fun '(us, s) =>
  obind (offset s) (fun off =>
  if (1 <=? y) && (1 <=? mo) && (mo <=? 12) && (1 <=? d)
     && (d <=? days_in_month y mo) && (h <? 24) && (mi <? 60) && (sec <? 60)
  then
    Some {| wall_us :=
              ((((days_before_year y + days_before_month y mo + (d - 1))
                 * 24 + h) * 60 + mi) * 60 + sec) * 1000000 + us;
            utcoffset := off |}
  else None))))))))))))).

Definition basic : PyRuntime :=
  {| fromisoformat := fromisoformat_basic; compensated_sum := false |}.

Definition compensated : PyRuntime :=
  {| fromisoformat := fromisoformat_basic; compensated_sum := true |}.

End BasicRuntime.

(* ------------------------------------------------------------------ *)
(** ** Clients and invariants used to state the properties *)

(** One [record_reading] call of a client: its clock, the faults the store
    shows during the call, and the telemetry. *)
Record Ingestion : Type := {
  at_clock      : Clock;
  store_faults  : Faults;
  reported_pct  : float;
  reported_mv   : option float;
  reported_temp : option float;
  reported_rssi : option Z
}.

(** A client that ingests a sequence of readings for one device, one
    [record_reading] call after the other, and stops at the first
    exception. *)
Fixpoint ingest_all {rt : PyRuntime} (device_id : Z) (l : list Ingestion)
    : M DB unit :=
  match l with
  | [] => ret tt
  | i :: l' =>
      bind (BatteryManager.record_reading (at_clock i) (store_faults i)
              device_id (reported_pct i) (reported_mv i) (reported_temp i)
              (reported_rssi i))
           (fun _ => ingest_all device_id l')
  end.

(** A reading qualifies for an alert when its level is at most
    [LOW_PCT]. *)
Definition qualifies (i : Ingestion) : bool :=
  PrimFloat.leb (reported_pct i) BatteryManager.LOW_PCT.

(** [iot_devices.current_pct] is REAL NOT NULL: no row holds a NaN. *)
Definition real_not_null (devices : list IoTDevice.t) : Prop :=
  Forall (fun d => PyFloat.isnan (IoTDevice.current_pct d) = false) devices.

(** The rows [_check_alerts] appends to [battery_alerts] when its store
    statements succeed, over a table [alerts] with counter [seq]. *)
Definition new_alerts (clk : Clock) (device_id : Z) (pct : float)
    (seq : Z) (alerts : list BatteryAlert.t) : list BatteryAlert.t :=
  let rowid := next_rowid seq (map BatteryAlert.id alerts) in
  if PrimFloat.leb pct BatteryManager.CRITICAL_PCT then
    [BatteryAlert.mk rowid device_id "critical" BatteryManager.CRITICAL_PCT
       (sqlite_real pct)
       ("CRITICAL: battery at " ++ PyFloat.format_1f pct ++ "%!")
       false (Some (current_timestamp clk))]
  else if PrimFloat.leb pct BatteryManager.LOW_PCT then
    [BatteryAlert.mk rowid device_id "low_battery" BatteryManager.LOW_PCT
       (sqlite_real pct)
       ("Battery low: " ++ PyFloat.format_1f pct ++ "%")
       false (Some (current_timestamp clk))]
  else [].

(** What the statements of [record_reading] write: the device rows after
    its UPDATE, the row its INSERT appends, and the row its SELECT reads. *)
Definition update_rows (battery_pct : float) (ts : string) (device_id : Z)
    (rows : list IoTDevice.t) : list IoTDevice.t :=
  map (fun d => if (IoTDevice.id d =? device_id)%Z
                then Sql.set_state (sqlite_real battery_pct) ts
                       (BatteryManager.new_status_of battery_pct) d
                else d) rows.

Definition reading_row (clk : Clock) (device_id : Z) (battery_pct : float)
    (voltage_mv temperature_c : option float) (signal_rssi : option Z)
    (drain_rate : option float) (db : DB) : BatteryReading.t :=
  BatteryReading.mk
    (next_rowid (seq_battery_readings db)
       (map BatteryReading.id (battery_readings db)))
    device_id (now_isoformat clk) (sqlite_real battery_pct)
    (bind_real_opt voltage_mv) (bind_real_opt temperature_c) signal_rssi
    (bind_real_opt drain_rate).

Definition prev_of (device_id : Z) (db : DB) : option (float * string) :=
  option_map
    (fun r => (BatteryReading.battery_pct r, BatteryReading.reading_time r))
    (Sql.latest_reading device_id (battery_readings db)).

(** The databases the methods commit: after the with-block of
    [record_reading], after the INSERT of [_fire_alert], after the INSERT
    of [add_device]. *)
Definition ingested (clk : Clock) (device_id : Z) (battery_pct : float)
    (voltage_mv temperature_c : option float) (signal_rssi : option Z)
    (drain_rate : option float) (db : DB) : DB :=
  {| iot_devices :=
       update_rows battery_pct (now_isoformat clk) device_id (iot_devices db);
     battery_readings :=
       battery_readings db ++
         [reading_row clk device_id battery_pct voltage_mv temperature_c
            signal_rssi drain_rate db];
     battery_alerts := battery_alerts db;
     seq_iot_devices := seq_iot_devices db;
     seq_battery_readings :=
       next_rowid (seq_battery_readings db)
         (map BatteryReading.id (battery_readings db));
     seq_battery_alerts := seq_battery_alerts db |}.

Definition alerted (clk : Clock) (device_id : Z) (pct : float) (db : DB)
    : DB :=
  {| iot_devices := iot_devices db;
     battery_readings := battery_readings db;
     battery_alerts :=
       battery_alerts db ++
         new_alerts clk device_id pct (seq_battery_alerts db)
           (battery_alerts db);
     seq_iot_devices := seq_iot_devices db;
     seq_battery_readings := seq_battery_readings db;
     seq_battery_alerts :=
       next_rowid (seq_battery_alerts db)
         (map BatteryAlert.id (battery_alerts db)) |}.

Definition device_row (clk : Clock) (name device_type location
    battery_type : string) (capacity_mah : Z) (firmware notes : string)
    (db : DB) : IoTDevice.t :=
  IoTDevice.mk
    (next_rowid (seq_iot_devices db) (map IoTDevice.id (iot_devices db)))
    name device_type location battery_type capacity_mah 100
    (now_isoformat clk) "online" firmware notes
    (Some (current_timestamp clk)).

Definition with_device (d : IoTDevice.t) (db : DB) : DB :=
  {| iot_devices := iot_devices db ++ [d];
     battery_readings := battery_readings db;
     battery_alerts := battery_alerts db;
     seq_iot_devices := IoTDevice.id d;
     seq_battery_readings := seq_battery_readings db;
     seq_battery_alerts := seq_battery_alerts db |}.

(** Room for one more row in each AUTOINCREMENT table. *)
Definition devices_not_full (db : DB) : Prop :=
  rowid_available (seq_iot_devices db)
    (map IoTDevice.id (iot_devices db)) = true.

Definition readings_not_full (db : DB) : Prop :=
  rowid_available (seq_battery_readings db)
    (map BatteryReading.id (battery_readings db)) = true.

Definition alerts_not_full (db : DB) : Prop :=
  rowid_available (seq_battery_alerts db)
    (map BatteryAlert.id (battery_alerts db)) = true.

(** The ints of a [record_reading] call that SQLite can hold. *)
Definition bindable (device_id : Z) (signal_rssi : option Z) : Prop :=
  is_int64 device_id = true /\
  forall z, signal_rssi = Some z -> is_int64 z = true.

(** The health buckets of the specification as conditions on a level:
    healthy [>= 60], warning [[30, 60)], low [[15, 30)], critical [< 15];
    [Bucket.count] is 1 for a level in the bucket and 0 otherwise. *)
Module Bucket.

Definition healthy (x : float) : bool := PrimFloat.leb 60 x.

Definition warning (x : float) : bool :=
  PrimFloat.leb 30 x && PrimFloat.ltb x 60.

Definition low (x : float) : bool :=
  PrimFloat.leb 15 x && PrimFloat.ltb x 30.

Definition critical (x : float) : bool := PrimFloat.ltb x 15.

Definition count (b : bool) : nat := if b then 1 else 0.

End Bucket.

(** The scenario of section 8 of the specification, on [BasicRuntime]:
    register "sensor-1", then ingest 80, 50, 20 and 10 percent. *)
Module Scenario.

Definition clock (ts : string) : Clock :=
  {| now_isoformat := ts; current_timestamp := "2024-01-01 08:00:00" |}.

Definition registered : DB :=
  snd (BatteryManager.add_device (clock "2024-01-01T09:00:00") no_faults
         "sensor-1" "sensor" "lab" "LiPo" 2000 "1.0.0" ""
         BatteryManager._init_db).

Definition ingest (ts : string) (pct : float) : M DB BatteryReading.t :=
  BatteryManager.record_reading (rt := BasicRuntime.basic) (clock ts)
    no_faults 1 pct None None None.

Definition after_80 : DB := snd (ingest "2024-01-01T10:00:00" 80 registered).
Definition after_50 : DB := snd (ingest "2024-01-01T11:00:00" 50 after_80).
Definition after_20 : DB := snd (ingest "2024-01-01T12:00:00" 20 after_50).
Definition after_10 : DB := snd (ingest "2024-01-01T13:00:00" 10 after_20).

(** A fleet of four devices at 80, 45, 15 and 10 percent. *)
Definition register (name : string) (db : DB) : DB :=
  snd (BatteryManager.add_device (clock "2024-01-01T09:00:00") no_faults
         name "sensor" "lab" "LiPo" 2000 "1.0.0" "" db).

Definition report (device_id : Z) (pct : float) (db : DB) : DB :=
  snd (BatteryManager.record_reading (rt := BasicRuntime.basic)
         (clock "2024-01-01T10:00:00") no_faults device_id pct
         None None None db).

Definition fleet : DB :=
  report 4 10 (report 3 15 (report 2 45 (report 1 80
    (register "d" (register "c" (register "b" (register "a"
       BatteryManager._init_db))))))).

(** A fleet of three devices at 80, 15 and 5 percent: the mean is not a
    number with one decimal. *)
Definition trio : DB :=
  report 3 5 (report 2 15 (report 1 80
    (register "c" (register "b" (register "a" BatteryManager._init_db))))).

(** Three devices that reported 1e100, 1 and -1e100 (no range is
    enforced): levels on which the plain and the compensated sum
    differ. *)
Definition wild : DB :=
  report 3 (-1e100) (report 2 1 (report 1 1e100
    (register "c" (register "b" (register "a" BatteryManager._init_db))))).

(** "sensor-1" with one reading whose timestamp carries a UTC offset. *)
Definition aware_80 : DB :=
  snd (ingest "2024-01-01T10:00:00+00:00" 80 registered).

End Scenario.

(** The fields of a device row that [record_reading] does not set. *)
Definition identity_of (d : IoTDevice.t) :=
  (IoTDevice.id d, IoTDevice.name d, IoTDevice.device_type d,
   IoTDevice.location d, IoTDevice.battery_type d,
   IoTDevice.battery_capacity_mah d, IoTDevice.firmware_version d,
   IoTDevice.notes d, IoTDevice.created_at d).

(* ------------------------------------------------------------------ *)
(** ** [export_json] *)

(** The [payload] dict of [export_json], a field per key. *)
Module ExportPayload.

Record t : Type := mk {
  exported_at   : string;
  fleet_status  : FleetStatus;
  devices       : list IoTDevice.t;
  active_alerts : list BatteryAlert.t
}.

End ExportPayload.

Module JsonExport.

(** Order of the nullable TEXT column [created_at]: NULL is below every
    text. *)
Definition created_before (a b : option string) : bool :=
  match a, b with
  | None, Some _ => true
  | Some x, Some y => String.ltb x y
  | _, _ => false
  end.

(** [ORDER BY created_at DESC]: a stable insertion sort, latest first. *)
Fixpoint insert_by_created (a : BatteryAlert.t) (l : list BatteryAlert.t)
    : list BatteryAlert.t :=
  match l with
  | [] => [a]
  | x :: l' =>
      if created_before (BatteryAlert.created_at a) (BatteryAlert.created_at x)
      then x :: insert_by_created a l' else a :: l
  end.

(** [SELECT * FROM battery_alerts WHERE resolved=0
     ORDER BY created_at DESC] then [fetchall()] *)
Definition select_unresolved (db : DB)
    : outcome (list BatteryAlert.t * DB) :=
  Returns
    (fold_right insert_by_created []
       (filter (fun a => negb (BatteryAlert.resolved a)) (battery_alerts db)),
     db).

(** [export_json(output_path)]: the value is the path together with the
    document [json.dump] is given; the file itself is outside the model.
    The statements are numbered as the call issues them: the SELECT of
    [list_devices], the SELECT of the alerts, the two of
    [fleet_status]. *)
Definition export_json {rt : PyRuntime} (clk : Clock) (flt : Faults)
    (output_path : string) : M DB (string * ExportPayload.t) :=
  bind (BatteryManager.list_devices flt None) (fun devices =>
  bind (with_connection (execute (shift 1 flt) 0 [] select_unresolved))
       (fun alerts =>
  bind (BatteryManager.fleet_status (shift 2 flt)) (fun fs =>
  ret (output_path,
       ExportPayload.mk (now_isoformat clk) fs devices alerts)))).

End JsonExport.

(* ------------------------------------------------------------------ *)
(** ** Display helpers *)

Module Display.

Open Scope string_scope.

(** The ANSI colour constants of the module ([\033] is the escape
    character). *)
Definition ESC : string := String "027"%char EmptyString.
Definition GREEN : string := ESC ++ "[0;32m".
Definition RED : string := ESC ++ "[0;31m".
Definition YELLOW : string := ESC ++ "[1;33m".
Definition NC : string := ESC ++ "[0m".

(** What [int(x)] and the conversion of an int operand raise. *)
Inductive conversion_error : Type :=
| ValueError       (* cannot convert float NaN to integer *)
| OverflowError.   (* cannot convert float infinity to integer;
                      int too large to convert to float *)

(** [int(x)] on a float: truncation toward zero. *)
Definition int_of_float (x : float) : Z + conversion_error :=
  match Prim2SF x with
  | S754_zero _ => inl 0%Z
  | S754_infinity _ => inr OverflowError
  | S754_nan => inr ValueError
  | S754_finite s m e =>
      let a := (if 0 <=? e then Z.pos m * 2 ^ e
                else Z.pos m / 2 ^ (- e))%Z in
      inl (if s then (- a)%Z else a)
  end.

(** [float(n)] for an int operand of a float operation. *)
Definition float_of_int (n : Z) : float + conversion_error :=
  match Prim2SF (PyFloat.of_int n) with
  | S754_infinity _ => inr OverflowError
  | _ => inl (PyFloat.of_int n)
  end.

(** [s * n]: [n] copies of [s], none for [n <= 0]. *)
Fixpoint repeat_string (s : string) (n : nat) : string :=
  match n with
  | O => ""
  | S k => s ++ repeat_string s k
  end.

(** [f"{x:5.1f}"]: one decimal, right-aligned in 5 columns. *)
Definition format_5_1f (x : float) : string :=
  let s := PyFloat.format_1f x in
  repeat_string " " (5 - String.length s) ++ s.

(** [min(pct, 100)]: the first argument unless the second is smaller
    (the int 100 then; dividing it by 100 gives 1.0 as for 100.0). *)
Definition min_100 (pct : float) : float :=
  if PrimFloat.ltb 100 pct then 100%float else pct.

Definition bar_color (pct : float) : string :=
  if PyFloat.geb pct 60 then GREEN
  else if PyFloat.geb pct 30 then YELLOW else RED.

Definition bar_icon (pct : float) : string :=
  if PyFloat.geb pct 30 then "🔋" else "🪫".

(** [_batt_bar(pct, width)]; the source's default width is 12.  The
    division is by the literal 100, so it cannot raise. *)
Definition _batt_bar (pct : float) (width : Z) : string + conversion_error :=
  let fraction := PrimFloat.div (min_100 pct) (PyFloat.of_int 100) in
  match float_of_int width with
  | inr e => inr e
  | inl w =>
      match int_of_float (PrimFloat.mul fraction w) with
      | inr e => inr e
      | inl filled =>
          inl (bar_icon pct ++ " " ++ bar_color pct
               ++ repeat_string "█" (Z.to_nat filled)
               ++ repeat_string "░" (Z.to_nat (width - filled))
               ++ NC ++ " " ++ format_5_1f pct ++ "%")
      end
  end.

End Display.

(* ================================================================== *)
(** * Properties *)

Unset Implicit Arguments.

(** ** Order of binary64 values *)

Module FloatFacts.

Lemma pos_compare_cont_Eq (p q : positive) :
  PosDef.Pos.compare_cont Eq p q = Pos.compare p q.
Proof. reflexivity. Qed.

Lemma SFcompare_antisym (x y : spec_float) :
  SFcompare y x = option_map CompOpp (SFcompare x y).
Proof.
  destruct x as [sx|sx| |sx mx ex], y as [sy|sy| |sy my ey]; simpl;
    try reflexivity;
    try (destruct sx; reflexivity); try (destruct sy; reflexivity);
    try (destruct sx, sy; reflexivity).
  rewrite !pos_compare_cont_Eq.
  rewrite (Z.compare_antisym ex ey), (Pos.compare_antisym mx my).
  destruct sx, sy; simpl; try reflexivity;
    destruct (ex ?= ey)%Z; simpl; try reflexivity;
    destruct (mx ?= my)%positive; reflexivity.
Qed.

Lemma SFcompare_refl (x : spec_float) :
  SFcompare x x = match x with S754_nan => None | _ => Some Eq end.
Proof.
  destruct x as [s|s| |s m e]; simpl; try reflexivity.
  - destruct s; reflexivity.
  - rewrite pos_compare_cont_Eq, Z.compare_refl, Pos.compare_refl.
    destruct s; reflexivity.
Qed.

Lemma SFcompare_None (x y : spec_float) :
  SFcompare x y = None <-> x = S754_nan \/ y = S754_nan.
Proof.
  destruct x as [sx|sx| |sx mx ex], y as [sy|sy| |sy my ey]; simpl;
    split; intros H; try discriminate; auto;
    try (destruct H as [H|H]; discriminate).
Qed.

Lemma SFleb_trans (x y z : spec_float) :
  SFleb x y = true -> SFleb y z = true -> SFleb x z = true.
Proof.
  unfold SFleb.
  destruct x as [sx|sx| |sx mx ex], y as [sy|sy| |sy my ey],
           z as [sz|sz| |sz mz ez]; simpl;
    try discriminate; try reflexivity;
    try (destruct sx; simpl; (discriminate || reflexivity));
    try (destruct sy; simpl; (discriminate || reflexivity));
    try (destruct sz; simpl; (discriminate || reflexivity));
    try (destruct sx, sy; simpl; (discriminate || reflexivity));
    try (destruct sx, sz; simpl; (discriminate || reflexivity));
    try (destruct sy, sz; simpl; (discriminate || reflexivity));
    try (destruct sx, sy, sz; simpl; (discriminate || reflexivity)).
  change (PosDef.Pos.compare_cont Eq) with Pos.compare.
  destruct sx, sy, sz; simpl; try discriminate; try reflexivity;
    destruct (Z.compare_spec ex ey), (Z.compare_spec ey ez),
             (Z.compare_spec ex ez); simpl;
    try discriminate; try reflexivity; try lia;
    destruct (Pos.compare_spec mx my), (Pos.compare_spec my mz),
             (Pos.compare_spec mx mz); simpl;
    try discriminate; try reflexivity; try lia.
Qed.

(** A float that compares equal to zero is one of the two zeros. *)
Lemma SFeqb_zero (x : spec_float) :
  SFeqb x (S754_zero false) = true -> exists s, x = S754_zero s.
Proof.
  unfold SFeqb. destruct x as [s|s| |s m e]; cbn; try discriminate.
  - eauto.
  - destruct s; discriminate.
  - destruct s; discriminate.
Qed.

(** The two zeros compare alike with every float. *)
Lemma SFcompare_zero (s : bool) (y : spec_float) :
  SFcompare (S754_zero s) y = SFcompare (S754_zero false) y.
Proof. destruct y; reflexivity. Qed.

Open Scope float_scope.

Lemma isnan_spec (x : float) :
  PyFloat.isnan x =
    match Prim2SF x with S754_nan => true | _ => false end.
Proof.
  unfold PyFloat.isnan, PrimFloat.is_nan.
  rewrite FloatAxioms.eqb_spec. unfold SFeqb.
  rewrite SFcompare_refl. destruct (Prim2SF x); reflexivity.
Qed.

Lemma leb_trans (x y z : float) :
  (x <=? y) = true -> (y <=? z) = true -> (x <=? z) = true.
Proof. rewrite !leb_spec. apply SFleb_trans. Qed.

(** For numbers, [x < y] is the negation of [y <= x]. *)
Lemma ltb_negb_leb (x y : float) :
  PyFloat.isnan x = false -> PyFloat.isnan y = false ->
  (x <? y) = negb (y <=? x).
Proof.
  rewrite !isnan_spec, ltb_spec, leb_spec. unfold SFltb, SFleb.
  rewrite (SFcompare_antisym (Prim2SF x) (Prim2SF y)).
  intros Hx Hy.
  destruct (SFcompare (Prim2SF x) (Prim2SF y)) as [[]|] eqn:E;
    try reflexivity.
  apply SFcompare_None in E.
  destruct E as [E|E]; rewrite E in *; discriminate.
Qed.

(** With or without NaN, [x < y] excludes [y <= x]. *)
Lemma ltb_leb_false (x y : float) :
  (x <? y) = true -> (y <=? x) = false.
Proof.
  rewrite ltb_spec, leb_spec. unfold SFltb, SFleb.
  rewrite (SFcompare_antisym (Prim2SF x) (Prim2SF y)).
  destruct (SFcompare (Prim2SF x) (Prim2SF y)) as [[]|];
    simpl; congruence.
Qed.

Lemma leb_isnan (x y : float) :
  (x <=? y) = true -> PyFloat.isnan x = false /\ PyFloat.isnan y = false.
Proof.
  rewrite !isnan_spec, leb_spec. unfold SFleb.
  destruct (Prim2SF x), (Prim2SF y); simpl; auto; discriminate.
Qed.

Lemma ltb_isnan (x y : float) :
  (x <? y) = true -> PyFloat.isnan x = false /\ PyFloat.isnan y = false.
Proof.
  rewrite !isnan_spec, ltb_spec. unfold SFltb.
  destruct (Prim2SF x), (Prim2SF y); simpl; auto; discriminate.
Qed.

Lemma ltb_leb (x y : float) : (x <? y) = true -> (x <=? y) = true.
Proof.
  rewrite ltb_spec, leb_spec. unfold SFltb, SFleb.
  destruct (SFcompare (Prim2SF x) (Prim2SF y)) as [[]|]; congruence.
Qed.

(** A positive float is not zero: dividing by it never raises. *)
Lemma gtb_zero_nonzero (y : float) :
  PyFloat.gtb y 0 = true -> (y =? 0) = false.
Proof.
  unfold PyFloat.gtb. rewrite ltb_spec, FloatAxioms.eqb_spec.
  unfold SFltb, SFeqb. rewrite (SFcompare_antisym (Prim2SF 0) (Prim2SF y)).
  destruct (SFcompare (Prim2SF 0) (Prim2SF y)) as [[]|];
    simpl; congruence.
Qed.

End FloatFacts.

(** ** What a REAL column holds *)

Section StoredReals.

Open Scope float_scope.

(** A float that compares equal to zero is stored as 0.0; any other
    float is stored as it is. *)
Lemma sqlite_real_zero (x : float) :
  (x =? 0) = true -> sqlite_real x = 0.
Proof. unfold sqlite_real. intros ->. reflexivity. Qed.

Lemma sqlite_real_nonzero (x : float) :
  (x =? 0) = false -> sqlite_real x = x.
Proof. unfold sqlite_real. intros ->. reflexivity. Qed.

(** Only a negative zero is changed by being stored. *)
Lemma sqlite_real_same (x : float) :
  Prim2SF x <> S754_zero true -> sqlite_real x = x.
Proof.
  intros Hx. unfold sqlite_real.
  destruct (x =? 0) eqn:E; [|reflexivity].
  rewrite FloatAxioms.eqb_spec in E.
  change (Prim2SF 0) with (S754_zero false) in E.
  apply FloatFacts.SFeqb_zero in E. destruct E as [s E].
  destruct s; [contradiction|].
  apply Prim2SF_inj. rewrite E. reflexivity.
Qed.

Lemma sqlite_real_neg_zero : sqlite_real (-0) = 0.
Proof. reflexivity. Qed.

(** The stored value compares with every float as the bound one does. *)
Lemma sqlite_real_SF (x : float) (y : spec_float) :
  SFcompare (Prim2SF (sqlite_real x)) y = SFcompare (Prim2SF x) y /\
  SFcompare y (Prim2SF (sqlite_real x)) = SFcompare y (Prim2SF x).
Proof.
  assert (H : SFcompare (Prim2SF (sqlite_real x)) y
              = SFcompare (Prim2SF x) y).
  { unfold sqlite_real. destruct (x =? 0) eqn:E; [|reflexivity].
    rewrite FloatAxioms.eqb_spec in E.
    change (Prim2SF 0) with (S754_zero false) in E.
    apply FloatFacts.SFeqb_zero in E. destruct E as [s E]. rewrite E.
    change (Prim2SF 0) with (S754_zero false).
    symmetry. apply FloatFacts.SFcompare_zero. }
  split; [exact H|].
  rewrite (FloatFacts.SFcompare_antisym (Prim2SF (sqlite_real x)) y), H.
  symmetry. apply FloatFacts.SFcompare_antisym.
Qed.

Lemma sqlite_real_leb_l (x y : float) : (sqlite_real x <=? y) = (x <=? y).
Proof.
  rewrite !leb_spec. unfold SFleb.
  rewrite (proj1 (sqlite_real_SF x (Prim2SF y))). reflexivity.
Qed.

Lemma sqlite_real_leb_r (x y : float) : (y <=? sqlite_real x) = (y <=? x).
Proof.
  rewrite !leb_spec. unfold SFleb.
  rewrite (proj2 (sqlite_real_SF x (Prim2SF y))). reflexivity.
Qed.

Lemma sqlite_real_ltb_l (x y : float) : (sqlite_real x <? y) = (x <? y).
Proof.
  rewrite !ltb_spec. unfold SFltb.
  rewrite (proj1 (sqlite_real_SF x (Prim2SF y))). reflexivity.
Qed.

Lemma sqlite_real_ltb_r (x y : float) : (y <? sqlite_real x) = (y <? x).
Proof.
  rewrite !ltb_spec. unfold SFltb.
  rewrite (proj2 (sqlite_real_SF x (Prim2SF y))). reflexivity.
Qed.

(** The stored value is equal, as floats compare, to the bound number. *)
Lemma sqlite_real_eqb (x : float) :
  PyFloat.isnan x = false -> (sqlite_real x =? x) = true.
Proof.
  intros Hx. rewrite FloatAxioms.eqb_spec. unfold SFeqb.
  rewrite (proj1 (sqlite_real_SF x (Prim2SF x))).
  rewrite FloatFacts.SFcompare_refl.
  rewrite FloatFacts.isnan_spec in Hx.
  destruct (Prim2SF x); try reflexivity. discriminate.
Qed.

Lemma sqlite_real_isnan (x : float) :
  PyFloat.isnan (sqlite_real x) = PyFloat.isnan x.
Proof.
  unfold sqlite_real. destruct (x =? 0) eqn:E; [|reflexivity].
  rewrite (FloatFacts.isnan_spec x).
  rewrite FloatAxioms.eqb_spec in E.
  change (Prim2SF 0) with (S754_zero false) in E.
  apply FloatFacts.SFeqb_zero in E. destruct E as [s E]. rewrite E.
  reflexivity.
Qed.

(** Storing is idempotent: a value read from a REAL column is stored as
    it is. *)
Lemma sqlite_real_idem (x : float) :
  sqlite_real (sqlite_real x) = sqlite_real x.
Proof.
  destruct (x =? 0) eqn:E.
  - rewrite (sqlite_real_zero x E). reflexivity.
  - rewrite (sqlite_real_nonzero x E). apply sqlite_real_nonzero. exact E.
Qed.

Lemma bind_real_Some (x : float) :
  PyFloat.isnan x = false -> bind_real x = Some (sqlite_real x).
Proof. unfold bind_real. intros ->. reflexivity. Qed.

Lemma bind_real_None (x : float) :
  PyFloat.isnan x = true -> bind_real x = None.
Proof. unfold bind_real. intros ->. reflexivity. Qed.

End StoredReals.

(** ** Decimal rounding *)

Section DecimalRounding.

Open Scope Z_scope.

Lemma round_half_even_nearest (num den : Z) :
  0 < den -> nearest_int num den (PyFloat.round_half_even num den).
Proof.
  intros Hden. unfold nearest_int, PyFloat.round_half_even.
  pose proof (Z.div_mod num den ltac:(lia)) as Hdm.
  pose proof (Z.mod_pos_bound num den Hden) as Hr.
  set (q := num / den) in *. set (r := num mod den) in *.
  destruct (Z.compare_spec (2 * r) den) as [He|Hl|Hg].
  - destruct (Z.even q) eqn:Hq.
    + split; [|auto]. replace (num - q * den) with r by lia. lia.
    + split.
      * replace (num - (q + 1) * den) with (r - den) by lia. lia.
      * intros _. rewrite Z.even_add, Hq. reflexivity.
  - split.
    + replace (num - q * den) with r by lia. lia.
    + replace (num - q * den) with r by lia. lia.
  - split.
    + replace (num - (q + 1) * den) with (r - den) by lia. lia.
    + replace (num - (q + 1) * den) with (r - den) by lia. lia.
Qed.

Lemma round_half_even_nonneg (num den : Z) :
  0 <= num -> 0 < den -> 0 <= PyFloat.round_half_even num den.
Proof.
  intros Hn Hd. unfold PyFloat.round_half_even.
  pose proof (Z.div_pos num den Hn Hd).
  destruct (2 * (num mod den) ?= den); [destruct (Z.even _)| |]; lia.
Qed.

(** The nearest integer, ties to even, is unique. *)
Lemma nearest_int_unique (num den k k' : Z) :
  0 < den -> nearest_int num den k -> nearest_int num den k' -> k = k'.
Proof.
  unfold nearest_int. intros Hden [Hk Ek] [Hk' Ek'].
  assert (Hclose : Z.abs (k - k') <= 1) by nia.
  destruct (Z.eq_dec k k') as [|Hne]; [assumption|exfalso].
  assert (Hone : k' = k + 1 \/ k = k' + 1) by lia.
  assert (Htie : 2 * Z.abs (num - k * den) = den /\
                 2 * Z.abs (num - k' * den) = den) by nia.
  destruct Htie as [T T'].
  specialize (Ek T). specialize (Ek' T').
  destruct Hone as [->| ->].
  - rewrite Z.even_add, Ek in Ek'. discriminate.
  - rewrite Z.even_add, Ek' in Ek. discriminate.
Qed.

(** The digits [round] and the one-decimal format keep are those of the
    nearest integer. *)
Lemma scaled_round_nearest (m : positive) (e : Z) (n : nat) :
  0 <= PyFloat.scaled_round m e n /\
  nearest_int (scaled_num m e n) (scaled_den e) (PyFloat.scaled_round m e n).
Proof.
  unfold PyFloat.scaled_round, scaled_num, scaled_den.
  assert (Hp : 0 < Z.pos m * 10 ^ Z.of_nat n).
  { apply Z.mul_pos_pos; [lia|]. apply Z.pow_pos_nonneg; lia. }
  destruct (Z.leb_spec 0 e) as [He|He].
  - rewrite (Z.max_l e 0), (Z.max_r (- e) 0) by lia.
    assert (H2 : 0 < 2 ^ e) by (apply Z.pow_pos_nonneg; lia).
    split; [nia|]. unfold nearest_int.
    replace (Z.pos m * 10 ^ Z.of_nat n * 2 ^ e
             - Z.pos m * 10 ^ Z.of_nat n * 2 ^ e * 2 ^ 0) with 0
      by (change (2 ^ 0) with 1; lia).
    change (2 ^ 0) with 1. cbn. split; [lia|discriminate].
  - rewrite (Z.max_r e 0), (Z.max_l (- e) 0) by lia.
    assert (H2 : 0 < 2 ^ (- e)) by (apply Z.pow_pos_nonneg; lia).
    change (2 ^ 0) with 1. rewrite Z.mul_1_r. split.
    + apply round_half_even_nonneg; lia.
    + apply round_half_even_nearest. exact H2.
Qed.

(** [round(x, n)] is [x] rounded to [n] decimal places, for the numbers of
    places the module asks for. *)
Lemma round_rounded_to (x : float) (n : nat) :
  (n <= 323)%nat -> rounded_to n x (PyFloat.round x n).
Proof.
  intros Hn. unfold rounded_to, PyFloat.round.
  assert (H : (323 <? Z.of_nat n) = false) by (apply Z.ltb_ge; lia).
  rewrite H. destruct (Prim2SF x) as [s|s| |s m e]; try reflexivity.
  exists (PyFloat.scaled_round m e n).
  destruct (scaled_round_nearest m e n) as [H0 Hk]. auto.
Qed.

(** There is one such value. *)
Lemma rounded_to_unique (n : nat) (x y y' : float) :
  rounded_to n x y -> rounded_to n x y' -> y = y'.
Proof.
  unfold rounded_to. destruct (Prim2SF x) as [s|s| |s m e]; try congruence.
  intros (k & _ & Hk & ->) (k' & _ & Hk' & ->).
  assert (E : k = k'); [|rewrite E; reflexivity].
  refine (nearest_int_unique _ _ k k' _ Hk Hk').
  unfold scaled_den. apply Z.pow_pos_nonneg; lia.
Qed.

(** [f"{x:.1f}"] is [x] written with one decimal. *)
Lemma format_1f_renders (x : float) : renders_1f x (PyFloat.format_1f x).
Proof.
  unfold renders_1f, PyFloat.format_1f.
  destruct (Prim2SF x) as [s|s| |s m e]; try reflexivity.
  exists (PyFloat.scaled_round m e 1).
  destruct (scaled_round_nearest m e 1) as [H0 Hk]. auto.
Qed.

Lemma renders_1f_unique (x : float) (t t' : string) :
  renders_1f x t -> renders_1f x t' -> t = t'.
Proof.
  unfold renders_1f. destruct (Prim2SF x) as [s|s| |s m e]; try congruence.
  intros (k & _ & Hk & ->) (k' & _ & Hk' & ->).
  assert (E : k = k'); [|rewrite E; reflexivity].
  refine (nearest_int_unique _ _ k k' _ Hk Hk').
  unfold scaled_den. apply Z.pow_pos_nonneg; lia.
Qed.

End DecimalRounding.

(** ** The methods, statement by statement *)

Ltac run :=
  cbv [bind ret lift with_connection execute commit shift
       committed pending fst snd forallb] in *.

Lemma opt_int_bindable (dev : Z) (rssi : option Z) :
  forallb is_int64 (dev :: opt_int rssi) = true <-> bindable dev rssi.
Proof.
  unfold bindable. destruct rssi as [z|]; cbn.
  - rewrite andb_true_r, andb_true_iff. split.
    + intros [Hd Hz]. split; [exact Hd|]. intros z' E. congruence.
    + intros [Hd Hz]. auto.
  - rewrite andb_true_r. split.
    + intros Hd. split; [exact Hd|]. discriminate.
    + intros [Hd _]. exact Hd.
Qed.

Lemma fold_max_nonneg (ids : list Z) : (0 <= fold_right Z.max 0 ids)%Z.
Proof. induction ids as [|y ids IH]; cbn; lia. Qed.

Lemma fold_max_bound (ids : list Z) (x : Z) :
  In x ids -> (x <= fold_right Z.max 0 ids)%Z.
Proof.
  induction ids as [|y ids IH]; cbn; [intros []|].
  intros [->|H]; [lia|]. specialize (IH H). lia.
Qed.

(** AUTOINCREMENT gives a rowid no row of the table has. *)
Lemma next_rowid_fresh (seq : Z) (ids : list Z) (x : Z) :
  In x ids -> x <> next_rowid seq ids.
Proof.
  intros H. apply fold_max_bound in H. unfold next_rowid. lia.
Qed.

(** A rowid SQLite hands out can be bound again. *)
Lemma rowid_available_int64 (seq : Z) (ids : list Z) :
  rowid_available seq ids = true -> is_int64 (next_rowid seq ids) = true.
Proof.
  unfold rowid_available, is_int64, next_rowid. intros H.
  pose proof (fold_max_nonneg ids) as H0.
  change (2 ^ 63)%Z with 9223372036854775808%Z in *.
  apply Z.leb_le in H. apply andb_true_iff. split; apply Z.leb_le; lia.
Qed.

Section Ingestion.

Context {rt : PyRuntime}.

Import BatteryManager.

Open Scope float_scope.

(** [_check_alerts], statement by statement: nothing for a level above
    [LOW_PCT] (or NaN), else the INSERT and the COMMIT of [_fire_alert].
    The level it binds to the REAL NOT NULL column passed a comparison, so
    it is not NaN. *)
Lemma _check_alerts_run clk flt dev pct db :
  _check_alerts clk flt dev pct db =
    if pct <=? LOW_PCT then
      if flt 0%nat then (Raises OperationalError, db)
      else if negb (is_int64 dev) then (Raises OverflowError, db)
      else if negb (rowid_available (seq_battery_alerts db)
                      (map BatteryAlert.id (battery_alerts db)))
      then (Raises OperationalError, db)
      else if flt 1%nat then (Raises OperationalError, db)
      else (Returns tt, alerted clk dev pct db)
    else (Returns tt, db).
Proof.
  unfold _check_alerts, alerted, new_alerts, _fire_alert, Sql.insert_alert.
  destruct (pct <=? CRITICAL_PCT) eqn:Hc.
  - assert (Hl : (pct <=? LOW_PCT) = true).
    { apply (FloatFacts.leb_trans _ _ _ Hc). reflexivity. }
    rewrite Hl. destruct (FloatFacts.leb_isnan _ _ Hc) as [Hp _].
    rewrite (bind_real_Some _ Hp). run.
    change (bind_real CRITICAL_PCT) with (Some CRITICAL_PCT).
    destruct (flt 0%nat); [reflexivity|].
    rewrite andb_true_r.
    destruct (is_int64 dev); [|reflexivity]. cbn [negb].
    destruct (rowid_available _ _); [|reflexivity]. cbn [negb].
    destruct (flt 1%nat); reflexivity.
  - destruct (pct <=? LOW_PCT) eqn:Hl; [|reflexivity].
    destruct (FloatFacts.leb_isnan _ _ Hl) as [Hp _].
    rewrite (bind_real_Some _ Hp). run.
    change (bind_real LOW_PCT) with (Some LOW_PCT).
    destruct (flt 0%nat); [reflexivity|].
    rewrite andb_true_r.
    destruct (is_int64 dev); [|reflexivity]. cbn [negb].
    destruct (rowid_available _ _); [|reflexivity]. cbn [negb].
    destruct (flt 1%nat); reflexivity.
Qed.

Lemma new_alerts_length clk dev pct seq alerts :
  length (new_alerts clk dev pct seq alerts) =
    if pct <=? LOW_PCT then 1%nat else 0%nat.
Proof.
  unfold new_alerts.
  destruct (pct <=? CRITICAL_PCT) eqn:Hc.
  - assert (H : (pct <=? LOW_PCT) = true).
    { apply (FloatFacts.leb_trans _ _ _ Hc). reflexivity. }
    rewrite H. reflexivity.
  - destruct (pct <=? LOW_PCT); reflexivity.
Qed.

Lemma new_alerts_none clk dev pct seq alerts :
  (pct <=? LOW_PCT) = false -> new_alerts clk dev pct seq alerts = [].
Proof.
  intros H. pose proof (new_alerts_length clk dev pct seq alerts) as L.
  rewrite H in L. destruct (new_alerts clk dev pct seq alerts);
    [reflexivity|discriminate].
Qed.

Lemma _check_alerts_returns clk flt dev pct db u db' :
  _check_alerts clk flt dev pct db = (Returns u, db') ->
  iot_devices db' = iot_devices db /\
  battery_readings db' = battery_readings db /\
  battery_alerts db' =
    battery_alerts db ++
      new_alerts clk dev pct (seq_battery_alerts db) (battery_alerts db).
Proof.
  rewrite _check_alerts_run.
  destruct (pct <=? LOW_PCT) eqn:Hl.
  - destruct (flt 0%nat); [discriminate|].
    destruct (is_int64 dev); [|discriminate]. cbn [negb].
    destruct (rowid_available _ _); [|discriminate]. cbn [negb].
    destruct (flt 1%nat); [discriminate|].
    intros H; inversion H; subst; clear H. cbn. auto.
  - intros H; inversion H; subst; clear H.
    rewrite (new_alerts_none _ _ _ _ _ Hl), app_nil_r. auto.
Qed.

Lemma _check_alerts_raises clk flt dev pct db e db' :
  _check_alerts clk flt dev pct db = (Raises e, db') ->
  db' = db /\ (pct <=? LOW_PCT) = true /\
  (e = OperationalError \/ e = OverflowError /\ is_int64 dev = false).
Proof.
  rewrite _check_alerts_run.
  destruct (pct <=? LOW_PCT) eqn:Hl; [|discriminate].
  destruct (flt 0%nat); [intros H; inversion H; auto|].
  destruct (is_int64 dev); [|intros H; inversion H; auto]. cbn [negb].
  destruct (rowid_available _ _); [|intros H; inversion H; auto].
  cbn [negb].
  destruct (flt 1%nat); [intros H; inversion H; auto|discriminate].
Qed.

Lemma _check_alerts_total clk flt dev pct db :
  flt 0%nat = false -> flt 1%nat = false -> is_int64 dev = true ->
  alerts_not_full db ->
  exists db', _check_alerts clk flt dev pct db = (Returns tt, db').
Proof.
  intros H0 H1 Hd Hfull. rewrite _check_alerts_run.
  unfold alerts_not_full in Hfull. rewrite H0, H1, Hd, Hfull. cbn [negb].
  destruct (pct <=? LOW_PCT); eauto.
Qed.

(** [record_reading], statement by statement. *)
Lemma record_reading_run clk flt dev pct v t rssi db :
  record_reading clk flt dev pct v t rssi db =
    if flt 0%nat then (Raises OperationalError, db)
    else if negb (is_int64 dev) then (Raises OverflowError, db)
    else
      match drain_rate_of (now_isoformat clk) (prev_of dev db) pct with
      | Raises e => (Raises e, db)
      | Returns drain =>
          if flt 1%nat then (Raises OperationalError, db)
          else if negb (forallb is_int64 (opt_int rssi))
          then (Raises OverflowError, db)
          else if negb (rowid_available (seq_battery_readings db)
                          (map BatteryReading.id (battery_readings db)))
          then (Raises OperationalError, db)
          else if PyFloat.isnan pct then (Raises IntegrityError, db)
          else if flt 2%nat then (Raises OperationalError, db)
          else if flt 3%nat then (Raises OperationalError, db)
          else
            match _check_alerts clk (shift 4 flt) dev pct
                    (ingested clk dev pct v t rssi drain db) with
            | (Returns _, db') =>
                (Returns
                   (BatteryReading.mk
                      (next_rowid (seq_battery_readings db)
                         (map BatteryReading.id (battery_readings db)))
                      dev (now_isoformat clk) pct v t rssi drain), db')
            | (Raises e, db') => (Raises e, db')
            end
      end.
Proof.
  unfold record_reading, Sql.select_prev, Sql.insert_reading,
    Sql.update_device, ingested, reading_row, update_rows, prev_of.
  cbv [bind ret lift with_connection execute commit committed pending
       fst snd].
  destruct (flt 0%nat); [reflexivity|].
  cbn [forallb]. rewrite andb_true_r.
  destruct (is_int64 dev); [|reflexivity]. cbn [negb andb].
  destruct (drain_rate_of _ _ pct) as [drain|e]; [|reflexivity].
  destruct (flt 1%nat); [reflexivity|].
  destruct (forallb is_int64 (opt_int rssi)); [|reflexivity]. cbn [negb].
  destruct (rowid_available _ _); [|reflexivity]. cbn [negb].
  destruct (PyFloat.isnan pct) eqn:Hnan.
  { rewrite (bind_real_None _ Hnan). reflexivity. }
  rewrite (bind_real_Some _ Hnan). cbv beta iota.
  destruct (flt 2%nat); [reflexivity|].
  cbn [iot_devices]. rewrite andb_false_r.
  destruct (flt 3%nat); [reflexivity|]. cbv beta iota.
  cbn [iot_devices battery_readings battery_alerts seq_iot_devices
       seq_battery_readings seq_battery_alerts].
  match goal with
  | |- context [_check_alerts ?c ?f ?d ?p ?s] =>
      destruct (_check_alerts c f d p s) as [[u|e] db2]
  end; reflexivity.
Qed.

(** A [record_reading] call that returns ran every statement. *)
Lemma record_reading_returns clk flt dev pct v t rssi db r db' :
  record_reading clk flt dev pct v t rssi db = (Returns r, db') ->
  exists drain,
    drain_rate_of (now_isoformat clk) (prev_of dev db) pct = Returns drain /\
    PyFloat.isnan pct = false /\
    r = BatteryReading.mk
          (next_rowid (seq_battery_readings db)
             (map BatteryReading.id (battery_readings db)))
          dev (now_isoformat clk) pct v t rssi drain /\
    iot_devices db' =
      update_rows pct (now_isoformat clk) dev (iot_devices db) /\
    battery_readings db' =
      battery_readings db ++ [reading_row clk dev pct v t rssi drain db] /\
    battery_alerts db' =
      battery_alerts db ++
        new_alerts clk dev pct (seq_battery_alerts db) (battery_alerts db) /\
    bindable dev rssi /\ readings_not_full db.
Proof.
  rewrite record_reading_run.
  destruct (flt 0%nat); [discriminate|].
  destruct (is_int64 dev) eqn:Hd; [|discriminate]. cbn [negb].
  destruct (drain_rate_of _ _ pct) as [drain|e]; [|discriminate].
  destruct (flt 1%nat); [discriminate|].
  destruct (forallb is_int64 (opt_int rssi)) eqn:Hr; [|discriminate].
  cbn [negb].
  destruct (rowid_available _ _) eqn:Hfull; [|discriminate]. cbn [negb].
  destruct (PyFloat.isnan pct) eqn:Hnan; [discriminate|].
  destruct (flt 2%nat); [discriminate|].
  destruct (flt 3%nat); [discriminate|].
  destruct (_check_alerts _ _ _ _ _) as [[u|e] db2] eqn:E; [|discriminate].
  intros H; inversion H; subst; clear H.
  apply _check_alerts_returns in E. cbn in E.
  destruct E as (E1 & E2 & E3).
  exists drain. repeat split; try assumption.
  intros z ->. cbn in Hr. rewrite andb_true_r in Hr. exact Hr.
Qed.

(** Every way a [record_reading] call can end: it raised and left the
    database as it was; or it committed the reading and the device update,
    and then either failed to store the alert or returned. *)
Lemma record_reading_outcomes clk flt dev pct v t rssi db :
  let res := record_reading clk flt dev pct v t rssi db in
  ((exists e, fst res = Raises e) /\ snd res = db)
  \/ (exists drain,
        PyFloat.isnan pct = false /\
        iot_devices (snd res) =
          update_rows pct (now_isoformat clk) dev (iot_devices db) /\
        battery_readings (snd res) =
          battery_readings db ++ [reading_row clk dev pct v t rssi drain db] /\
        (((exists e, fst res = Raises e) /\
          battery_alerts (snd res) = battery_alerts db)
         \/ ((exists r, fst res = Returns r) /\
             battery_alerts (snd res) =
               battery_alerts db ++
                 new_alerts clk dev pct (seq_battery_alerts db)
                   (battery_alerts db)))).
Proof.
  cbv zeta. rewrite record_reading_run.
  destruct (flt 0%nat); [left; cbn; eauto|].
  destruct (is_int64 dev); [|left; cbn; eauto]. cbn [negb].
  destruct (drain_rate_of _ _ pct) as [drain|e]; [|left; cbn; eauto].
  destruct (flt 1%nat); [left; cbn; eauto|].
  destruct (forallb is_int64 (opt_int rssi)); [|left; cbn; eauto].
  cbn [negb].
  destruct (rowid_available _ _); [|left; cbn; eauto]. cbn [negb].
  destruct (PyFloat.isnan pct) eqn:Hnan; [left; cbn; eauto|].
  destruct (flt 2%nat); [left; cbn; eauto|].
  destruct (flt 3%nat); [left; cbn; eauto|].
  right. exists drain. split; [reflexivity|].
  destruct (_check_alerts _ _ _ _ _) as [[u|e] db2] eqn:E.
  - apply _check_alerts_returns in E. cbn in E.
    destruct E as (E1 & E2 & E3). cbn. repeat split; eauto.
  - apply _check_alerts_raises in E. destruct E as (-> & _).
    cbn. repeat split; eauto.
Qed.

(** Whatever the outcome, the database [record_reading] leaves either
    has the device and reading tables of the start (and the call raised),
    or has both the appended reading and the updated device rows. *)
Lemma record_reading_tables clk flt dev pct v t rssi db :
  let res := record_reading clk flt dev pct v t rssi db in
  ((exists e, fst res = Raises e) /\ snd res = db)
  \/ (exists drain,
        iot_devices (snd res) =
          update_rows pct (now_isoformat clk) dev (iot_devices db) /\
        battery_readings (snd res) =
          battery_readings db ++ [reading_row clk dev pct v t rssi drain db] /\
        PyFloat.isnan pct = false).
Proof.
  pose proof (record_reading_outcomes clk flt dev pct v t rssi db) as H.
  cbv zeta in *. destruct H as [H|(drain & Hn & Hd & Hr & _)];
    [left; exact H|right; eauto].
Qed.

(** With a store that answers and has room, ints SQLite can hold and a
    level that is a number, the call returns as soon as the drain-rate
    block does. *)
Lemma record_reading_total clk flt dev pct v t rssi db drain :
  (forall k, flt k = false) ->
  PyFloat.isnan pct = false ->
  bindable dev rssi -> readings_not_full db -> alerts_not_full db ->
  drain_rate_of (now_isoformat clk) (prev_of dev db) pct = Returns drain ->
  exists r db', record_reading clk flt dev pct v t rssi db = (Returns r, db').
Proof.
  intros Hflt Hnan Hbind Hr Ha Hdrain.
  rewrite record_reading_run, !Hflt, Hdrain, Hnan.
  pose proof (proj2 (opt_int_bindable dev rssi) Hbind) as Hb.
  cbn [forallb] in Hb. apply andb_true_iff in Hb. destruct Hb as [Hd Hz].
  unfold readings_not_full in Hr. rewrite Hd, Hz, Hr. cbn [negb].
  destruct (_check_alerts_total clk (shift 4 flt) dev pct
              (ingested clk dev pct v t rssi drain db)) as [db2 E];
    try (unfold shift; apply Hflt); try assumption.
  rewrite E. eauto.
Qed.

(** A full reading table refuses the INSERT, whatever is inserted. *)
Lemma record_reading_full clk flt dev pct v t rssi db drain :
  flt 0%nat = false -> flt 1%nat = false -> bindable dev rssi ->
  drain_rate_of (now_isoformat clk) (prev_of dev db) pct = Returns drain ->
  ~ readings_not_full db ->
  record_reading clk flt dev pct v t rssi db = (Raises OperationalError, db).
Proof.
  intros H0 H1 Hbind Hdrain Hfull.
  pose proof (proj2 (opt_int_bindable dev rssi) Hbind) as Hb.
  cbn [forallb] in Hb. apply andb_true_iff in Hb. destruct Hb as [Hd Hz].
  rewrite record_reading_run, H0, H1, Hd, Hz, Hdrain. cbn [negb].
  unfold readings_not_full in Hfull.
  destruct (rowid_available _ _); [contradiction|reflexivity].
Qed.

End Ingestion.

(** ** Registration, statement by statement *)

Section RegistrationRun.

Import BatteryManager.

Lemma find_new_row (rowid : Z) (rows : list IoTDevice.t) (d : IoTDevice.t) :
  (forall x, In x rows -> IoTDevice.id x <> rowid) ->
  IoTDevice.id d = rowid ->
  find (fun x => (IoTDevice.id x =? rowid)%Z) (rows ++ [d]) = Some d.
Proof.
  intros Hfresh Hid. induction rows as [|x rows IH]; cbn.
  - apply Z.eqb_eq in Hid. rewrite Hid. reflexivity.
  - destruct (IoTDevice.id x =? rowid)%Z eqn:E.
    + apply Z.eqb_eq in E. exfalso. apply (Hfresh x); [left; reflexivity|].
      exact E.
    + apply IH. intros y Hy. apply Hfresh. right. exact Hy.
Qed.

Lemma device_row_fresh
    clk name device_type location battery_type capacity_mah firmware notes
    db x :
  In x (iot_devices db) ->
  IoTDevice.id x <>
    IoTDevice.id (device_row clk name device_type location battery_type
                    capacity_mah firmware notes db).
Proof.
  intros Hx. cbn. apply next_rowid_fresh. apply in_map. exact Hx.
Qed.

(** [add_device], statement by statement: the INSERT, the COMMIT, then
    the SELECT of [_get_device] on the new rowid, which finds the new
    row. *)
Lemma add_device_run
    clk flt name device_type location battery_type capacity_mah firmware
    notes db :
  let d := device_row clk name device_type location battery_type
             capacity_mah firmware notes db in
  add_device clk flt name device_type location battery_type capacity_mah
    firmware notes db =
    if flt 0%nat then (Raises OperationalError, db)
    else if negb (is_int64 capacity_mah) then (Raises OverflowError, db)
    else if negb (rowid_available (seq_iot_devices db)
                    (map IoTDevice.id (iot_devices db)))
    then (Raises OperationalError, db)
    else if existsb (fun x => String.eqb (IoTDevice.name x) name)
                    (iot_devices db)
    then (Raises IntegrityError, db)
    else if flt 1%nat then (Raises OperationalError, db)
    else if flt 2%nat then (Raises OperationalError, with_device d db)
    else (Returns (Some d), with_device d db).
Proof.
  intros d.
  unfold add_device, _get_device, Sql.insert_device, Sql.select_device.
  cbv [bind ret lift with_connection execute commit shift committed pending
       fst snd].
  destruct (flt 0%nat); [reflexivity|].
  cbn [forallb]. rewrite andb_true_r.
  destruct (is_int64 capacity_mah); [|reflexivity]. cbn [negb].
  destruct (rowid_available _ _) eqn:Hfull; [|reflexivity]. cbn [negb].
  destruct (existsb _ (iot_devices db)); [reflexivity|]. cbv beta iota.
  destruct (flt 1%nat); [reflexivity|]. cbv beta iota.
  change (flt (2 + 0)%nat) with (flt 2%nat).
  destruct (flt 2%nat); [reflexivity|].
  rewrite (rowid_available_int64 _ _ Hfull).
  cbn [negb andb iot_devices pending committed].
  subst d. unfold device_row, with_device. cbn [IoTDevice.id].
  erewrite find_new_row; [reflexivity| |reflexivity].
  intros x Hx. apply next_rowid_fresh. apply in_map. exact Hx.
Qed.

End RegistrationRun.
(** ** The queries, statement by statement *)

Section Queries.

Context {rt : PyRuntime}.

Import BatteryManager.

Open Scope float_scope.

Lemma _get_device_run flt device_id db :
  _get_device flt device_id db =
    if flt 0%nat then (Raises OperationalError, db)
    else if negb (is_int64 device_id) then (Raises OverflowError, db)
    else (Returns (find (fun d => (IoTDevice.id d =? device_id)%Z)
                        (iot_devices db)), db).
Proof.
  unfold _get_device, Sql.select_device. run.
  destruct (flt 0%nat); [reflexivity|]. rewrite andb_true_r.
  destruct (is_int64 device_id); reflexivity.
Qed.

(** What [list_devices] does with its store statement. *)
Lemma list_devices_run flt status db :
  list_devices flt status db =
    if flt 0%nat then (Raises OperationalError, db)
    else (Returns
            (Sql.order_by_pct
               (match status with
                | None | Some EmptyString => iot_devices db
                | Some s =>
                    filter (fun d => String.eqb (IoTDevice.status d) s)
                           (iot_devices db)
                end)), db).
Proof.
  unfold list_devices, Sql.select_devices. run.
  destruct (flt 0%nat); [reflexivity|].
  destruct status as [[|c s]|]; reflexivity.
Qed.

(** [fleet_status], statement by statement: it reads and never writes,
    and its division is guarded. *)
Lemma fleet_status_run flt db :
  let devices := Sql.order_by_pct (iot_devices db) in
  fleet_status flt db =
    if flt 0%nat then (Raises OperationalError, db)
    else if flt 1%nat then (Raises OperationalError, db)
    else
      (Returns
         {| total_devices := length devices;
            avg_battery_pct :=
              if Nat.eqb (length devices) 0 then 0
              else PyFloat.round
                     (py_sum (map IoTDevice.current_pct devices)
                      / PyFloat.of_int (Z.of_nat (length devices))) 1;
            healthy :=
              count_if (fun d => PyFloat.geb (IoTDevice.current_pct d) 60)
                       devices;
            warning :=
              count_if (fun d => (30 <=? IoTDevice.current_pct d)
                                 && (IoTDevice.current_pct d <? 60))
                       devices;
            low :=
              count_if (fun d => (15 <=? IoTDevice.current_pct d)
                                 && (IoTDevice.current_pct d <? 30))
                       devices;
            critical :=
              count_if (fun d => IoTDevice.current_pct d <? 15) devices;
            active_alerts :=
              length (filter (fun a => negb (BatteryAlert.resolved a))
                             (battery_alerts db)) |}, db).
Proof.
  intros devices. unfold fleet_status. unfold bind at 1.
  rewrite list_devices_run. fold devices.
  destruct (flt 0%nat); [reflexivity|].
  unfold Sql.count_unresolved. run.
  change (flt (1 + 0)%nat) with (flt 1%nat).
  destruct (flt 1%nat); [reflexivity|]. cbv beta iota.
  unfold PyFloat.truediv_int.
  destruct (Nat.eqb (length devices) 0) eqn:En; [reflexivity|].
  assert (Hz : (Z.of_nat (length devices) =? 0)%Z = false).
  { apply Z.eqb_neq. apply Nat.eqb_neq in En. lia. }
  rewrite Hz. reflexivity.
Qed.

End Queries.

(** ** Device state after an ingestion *)

Section DeviceState.

Context {rt : PyRuntime}.

Import BatteryManager.

Open Scope float_scope.

Lemma update_rows_hit pct ts dev rows d' :
  In d' (update_rows pct ts dev rows) -> IoTDevice.id d' = dev ->
  IoTDevice.current_pct d' = sqlite_real pct /\ IoTDevice.last_seen d' = ts /\
  IoTDevice.status d' = new_status_of pct.
Proof.
  unfold update_rows. intros Hin Hid.
  apply in_map_iff in Hin. destruct Hin as (d & Hd & _).
  destruct (IoTDevice.id d =? dev)%Z eqn:E; subst d'.
  - cbn. auto.
  - apply Z.eqb_neq in E. contradiction.
Qed.

Lemma update_rows_keeps pct ts dev rows d :
  In d rows -> IoTDevice.id d = dev ->
  In (Sql.set_state (sqlite_real pct) ts (new_status_of pct) d)
     (update_rows pct ts dev rows).
Proof.
  intros Hin Hid. unfold update_rows. apply in_map_iff.
  exists d. split; [|assumption].
  apply Z.eqb_eq in Hid. rewrite Hid. reflexivity.
Qed.

Lemma update_rows_miss pct ts dev rows :
  (forall d, In d rows -> IoTDevice.id d <> dev) ->
  update_rows pct ts dev rows = rows.
Proof.
  unfold update_rows. induction rows as [|x rows IH]; intros H; cbn.
  - reflexivity.
  - destruct (IoTDevice.id x =? dev)%Z eqn:E.
    + apply Z.eqb_eq in E. exfalso. apply (H x); [left; reflexivity|exact E].
    + rewrite IH; [reflexivity|]. intros d Hd. apply H. right. exact Hd.
Qed.

Lemma new_status_critical pct :
  new_status_of pct = "critical"%string <-> (pct <=? 15) = true.
Proof.
  unfold new_status_of, CRITICAL_PCT, LOW_PCT.
  destruct (pct <=? 15); [tauto|].
  destruct (pct <=? 30); split; discriminate.
Qed.

Lemma new_status_warning pct :
  new_status_of pct = "warning"%string <->
  (15 <? pct) = true /\ (pct <=? 30) = true.
Proof.
  unfold new_status_of, CRITICAL_PCT, LOW_PCT.
  destruct (pct <=? 15) eqn:Hc.
  - split; [discriminate|]. intros [H _].
    apply FloatFacts.ltb_leb_false in H. congruence.
  - destruct (pct <=? 30) eqn:Hl.
    + split; [intros _|reflexivity]. split; [|reflexivity].
      destruct (FloatFacts.leb_isnan _ _ Hl) as [Hp _].
      rewrite FloatFacts.ltb_negb_leb, Hc; auto.
    + split; [discriminate|]. intros [_ H]. discriminate.
Qed.

Lemma new_status_online pct :
  new_status_of pct = "online"%string <->
  (pct <=? 15) = false /\ ~ ((15 <? pct) = true /\ (pct <=? 30) = true).
Proof.
  pose proof (new_status_warning pct) as Hw. revert Hw.
  unfold new_status_of, CRITICAL_PCT, LOW_PCT.
  destruct (pct <=? 15) eqn:Hc.
  - intros _. split; [discriminate|]. intros [H _]. discriminate.
  - destruct (pct <=? 30) eqn:Hl; intros Hw.
    + split; [discriminate|]. intros [_ H]. exfalso. apply H.
      apply Hw. reflexivity.
    + split; [intros _|reflexivity]. split; [reflexivity|].
      intros [_ H]. discriminate.
Qed.

Lemma new_status_not_offline pct : new_status_of pct <> "offline"%string.
Proof.
  unfold new_status_of.
  destruct (pct <=? CRITICAL_PCT); [discriminate|].
  destruct (pct <=? LOW_PCT); discriminate.
Qed.

(** The two zeros are different floats that compare equal. *)
Lemma neg_zero_differs : (0 : float) <> (-0)%float.
Proof.
  intros H. apply (f_equal Prim2SF) in H. vm_compute in H. discriminate.
Qed.

Lemma not_neg_zero (x : float) :
  x <> (-0)%float -> Prim2SF x <> S754_zero true.
Proof.
  intros Hx E. apply Hx. apply Prim2SF_inj. rewrite E. reflexivity.
Qed.

(** C2. After [record_reading] returns, every row of the device holds the
    ingested level as the REAL column stores it: a value equal to the
    level as floats compare ([==]), the level itself bit for bit unless it
    is the negative zero, which is stored as 0.0.  The row holds the
    reading's timestamp as [last_seen] and the status derived from the
    level: "critical" iff [pct <= 15.0], "warning" iff
    [15.0 < pct <= 30.0], "online" otherwise, and never "offline".  The
    rows of the device are still there. *)
Theorem C2_device_state_after_ingest
    clk flt dev pct v t rssi db r db' :
  record_reading clk flt dev pct v t rssi db = (Returns r, db') ->
  (forall d, In d (iot_devices db) -> IoTDevice.id d = dev ->
     exists d', In d' (iot_devices db') /\ IoTDevice.id d' = dev /\
                IoTDevice.name d' = IoTDevice.name d) /\
  (forall d', In d' (iot_devices db') -> IoTDevice.id d' = dev ->
     IoTDevice.current_pct d' = sqlite_real pct /\
     (IoTDevice.current_pct d' =? pct) = true /\
     (pct <> (-0)%float -> IoTDevice.current_pct d' = pct) /\
     (pct = (-0)%float -> IoTDevice.current_pct d' = 0) /\
     IoTDevice.last_seen d' = BatteryReading.reading_time r /\
     IoTDevice.status d' = new_status_of pct) /\
  (new_status_of pct = "critical"%string <-> (pct <=? 15) = true) /\
  (new_status_of pct = "warning"%string <->
     (15 <? pct) = true /\ (pct <=? 30) = true) /\
  (new_status_of pct = "online"%string <->
     (pct <=? 15) = false /\
     ~ ((15 <? pct) = true /\ (pct <=? 30) = true)) /\
  new_status_of pct <> "offline"%string.
Proof.
  intros H. apply record_reading_returns in H.
  destruct H as (drain & _ & Hnan & Hr & Hdev & _).
  split; [|split].
  - intros d Hin Hid.
    exists (Sql.set_state (sqlite_real pct) (now_isoformat clk)
              (new_status_of pct) d).
    rewrite Hdev. split; [apply update_rows_keeps; assumption|].
    cbn. auto.
  - intros d' Hin Hid. rewrite Hdev in Hin. subst r. cbn.
    destruct (update_rows_hit _ _ _ _ _ Hin Hid) as (Hp & Hl & Hs).
    rewrite Hp. split; [reflexivity|].
    split; [apply sqlite_real_eqb; exact Hnan|].
    split; [intros Hz; apply sqlite_real_same, not_neg_zero, Hz|].
    split; [intros ->; reflexivity|]. auto.
  - split; [apply new_status_critical|].
    split; [apply new_status_warning|].
    split; [apply new_status_online|apply new_status_not_offline].
Qed.

End DeviceState.

(** C2 fails on the code at the negative zero: "sensor-1" is registered,
    a reading of -0.0 is ingested for it and the call returns, and the
    device row then holds 0.0, which is not the float that was
    ingested. *)
Lemma C2_counterexample :
  let res :=
    BatteryManager.record_reading (rt := BasicRuntime.basic)
      (Scenario.clock "2024-01-01T10:00:00") no_faults 1 (-0) None None None
      Scenario.registered in
  (exists d, In d (iot_devices Scenario.registered) /\
             IoTDevice.id d = 1%Z) /\
  (exists r, fst res = Returns r /\
             BatteryReading.battery_pct r = (-0)%float) /\
  exists d', In d' (iot_devices (snd res)) /\ IoTDevice.id d' = 1%Z /\
             IoTDevice.current_pct d' = 0%float /\
             IoTDevice.current_pct d' <> (-0)%float /\
             Prim2SF (IoTDevice.current_pct d') = S754_zero false /\
             Prim2SF (-0) = S754_zero true.
Proof.
  cbv zeta. split; [|split].
  - eexists. split; [vm_compute; left; reflexivity|reflexivity].
  - eexists. split; vm_compute; reflexivity.
  - eexists. split; [vm_compute; left; reflexivity|].
    split; [reflexivity|]. split; [reflexivity|].
    split; [exact neg_zero_differs|]. split; reflexivity.
Defined.

(** A reading of 20 percent for "sensor-1": the row holds 20.0, the
    reading's timestamp and status "warning"; and a reading of -0.0 is
    held as 0.0, with status "critical". *)
Lemma C2_witness :
  (exists r db' d',
     Scenario.ingest "2024-01-01T10:00:00" 20 Scenario.registered
       = (Returns r, db') /\
     In d' (iot_devices db') /\
     IoTDevice.current_pct d' = 20%float /\
     IoTDevice.last_seen d' = "2024-01-01T10:00:00"%string /\
     IoTDevice.status d' = "warning"%string) /\
  (exists r db' d',
     Scenario.ingest "2024-01-01T10:00:00" (-0) Scenario.registered
       = (Returns r, db') /\
     In d' (iot_devices db') /\
     IoTDevice.current_pct d' = 0%float /\
     IoTDevice.status d' = "critical"%string).
Proof.
  split.
  - destruct (Scenario.ingest "2024-01-01T10:00:00" 20 Scenario.registered)
      as [[r|e] db'] eqn:E; [|vm_compute in E; discriminate].
    pose proof (C2_device_state_after_ingest _ _ _ _ _ _ _ _ _ _ E)
      as (Hex & Hall & _ & Hw & _).
    destruct (Hex (IoTDevice.mk 1 "sensor-1" "sensor" "lab" "LiPo" 2000 100
                     "2024-01-01T09:00:00" "online" "1.0.0" ""
                     (Some "2024-01-01 08:00:00"%string)))
      as (d' & Hin & Hid & _).
    + vm_compute. left. reflexivity.
    + reflexivity.
    + exists r, db', d'.
      destruct (Hall d' Hin Hid) as (Hp & _ & _ & _ & Hl & Hs).
      split; [reflexivity|]. split; [exact Hin|].
      split; [rewrite Hp; reflexivity|].
      split.
      * rewrite Hl. vm_compute in E. inversion E. reflexivity.
      * rewrite Hs. apply Hw. split; reflexivity.
  - destruct (Scenario.ingest "2024-01-01T10:00:00" (-0) Scenario.registered)
      as [[r|e] db'] eqn:E; [|vm_compute in E; discriminate].
    pose proof (C2_device_state_after_ingest _ _ _ _ _ _ _ _ _ _ E)
      as (Hex & Hall & Hc & _).
    destruct (Hex (IoTDevice.mk 1 "sensor-1" "sensor" "lab" "LiPo" 2000 100
                     "2024-01-01T09:00:00" "online" "1.0.0" ""
                     (Some "2024-01-01 08:00:00"%string)))
      as (d' & Hin & Hid & _).
    + vm_compute. left. reflexivity.
    + reflexivity.
    + exists r, db', d'.
      destruct (Hall d' Hin Hid) as (_ & _ & _ & Hz & _ & Hs).
      split; [reflexivity|]. split; [exact Hin|].
      split; [apply Hz; reflexivity|].
      rewrite Hs. apply Hc. reflexivity.
Defined.

(** ** The prior reading and the drain rate *)

Section DrainRate.

Context {rt : PyRuntime}.

Import BatteryManager.

Open Scope float_scope.

Lemma string_ltb_trans (a b c : string) :
  String.ltb a b = true -> String.ltb b c = true -> String.ltb a c = true.
Proof.
  unfold String.ltb.
  destruct (String.compare a b) eqn:Hab; try discriminate.
  destruct (String.compare b c) eqn:Hbc; try discriminate.
  intros _ _.
  change String.compare with String_as_OT.cmp in *.
  apply String_as_OT.cmp_lt in Hab, Hbc.
  pose proof (String_as_OT.lt_trans _ _ _ Hab Hbc) as H.
  apply String_as_OT.cmp_lt in H. rewrite H. reflexivity.
Qed.

Lemma string_ltb_irrefl (a : string) : String.ltb a a = false.
Proof.
  unfold String.ltb.
  destruct (String.compare a a) eqn:H; try reflexivity.
  pose proof (String.compare_antisym a a) as Ha. rewrite H in Ha.
  discriminate.
Qed.

Lemma string_ltb_neither (a b : string) :
  String.ltb a b = false -> String.ltb b a = false -> a = b.
Proof.
  unfold String.ltb. rewrite (String.compare_antisym b a).
  destruct (String.compare a b) eqn:Hc; cbn; try discriminate.
  intros _ _. apply String.compare_eq_iff. exact Hc.
Qed.

Local Abbreviation time := BatteryReading.reading_time.

(** Scanning the rows keeps a row whose [reading_time] no row seen so far
    exceeds. *)
Lemma fold_later_Some (l : list BatteryReading.t) (b : BatteryReading.t) :
  exists p,
    fold_left Sql.later l (Some b) = Some p /\
    (p = b \/ In p l) /\
    String.ltb (time p) (time b) = false /\
    (forall r, In r l -> String.ltb (time p) (time r) = false).
Proof.
  revert b. induction l as [|x l IH]; intros b; cbn.
  - exists b. repeat split; auto using string_ltb_irrefl.
    intros r [].
  - destruct (String.ltb (time b) (time x)) eqn:Hbx.
    + destruct (IH x) as (p & Hp & Hin & Hpx & Hall).
      exists p. split; [exact Hp|]. split; [|split].
      * right. destruct Hin; [left; congruence|right; assumption].
      * destruct (String.ltb (time p) (time b)) eqn:Hpb; [|reflexivity].
        rewrite (string_ltb_trans _ _ _ Hpb Hbx) in Hpx. discriminate.
      * intros r [Hr|Hr]; [subst r; exact Hpx|apply Hall; exact Hr].
    + destruct (IH b) as (p & Hp & Hin & Hpb & Hall).
      exists p. split; [exact Hp|]. split; [|split].
      * destruct Hin; [left; assumption|right; right; assumption].
      * exact Hpb.
      * intros r [Hr|Hr]; [subst r|apply Hall; exact Hr].
        destruct (String.ltb (time p) (time x)) eqn:Hpx; [|reflexivity].
        destruct Hin as [->|Hin]; [congruence|].
        destruct (String.ltb (time b) (time p)) eqn:Hbp.
        -- rewrite (string_ltb_trans _ _ _ Hbp Hpx) in Hbx. discriminate.
        -- rewrite (string_ltb_neither _ _ Hpb Hbp) in Hpx. congruence.
Qed.

(** The SELECT finds no row exactly when the device has no reading. *)
Lemma latest_reading_None dev rows :
  Sql.latest_reading dev rows = None <->
  (forall r, In r rows -> BatteryReading.device_id r <> dev).
Proof.
  unfold Sql.latest_reading. split.
  - intros H r Hin Hdev.
    assert (Hf : In r (filter (fun r => (BatteryReading.device_id r =? dev)%Z)
                          rows)).
    { apply filter_In. split; [exact Hin|]. apply Z.eqb_eq. exact Hdev. }
    destruct (filter _ rows) as [|b l]; [exact Hf|].
    cbn in H. destruct (fold_later_Some l b) as (p & Hp & _).
    rewrite Hp in H. discriminate.
  - intros H.
    destruct (filter (fun r => (BatteryReading.device_id r =? dev)%Z) rows)
      as [|b l] eqn:E; [reflexivity|].
    assert (Hb : In b (b :: l)) by (left; reflexivity).
    rewrite <- E in Hb. apply filter_In in Hb. destruct Hb as [Hin Hid].
    apply Z.eqb_eq in Hid. exfalso. exact (H b Hin Hid).
Qed.

(** The row it finds is a reading of the device with the greatest
    [reading_time]. *)
Lemma latest_reading_Some dev rows p :
  Sql.latest_reading dev rows = Some p ->
  In p rows /\ BatteryReading.device_id p = dev /\
  (forall r, In r rows -> BatteryReading.device_id r = dev ->
             String.ltb (time p) (time r) = false).
Proof.
  unfold Sql.latest_reading. intros H.
  destruct (filter (fun r => (BatteryReading.device_id r =? dev)%Z) rows)
    as [|b l] eqn:E; [discriminate|].
  cbn in H. destruct (fold_later_Some l b) as (q & Hq & Hin & Hqb & Hall).
  rewrite Hq in H. inversion H; subst q; clear H.
  assert (Hp : In p (b :: l)).
  { destruct Hin; [left; congruence|right; assumption]. }
  assert (Hsub : forall r, In r (b :: l) <->
                   In r rows /\ (BatteryReading.device_id r =? dev)%Z = true).
  { intros r. rewrite <- E. apply filter_In. }
  apply Hsub in Hp. destruct Hp as [Hp1 Hp2]. apply Z.eqb_eq in Hp2.
  split; [exact Hp1|]. split; [exact Hp2|].
  intros r Hr Hd.
  assert (Hr' : In r (b :: l)).
  { apply Hsub. split; [exact Hr|]. apply Z.eqb_eq. exact Hd. }
  destruct Hr' as [<-|Hr']; [exact Hqb|apply Hall; exact Hr'].
Qed.

(** The ways out of the drain-rate block. *)
Lemma drain_rate_of_first ts pct : drain_rate_of ts None pct = Returns None.
Proof. reflexivity. Qed.

Lemma drain_rate_of_unparsed ts p0 t0 pct :
  fromisoformat ts = None \/ fromisoformat t0 = None ->
  drain_rate_of ts (Some (p0, t0)) pct = Returns None.
Proof.
  unfold drain_rate_of. intros [H|H].
  - rewrite H. reflexivity.
  - rewrite H. destruct (fromisoformat ts); reflexivity.
Qed.

Lemma drain_rate_of_elapsed ts p0 t0 pct t1 t0' us :
  fromisoformat ts = Some t1 -> fromisoformat t0 = Some t0' ->
  datetime_sub t1 t0' = Returns us ->
  drain_rate_of ts (Some (p0, t0)) pct =
    Returns
      (if 0 <? total_seconds us / 3600
       then Some (PyFloat.round ((p0 - pct) / (total_seconds us / 3600)) 4)
       else None).
Proof.
  intros H1 H0 Hs. unfold drain_rate_of. rewrite H1, H0, Hs.
  change (PyFloat.truediv_int (total_seconds us) 3600)
    with (Returns (A := float) (total_seconds us / 3600)).
  cbv beta iota. unfold PyFloat.gtb at 1.
  destruct (0 <? total_seconds us / 3600) eqn:E; [|reflexivity].
  unfold PyFloat.truediv.
  rewrite (FloatFacts.gtb_zero_nonzero _ E). reflexivity.
Qed.

(** Subtracting a naive and an aware datetime is the one failure of the
    block that [except ValueError] does not catch. *)
Lemma datetime_sub_mixed (a b : datetime) :
  (utcoffset a = None <-> utcoffset b <> None) <->
  datetime_sub a b = Raises TypeError.
Proof.
  unfold datetime_sub.
  destruct (utcoffset a) as [oa|], (utcoffset b) as [ob|]; split;
    try reflexivity; try discriminate.
  - intros [_ H]. exfalso. assert (E : Some oa = None) by (apply H; discriminate).
    discriminate.
  - intros _. split; [discriminate|]. intros H. exfalso. apply H. reflexivity.
  - intros _. split; [discriminate|reflexivity].
  - intros [H _]. exfalso. apply (H eq_refl). reflexivity.
Qed.

Lemma drain_rate_of_mixed ts p0 t0 pct t1 t0' :
  fromisoformat ts = Some t1 -> fromisoformat t0 = Some t0' ->
  (utcoffset t1 = None <-> utcoffset t0' <> None) ->
  drain_rate_of ts (Some (p0, t0)) pct = Raises TypeError.
Proof.
  intros H1 H0 Hm. apply datetime_sub_mixed in Hm.
  unfold drain_rate_of. rewrite H1, H0, Hm. reflexivity.
Qed.

End DrainRate.

Section DrainRateClaim.

Context {rt : PyRuntime}.

Import BatteryManager.

Open Scope float_scope.

(** C3. The [drain_rate] of the reading [record_reading] returns is null
    when the device has no prior reading.  With a prior reading (the row of
    the device with the greatest [reading_time]) and strictly positive
    elapsed hours it is [(prior_pct - battery_pct) / elapsed_hours] rounded
    to 4 decimal places: the float nearest to the decimal with 4 places
    nearest to the quotient, ties to even.  It is null when the elapsed
    hours are non-positive or a timestamp does not parse, and in those
    cases the call returns whenever the store answers and has room, the
    level is a number and the ints fit SQLite.  A prior timestamp that
    parses to an aware value while the new one is naive (or the reverse)
    is none of these cases: the subtraction raises TypeError, which the
    block does not catch, and nothing is stored. *)
Theorem C3_drain_rate clk flt dev pct v t rssi db :
  let ts := now_isoformat clk in
  let call := record_reading clk flt dev pct v t rssi db in
  (forall r db', call = (Returns r, db') ->
     ((forall p, In p (battery_readings db) ->
                 BatteryReading.device_id p <> dev) ->
      BatteryReading.drain_rate r = None) /\
     (forall prior,
        Sql.latest_reading dev (battery_readings db) = Some prior ->
        (fromisoformat ts = None \/
         fromisoformat (BatteryReading.reading_time prior) = None ->
         BatteryReading.drain_rate r = None) /\
        (forall t1 t0 us,
           fromisoformat ts = Some t1 ->
           fromisoformat (BatteryReading.reading_time prior) = Some t0 ->
           datetime_sub t1 t0 = Returns us ->
           let elapsed_hours := total_seconds us / 3600 in
           let quotient :=
             (BatteryReading.battery_pct prior - pct) / elapsed_hours in
           ((0 <? elapsed_hours) = true ->
            exists rate,
              BatteryReading.drain_rate r = Some rate /\
              rate = PyFloat.round quotient 4 /\
              rounded_to 4 quotient rate /\
              (forall rate', rounded_to 4 quotient rate' -> rate' = rate)) /\
           ((elapsed_hours <=? 0) = true ->
            BatteryReading.drain_rate r = None)))) /\
  ((forall k, flt k = false) -> PyFloat.isnan pct = false ->
   bindable dev rssi -> readings_not_full db -> alerts_not_full db ->
   forall prior,
     Sql.latest_reading dev (battery_readings db) = Some prior ->
     (fromisoformat ts = None \/
      fromisoformat (BatteryReading.reading_time prior) = None) \/
     (exists t1 t0 us,
        fromisoformat ts = Some t1 /\
        fromisoformat (BatteryReading.reading_time prior) = Some t0 /\
        datetime_sub t1 t0 = Returns us /\
        (total_seconds us / 3600 <=? 0) = true) ->
     exists r db',
       call = (Returns r, db') /\ BatteryReading.drain_rate r = None) /\
  (flt 0%nat = false -> is_int64 dev = true ->
   forall prior t1 t0,
     Sql.latest_reading dev (battery_readings db) = Some prior ->
     fromisoformat ts = Some t1 ->
     fromisoformat (BatteryReading.reading_time prior) = Some t0 ->
     (utcoffset t1 = None <-> utcoffset t0 <> None) ->
     call = (Raises TypeError, db)).
Proof.
  intros ts call. split; [|split].
  - intros r db' Hcall. unfold call in Hcall.
    apply record_reading_returns in Hcall.
    destruct Hcall as (drain & Hdrain & _ & Hr & _).
    assert (Hd : BatteryReading.drain_rate r = drain) by (subst r; reflexivity).
    rewrite Hd. clear Hd Hr. unfold prev_of in Hdrain. fold ts in Hdrain.
    split.
    + intros Hnone. apply latest_reading_None in Hnone.
      rewrite Hnone in Hdrain. cbn in Hdrain. congruence.
    + intros prior Hprior. rewrite Hprior in Hdrain.
      cbn [option_map] in Hdrain. split.
      * intros Hparse.
        rewrite (drain_rate_of_unparsed _ _ _ _ Hparse) in Hdrain. congruence.
      * intros t1 t0 us H1 H0 Hs elapsed_hours quotient.
        rewrite (drain_rate_of_elapsed _ _ _ _ _ _ _ H1 H0 Hs) in Hdrain.
        fold elapsed_hours in Hdrain. fold quotient in Hdrain.
        split; intros He.
        -- rewrite He in Hdrain. exists (PyFloat.round quotient 4).
           assert (Hrt : rounded_to 4 quotient (PyFloat.round quotient 4))
             by (apply round_rounded_to; lia).
           split; [congruence|]. split; [reflexivity|].
           split; [exact Hrt|].
           intros rate' Hrate'.
           exact (rounded_to_unique _ _ _ _ Hrate' Hrt).
        -- destruct (0 <? elapsed_hours) eqn:E; [|congruence].
           apply FloatFacts.ltb_leb_false in E. congruence.
  - intros Hflt Hnan Hbind Hroom Haroom prior Hprior Hcase.
    assert (Hdrain : drain_rate_of ts (prev_of dev db) pct = Returns None).
    { unfold prev_of. rewrite Hprior. cbn [option_map].
      destruct Hcase as [Hparse|(t1 & t0 & us & H1 & H0 & Hs & He)].
      - apply drain_rate_of_unparsed. exact Hparse.
      - rewrite (drain_rate_of_elapsed _ _ _ _ _ _ _ H1 H0 Hs).
        destruct (0 <? total_seconds us / 3600) eqn:E; [|reflexivity].
        apply FloatFacts.ltb_leb_false in E. congruence. }
    destruct (record_reading_total clk flt dev pct v t rssi db None
                Hflt Hnan Hbind Hroom Haroom Hdrain) as (r & db' & Hcall).
    exists r, db'. split; [exact Hcall|].
    apply record_reading_returns in Hcall.
    destruct Hcall as (drain & Hdrain' & _ & Hr & _).
    subst r. cbn. fold ts in Hdrain'. congruence.
  - intros H0 Hd prior t1 t0 Hprior H1 H2 Hmixed.
    unfold call. rewrite record_reading_run, H0, Hd. cbn [negb].
    unfold prev_of. rewrite Hprior. cbn [option_map]. fold ts.
    rewrite (drain_rate_of_mixed _ _ _ _ _ _ H1 H2 Hmixed). reflexivity.
Qed.

End DrainRateClaim.

(** In the scenario, 50 percent seven hours after 80 percent: the drain
    rate is 30/7 rounded to 4 places, 4.2857.  And a reading that follows
    one stamped with a UTC offset raises TypeError and stores nothing. *)
Lemma C3_witness :
  (exists r db',
     Scenario.ingest "2024-01-01T17:00:00" 50 Scenario.after_80
       = (Returns r, db') /\
     BatteryReading.drain_rate r = Some 4.2857%float) /\
  Scenario.ingest "2024-01-01T11:00:00" 50 Scenario.aware_80
    = (Raises TypeError, Scenario.aware_80).
Proof.
  split.
  - destruct (Scenario.ingest "2024-01-01T17:00:00" 50 Scenario.after_80)
      as [[r|e] db'] eqn:E; [|vm_compute in E; discriminate].
    exists r, db'. split; [reflexivity|].
    destruct (C3_drain_rate (rt := BasicRuntime.basic)
                (Scenario.clock "2024-01-01T17:00:00") no_faults 1 50
                None None None Scenario.after_80) as [H _].
    destruct (H r db' E) as [_ Hprior].
    destruct (Hprior
                (BatteryReading.mk 1 1 "2024-01-01T10:00:00" 80 None None None
                   None)) as [_ Helapsed].
    { vm_compute. reflexivity. }
    destruct (Helapsed
                {| wall_us := 63839725200000000; utcoffset := None |}
                {| wall_us := 63839700000000000; utcoffset := None |}
                25200000000%Z) as [Hpos _];
      try (vm_compute; reflexivity).
    destruct Hpos as (rate & Hd & Hrate & _); [vm_compute; reflexivity|].
    rewrite Hd, Hrate. vm_compute. reflexivity.
  - destruct (C3_drain_rate (rt := BasicRuntime.basic)
                (Scenario.clock "2024-01-01T11:00:00") no_faults 1 50
                None None None Scenario.aware_80) as (_ & _ & H).
    apply (H eq_refl eq_refl
             (BatteryReading.mk 1 1 "2024-01-01T10:00:00+00:00" 80 None None
                None None)
             {| wall_us := 63839703600000000; utcoffset := None |}
             {| wall_us := 63839700000000000; utcoffset := Some 0%Z |}).
    + vm_compute. reflexivity.
    + vm_compute. reflexivity.
    + vm_compute. reflexivity.
    + cbn. split; [discriminate|reflexivity].
Defined.

(** ** The alert policy *)

Section Alerts.

Context {rt : PyRuntime}.

Import BatteryManager.

Open Scope float_scope.

Lemma new_alerts_rows clk dev pct seq alerts :
  Forall (fun a => BatteryAlert.device_id a = dev /\
                   BatteryAlert.resolved a = false /\
                   BatteryAlert.current_value a = sqlite_real pct /\
                   (BatteryAlert.alert_type a = "critical"%string \/
                    BatteryAlert.alert_type a = "low_battery"%string))
         (new_alerts clk dev pct seq alerts).
Proof.
  unfold new_alerts.
  destruct (pct <=? CRITICAL_PCT); [|destruct (pct <=? LOW_PCT)];
    try (apply Forall_cons; [cbn; auto|]); apply Forall_nil.
Qed.

(** C4, as the code has it.  A level above 30.0 raises no alert and
    touches nothing.  For a level of at most 30.0, when the two store
    statements succeed, the id fits SQLite and the alert table has room,
    [_check_alerts] returns and appends exactly one alert: of type
    "critical" with threshold 15.0 for [pct <= 15.0], of type
    "low_battery" with threshold 30.0 for [15.0 < pct <= 30.0].  Its
    current value is the level as the REAL column stores it (equal to the
    level as floats compare; the level itself unless that is the negative
    zero, stored as 0.0), and its message carries the level written with
    one decimal ([{pct:.1f}]): "CRITICAL: battery at 12.3%!" for 12.34. *)
Theorem C4_alert_policy clk flt dev pct db :
  let res := _check_alerts clk flt dev pct db in
  ((30 <? pct) = true -> res = (Returns tt, db)) /\
  (flt 0%nat = false -> flt 1%nat = false -> is_int64 dev = true ->
   alerts_not_full db ->
   fst res = Returns tt /\
   ((pct <=? 15) = true ->
    exists a text,
      battery_alerts (snd res) = battery_alerts db ++ [a] /\
      BatteryAlert.device_id a = dev /\
      BatteryAlert.alert_type a = "critical"%string /\
      BatteryAlert.threshold a = 15 /\
      BatteryAlert.current_value a = sqlite_real pct /\
      (BatteryAlert.current_value a =? pct) = true /\
      (pct <> (-0)%float -> BatteryAlert.current_value a = pct) /\
      renders_1f pct text /\
      (forall text', renders_1f pct text' -> text' = text) /\
      BatteryAlert.message a =
        ("CRITICAL: battery at " ++ text ++ "%!")%string /\
      BatteryAlert.resolved a = false) /\
   ((15 <? pct) = true -> (pct <=? 30) = true ->
    exists a text,
      battery_alerts (snd res) = battery_alerts db ++ [a] /\
      BatteryAlert.device_id a = dev /\
      BatteryAlert.alert_type a = "low_battery"%string /\
      BatteryAlert.threshold a = 30 /\
      BatteryAlert.current_value a = sqlite_real pct /\
      (BatteryAlert.current_value a =? pct) = true /\
      (pct <> (-0)%float -> BatteryAlert.current_value a = pct) /\
      renders_1f pct text /\
      (forall text', renders_1f pct text' -> text' = text) /\
      BatteryAlert.message a =
        ("Battery low: " ++ text ++ "%")%string /\
      BatteryAlert.resolved a = false)).
Proof.
  intros res. split.
  - intros Hh. apply FloatFacts.ltb_leb_false in Hh.
    unfold res. rewrite _check_alerts_run.
    change LOW_PCT with 30%float. rewrite Hh. reflexivity.
  - intros H0 H1 Hd Hroom.
    destruct (_check_alerts_total clk flt dev pct db H0 H1 Hd Hroom)
      as [db' E].
    unfold res. rewrite E. cbn [fst snd]. split; [reflexivity|].
    pose proof (_check_alerts_returns _ _ _ _ _ _ _ E) as (Ed & Er & Ea).
    unfold new_alerts, CRITICAL_PCT, LOW_PCT in Ea.
    assert (Hrender : renders_1f pct (PyFloat.format_1f pct))
      by apply format_1f_renders.
    assert (Hone : forall text', renders_1f pct text' ->
                     text' = PyFloat.format_1f pct).
    { intros text' H'. exact (renders_1f_unique _ _ _ H' Hrender). }
    split.
    + intros Hc. rewrite Hc in Ea.
      destruct (FloatFacts.leb_isnan _ _ Hc) as [Hnan _].
      eexists. exists (PyFloat.format_1f pct). split; [exact Ea|].
      cbn. split; [reflexivity|]. split; [reflexivity|].
      split; [reflexivity|]. split; [reflexivity|].
      split; [apply sqlite_real_eqb; exact Hnan|].
      split; [intros Hz; apply sqlite_real_same, not_neg_zero, Hz|].
      split; [exact Hrender|]. split; [exact Hone|].
      split; reflexivity.
    + intros Hc Hl. apply FloatFacts.ltb_leb_false in Hc.
      rewrite Hc, Hl in Ea.
      destruct (FloatFacts.leb_isnan _ _ Hl) as [Hnan _].
      eexists. exists (PyFloat.format_1f pct). split; [exact Ea|].
      cbn. split; [reflexivity|]. split; [reflexivity|].
      split; [reflexivity|]. split; [reflexivity|].
      split; [apply sqlite_real_eqb; exact Hnan|].
      split; [intros Hz; apply sqlite_real_same, not_neg_zero, Hz|].
      split; [exact Hrender|]. split; [exact Hone|].
      split; reflexivity.
Qed.

(** C6. No deduplication: a client that ingests a sequence of readings
    for one device, starting from any database (so whatever alerts are
    already there, resolved or not), ends with one more alert row per
    reading whose level is at most 30.0; the rows are appended, for that
    device, unresolved. *)
Theorem C6_no_deduplication dev l db u db' :
  ingest_all dev l db = (Returns u, db') ->
  exists added,
    battery_alerts db' = battery_alerts db ++ added /\
    length added = length (filter qualifies l) /\
    Forall (fun a => BatteryAlert.device_id a = dev /\
                     BatteryAlert.resolved a = false /\
                     (BatteryAlert.alert_type a = "critical"%string \/
                      BatteryAlert.alert_type a = "low_battery"%string))
           added.
Proof.
  revert db. induction l as [|i l IH]; intros db H.
  - cbn in H. inversion H; subst. exists []. rewrite app_nil_r.
    repeat split. constructor.
  - cbn [ingest_all] in H. unfold bind in H.
    destruct (record_reading (at_clock i) (store_faults i) dev
                (reported_pct i) (reported_mv i) (reported_temp i)
                (reported_rssi i) db) as [[r|e] db1] eqn:E; [|discriminate].
    apply record_reading_returns in E.
    destruct E as (drain & _ & _ & _ & _ & _ & Ea & _).
    destruct (IH db1 H) as (added & Hadd & Hlen & Hall).
    exists (new_alerts (at_clock i) dev (reported_pct i)
              (seq_battery_alerts db) (battery_alerts db) ++ added).
    split; [|split].
    + rewrite Hadd, Ea, app_assoc. reflexivity.
    + rewrite length_app, new_alerts_length, Hlen. cbn [filter].
      unfold qualifies at 2.
      destruct (reported_pct i <=? LOW_PCT); reflexivity.
    + apply Forall_app. split; [|exact Hall].
      eapply Forall_impl; [|apply new_alerts_rows].
      cbn. intros a (Ha & Hb & _ & Hc). auto.
Qed.

End Alerts.

(** C4 fails on the code in its message and in its current value.  For
    12.34 percent the message is "CRITICAL: battery at 12.3%!", the level
    with one decimal, and not "CRITICAL: battery at 12.34%!"; for 20.26
    percent it is "Battery low: 20.3%".  For the negative zero the stored
    current value is 0.0, not the float that was passed (the message, made
    before the value is stored, reads "-0.0"). *)
Lemma C4_counterexample :
  let check pct :=
    snd (BatteryManager._check_alerts
           (Scenario.clock "2024-01-01T13:00:00") no_faults 1 pct
           BatteryManager._init_db) in
  (exists a,
     battery_alerts (check 12.34%float) = [a] /\
     BatteryAlert.message a = "CRITICAL: battery at 12.3%!"%string /\
     BatteryAlert.message a <> "CRITICAL: battery at 12.34%!"%string) /\
  (exists a,
     battery_alerts (check 20.26%float) = [a] /\
     BatteryAlert.message a = "Battery low: 20.3%"%string /\
     BatteryAlert.message a <> "Battery low: 20.26%"%string) /\
  (exists a,
     battery_alerts (check (-0)%float) = [a] /\
     BatteryAlert.current_value a = 0%float /\
     BatteryAlert.current_value a <> (-0)%float /\
     BatteryAlert.message a = "CRITICAL: battery at -0.0%!"%string).
Proof.
  cbv zeta. split; [|split].
  - eexists. split; [vm_compute; reflexivity|].
    split; [reflexivity|discriminate].
  - eexists. split; [vm_compute; reflexivity|].
    split; [reflexivity|discriminate].
  - eexists. split; [vm_compute; reflexivity|].
    split; [reflexivity|]. split; [exact neg_zero_differs|reflexivity].
Defined.

(** [_check_alerts] on 12.34 percent, through the theorem: one critical
    alert whose message rounds the level to one decimal; on 12.375
    percent, halfway between 12.3 and 12.4 after scaling, the even digit
    is taken. *)
Lemma C4_witness :
  (exists a,
     battery_alerts
       (snd (BatteryManager._check_alerts
               (Scenario.clock "2024-01-01T13:00:00") no_faults 1 12.34
               BatteryManager._init_db)) = [a] /\
     BatteryAlert.alert_type a = "critical"%string /\
     BatteryAlert.current_value a = 12.34%float /\
     BatteryAlert.message a = "CRITICAL: battery at 12.3%!"%string) /\
  (exists a,
     battery_alerts
       (snd (BatteryManager._check_alerts
               (Scenario.clock "2024-01-01T13:00:00") no_faults 1 20.25
               BatteryManager._init_db)) = [a] /\
     BatteryAlert.alert_type a = "low_battery"%string /\
     BatteryAlert.message a = "Battery low: 20.2%"%string).
Proof.
  split.
  - destruct (C4_alert_policy (Scenario.clock "2024-01-01T13:00:00")
                no_faults 1 12.34 BatteryManager._init_db)
      as (_ & H).
    destruct (H eq_refl eq_refl eq_refl eq_refl) as (_ & Hcrit & _).
    destruct (Hcrit eq_refl)
      as (a & text & Ha & _ & Ht & _ & _ & _ & Hv & _ & Hone & Hm & _).
    exists a. split; [exact Ha|]. split; [exact Ht|].
    split; [apply Hv; intros E; apply (f_equal Prim2SF) in E;
            vm_compute in E; discriminate|].
    rewrite Hm. rewrite <- (Hone "12.3"%string); [reflexivity|].
    unfold renders_1f.
    destruct (Prim2SF 12.34) as [s|s| |s m e] eqn:E; vm_compute in E;
      try discriminate E.
    injection E as <- <- <-. exists 123%Z.
    split; [discriminate|]. split; [|reflexivity].
    split; [discriminate|]. intros H'. vm_compute in H'. discriminate H'.
  - destruct (C4_alert_policy (Scenario.clock "2024-01-01T13:00:00")
                no_faults 1 20.25 BatteryManager._init_db)
      as (_ & H).
    destruct (H eq_refl eq_refl eq_refl eq_refl) as (_ & _ & Hlow).
    destruct (Hlow eq_refl eq_refl)
      as (a & text & Ha & _ & Ht & _ & _ & _ & _ & _ & Hone & Hm & _).
    exists a. split; [exact Ha|]. split; [exact Ht|].
    rewrite Hm. rewrite <- (Hone "20.2"%string); [reflexivity|].
    unfold renders_1f.
    destruct (Prim2SF 20.25) as [s|s| |s m e] eqn:E; vm_compute in E;
      try discriminate E.
    injection E as <- <- <-. exists 202%Z.
    split; [discriminate|]. split; [|reflexivity].
    split; [discriminate|]. intros _. reflexivity.
Defined.

(** Two readings of 20 percent in a row, with the first low_battery alert
    still unresolved, leave two alert rows. *)
Lemma C6_witness :
  exists db' added,
    ingest_all (rt := BasicRuntime.basic) 1
      [ {| at_clock := Scenario.clock "2024-01-01T12:00:00";
           store_faults := no_faults; reported_pct := 20;
           reported_mv := None; reported_temp := None;
           reported_rssi := None |};
        {| at_clock := Scenario.clock "2024-01-01T13:00:00";
           store_faults := no_faults; reported_pct := 20;
           reported_mv := None; reported_temp := None;
           reported_rssi := None |} ]
      Scenario.after_50 = (Returns tt, db') /\
    battery_alerts db' = battery_alerts Scenario.after_50 ++ added /\
    length added = 2%nat.
Proof.
  match goal with
  | |- exists db' added, ?call = _ /\ _ =>
      destruct call as [[[]|e] db'] eqn:E; [|vm_compute in E; discriminate]
  end.
  destruct (C6_no_deduplication (rt := BasicRuntime.basic) _ _ _ _ _ E)
    as (added & Ha & Hl & _).
  exists db', added. split; [reflexivity|]. split; [exact Ha|exact Hl].
Defined.

(** ** Atomicity of an ingestion, and ingestion for an unknown device *)

Section Atomicity.

Context {rt : PyRuntime}.

Import BatteryManager.

Open Scope float_scope.

Lemma update_rows_Forall2 pct ts dev rows :
  Forall2 (fun d d' =>
             if (IoTDevice.id d =? dev)%Z
             then d' = Sql.set_state (sqlite_real pct) ts
                         (new_status_of pct) d
             else d' = d)
          rows (update_rows pct ts dev rows).
Proof.
  unfold update_rows. induction rows as [|x rows IH]; cbn.
  - apply Forall2_nil.
  - apply Forall2_cons; [|exact IH].
    destruct (IoTDevice.id x =? dev)%Z; reflexivity.
Qed.

(** C5, as the code has it.  Whatever statement of the call fails,
    [record_reading] leaves the reading and device tables in one of two
    states: both as they were (and the call raised), or with the INSERT
    and the UPDATE both applied: the new reading appended, every row of
    the device carrying the new level (as the REAL column stores it),
    timestamp and status, and every other row as it was.  The UPDATE
    changes the rows that carry the id: for an id no device carries the
    second state has the reading stored and the device table as it was. *)
Theorem C5_ingest_atomic clk flt dev pct v t rssi db :
  let res := record_reading clk flt dev pct v t rssi db in
  let ts := now_isoformat clk in
  ((exists e, fst res = Raises e) /\
   battery_readings (snd res) = battery_readings db /\
   iot_devices (snd res) = iot_devices db)
  \/
  (exists row,
     battery_readings (snd res) = battery_readings db ++ [row] /\
     BatteryReading.device_id row = dev /\
     BatteryReading.battery_pct row = sqlite_real pct /\
     BatteryReading.reading_time row = ts /\
     Forall2 (fun d d' =>
                if (IoTDevice.id d =? dev)%Z
                then d' = Sql.set_state (sqlite_real pct) ts
                            (new_status_of pct) d
                else d' = d)
             (iot_devices db) (iot_devices (snd res)) /\
     (forall d', In d' (iot_devices (snd res)) -> IoTDevice.id d' = dev ->
        IoTDevice.current_pct d' = sqlite_real pct /\
        IoTDevice.last_seen d' = ts /\
        IoTDevice.status d' = new_status_of pct) /\
     ((forall d, In d (iot_devices db) -> IoTDevice.id d <> dev) ->
      iot_devices (snd res) = iot_devices db)).
Proof.
  intros res ts.
  pose proof (record_reading_tables clk flt dev pct v t rssi db) as H.
  cbv zeta in H. unfold res.
  destruct H as [[He Hdb]|(drain & Hd & Hr & _)].
  - left. rewrite Hdb. auto.
  - right. exists (reading_row clk dev pct v t rssi drain db).
    split; [exact Hr|].
    split; [reflexivity|]. split; [reflexivity|]. split; [reflexivity|].
    rewrite Hd. split; [apply update_rows_Forall2|]. split.
    + intros d' Hin Hid. apply (update_rows_hit _ _ _ _ _ Hin Hid).
    + apply update_rows_miss.
Qed.

(** A failure of the UPDATE, after the INSERT went through, rolls the
    INSERT back. *)
Lemma failed_update_rolls_back clk flt dev pct v t rssi db :
  flt 2%nat = true ->
  exists e, record_reading clk flt dev pct v t rssi db = (Raises e, db).
Proof.
  intros H2. rewrite record_reading_run, H2.
  destruct (flt 0%nat); [eauto|].
  destruct (negb (is_int64 dev)); [eauto|].
  destruct (drain_rate_of _ _ pct) as [drain|e]; [|eauto].
  destruct (flt 1%nat); [eauto|].
  destruct (negb (forallb _ _)); [eauto|].
  destruct (negb (rowid_available _ _)); [eauto|].
  destruct (PyFloat.isnan pct); eauto.
Qed.

(** The drain-rate block lets one exception through. *)
Lemma drain_rate_of_raises ts prev pct e :
  drain_rate_of ts prev pct = Raises e -> e = TypeError.
Proof.
  unfold drain_rate_of. destruct prev as [[p0 t0]|]; [|discriminate].
  destruct (fromisoformat ts) as [t1|]; [|discriminate].
  destruct (fromisoformat t0) as [t0'|]; [|discriminate].
  destruct (datetime_sub t1 t0') as [us|e'] eqn:Hs.
  - change (PyFloat.truediv_int (total_seconds us) 3600)
      with (Returns (A := float) (total_seconds us / 3600)).
    cbv beta iota.
    destruct (PyFloat.gtb (total_seconds us / 3600) 0) eqn:E;
      [|discriminate].
    unfold PyFloat.truediv.
    rewrite (FloatFacts.gtb_zero_nonzero _ E). discriminate.
  - intros H. inversion H; subst e'. revert Hs. unfold datetime_sub.
    destruct (utcoffset t1), (utcoffset t0'); congruence.
Qed.

(** What [record_reading] can raise: never an error for a missing
    device, and never ZeroDivisionError. *)
Lemma record_reading_raises clk flt dev pct v t rssi db e db' :
  record_reading clk flt dev pct v t rssi db = (Raises e, db') ->
  e = OperationalError \/ e = OverflowError \/ e = TypeError \/
  e = IntegrityError /\ PyFloat.isnan pct = true.
Proof.
  rewrite record_reading_run.
  destruct (flt 0%nat); [intros H; inversion H; auto|].
  destruct (negb (is_int64 dev)); [intros H; inversion H; auto|].
  destruct (drain_rate_of _ _ pct) as [drain|e0] eqn:Hdr.
  2:{ intros H; inversion H; subst e0.
      apply drain_rate_of_raises in Hdr. auto. }
  destruct (flt 1%nat); [intros H; inversion H; auto|].
  destruct (negb (forallb _ _)); [intros H; inversion H; auto|].
  destruct (negb (rowid_available _ _)); [intros H; inversion H; auto|].
  destruct (PyFloat.isnan pct); [intros H; inversion H; auto 6|].
  destruct (flt 2%nat); [intros H; inversion H; auto|].
  destruct (flt 3%nat); [intros H; inversion H; auto|].
  destruct (_check_alerts _ _ _ _ _) as [[u|e1] db2] eqn:E; [discriminate|].
  intros H; inversion H; subst e1 db2.
  apply _check_alerts_raises in E. destruct E as (_ & _ & [->|[-> _]]); auto.
Qed.

(** C1, as the code has it.  For a device id that no row of [iot_devices]
    carries, [record_reading] does not look the device up: it mutates no
    device row, and a call that returns has appended one reading row for
    that id, and one alert row for that id when the level is at most 30.0
    (none otherwise).  What it raises are the errors of the store and of
    the arguments, as for a device that exists. *)
Theorem C1_unknown_device_is_ingested clk flt dev pct v t rssi db :
  (forall d, In d (iot_devices db) -> IoTDevice.id d <> dev) ->
  let res := record_reading clk flt dev pct v t rssi db in
  iot_devices (snd res) = iot_devices db /\
  (forall r, fst res = Returns r ->
     (exists row,
        battery_readings (snd res) = battery_readings db ++ [row] /\
        BatteryReading.device_id row = dev) /\
     (exists added,
        battery_alerts (snd res) = battery_alerts db ++ added /\
        length added = (if (pct <=? 30)%float then 1 else 0)%nat /\
        Forall (fun a => BatteryAlert.device_id a = dev) added)) /\
  (forall e, fst res = Raises e ->
     e = OperationalError \/ e = OverflowError \/ e = TypeError \/
     e = IntegrityError /\ PyFloat.isnan pct = true).
Proof.
  intros Habsent res. unfold res. split; [|split].
  - pose proof (record_reading_tables clk flt dev pct v t rssi db) as H.
    cbv zeta in H. destruct H as [[He Hdb]|(drain & Hd & Hr & _)].
    + rewrite Hdb. reflexivity.
    + rewrite Hd. apply update_rows_miss. exact Habsent.
  - intros r Hres.
    destruct (record_reading clk flt dev pct v t rssi db) as [o db'] eqn:E.
    cbn in Hres. subst o.
    apply record_reading_returns in E.
    destruct E as (drain & _ & _ & _ & _ & Hr & Ha & _). cbn [snd].
    split; [eexists; split; [exact Hr|reflexivity]|].
    exists (new_alerts clk dev pct (seq_battery_alerts db)
              (battery_alerts db)).
    split; [exact Ha|]. split; [apply new_alerts_length|].
    eapply Forall_impl; [|apply new_alerts_rows]. cbn. tauto.
  - intros e Hres.
    destruct (record_reading clk flt dev pct v t rssi db) as [o db'] eqn:E.
    cbn in Hres. subst o.
    exact (record_reading_raises _ _ _ _ _ _ _ _ _ _ E).
Qed.

End Atomicity.

(** C1 fails on the code: on the fresh database, where no device has id 7,
    ingesting 20 percent for device 7 raises nothing and leaves a reading
    row and an alert row behind. *)
Lemma C1_counterexample :
  let db := BatteryManager._init_db in
  let res :=
    BatteryManager.record_reading (rt := BasicRuntime.basic)
      (Scenario.clock "2024-01-01T10:00:00") no_faults 7 20 None None None
      db in
  (forall d, In d (iot_devices db) -> IoTDevice.id d <> 7%Z) /\
  ~ ((exists e, fst res = Raises e) /\ snd res = db) /\
  (exists r, fst res = Returns r) /\
  length (battery_readings (snd res)) = 1%nat /\
  length (battery_alerts (snd res)) = 1%nat.
Proof.
  cbv zeta. split; [intros d []|]. split.
  - intros [[e He] _]. vm_compute in He. discriminate.
  - split; [eexists; vm_compute; reflexivity|].
    split; vm_compute; reflexivity.
Defined.

(** The same call, through the theorem. *)
Lemma C1_witness :
  let res :=
    BatteryManager.record_reading (rt := BasicRuntime.basic)
      (Scenario.clock "2024-01-01T10:00:00") no_faults 7 20 None None None
      BatteryManager._init_db in
  iot_devices (snd res) = [] /\
  exists row added,
    battery_readings (snd res) = [row] /\
    BatteryReading.device_id row = 7%Z /\
    battery_alerts (snd res) = added /\ length added = 1%nat.
Proof.
  cbv zeta.
  destruct (C1_unknown_device_is_ingested (rt := BasicRuntime.basic)
              (Scenario.clock "2024-01-01T10:00:00") no_faults 7 20
              None None None BatteryManager._init_db)
    as (Hdev & Hret & _).
  - intros d [].
  - split; [exact Hdev|].
    destruct (Hret (BatteryReading.mk 1 7 "2024-01-01T10:00:00" 20 None None
                      None None))
      as ((row & Hr & Hd) & (added & Ha & Hl & _)).
    + vm_compute. reflexivity.
    + exists row, added. split; [exact Hr|]. split; [exact Hd|].
      split; [exact Ha|exact Hl].
Defined.

(** C5 fails on the code for an id no device carries: with "sensor-1"
    registered as device 1, ingesting 20 percent for device 7 returns
    and leaves the reading stored while no device row was updated. *)
Lemma C5_counterexample :
  let db := Scenario.registered in
  let res :=
    BatteryManager.record_reading (rt := BasicRuntime.basic)
      (Scenario.clock "2024-01-01T10:00:00") no_faults 7 20 None None None
      db in
  (exists r, fst res = Returns r) /\
  (exists row,
     battery_readings (snd res) = battery_readings db ++ [row] /\
     BatteryReading.device_id row = 7%Z /\
     BatteryReading.battery_pct row = 20%float) /\
  iot_devices (snd res) = iot_devices db /\
  (forall d, In d (iot_devices (snd res)) ->
     IoTDevice.current_pct d = 100%float /\
     IoTDevice.last_seen d = "2024-01-01T09:00:00"%string /\
     IoTDevice.status d = "online"%string).
Proof.
  cbv zeta. split; [eexists; vm_compute; reflexivity|].
  split; [eexists; vm_compute; split; [reflexivity|split; reflexivity]|].
  split; [vm_compute; reflexivity|].
  intros d Hd. vm_compute in Hd. destruct Hd as [<-|[]].
  repeat split; reflexivity.
Defined.

(** The 20 percent reading for "sensor-1" with the UPDATE failing: the
    INSERT is rolled back and both tables are as they were; with the
    store answering, both are written. *)
Lemma C5_witness :
  (let res :=
     BatteryManager.record_reading (rt := BasicRuntime.basic)
       (Scenario.clock "2024-01-01T10:00:00") (fun k => Nat.eqb k 2) 1 20
       None None None Scenario.registered in
   battery_readings (snd res) = battery_readings Scenario.registered /\
   iot_devices (snd res) = iot_devices Scenario.registered) /\
  (let res :=
     BatteryManager.record_reading (rt := BasicRuntime.basic)
       (Scenario.clock "2024-01-01T10:00:00") no_faults 1 20
       None None None Scenario.registered in
   length (battery_readings (snd res)) = 1%nat /\
   map IoTDevice.status (iot_devices (snd res)) = ["warning"%string]).
Proof.
  split; cbv zeta.
  - destruct (C5_ingest_atomic (rt := BasicRuntime.basic)
                (Scenario.clock "2024-01-01T10:00:00") (fun k => Nat.eqb k 2)
                1 20 None None None Scenario.registered)
      as [(_ & Hr & Hd)|(row & Hr & _)].
    + split; assumption.
    + apply (f_equal (@length _)) in Hr. rewrite length_app in Hr.
      vm_compute in Hr. discriminate.
  - destruct (C5_ingest_atomic (rt := BasicRuntime.basic)
                (Scenario.clock "2024-01-01T10:00:00") no_faults
                1 20 None None None Scenario.registered)
      as [([e He] & _)|(row & Hr & _ & _ & _ & _ & _)].
    + vm_compute in He. discriminate.
    + split; [rewrite Hr; reflexivity|vm_compute; reflexivity].
Defined.

(** ** Fleet aggregation *)

Section Fleet.

Context {rt : PyRuntime}.

Import BatteryManager.

Open Scope float_scope.

Lemma insert_by_pct_perm d l : Permutation (d :: l) (Sql.insert_by_pct d l).
Proof.
  induction l as [|x l IH]; cbn.
  - apply Permutation_refl.
  - destruct (IoTDevice.current_pct d <=? IoTDevice.current_pct x).
    + apply Permutation_refl.
    + eapply Permutation_trans; [apply perm_swap|].
      apply perm_skip. exact IH.
Qed.

(** [ORDER BY] rearranges the rows and loses none. *)
Lemma order_by_pct_perm l : Permutation l (Sql.order_by_pct l).
Proof.
  induction l as [|x l IH]; cbn.
  - apply Permutation_refl.
  - eapply Permutation_trans; [|apply insert_by_pct_perm].
    apply perm_skip. exact IH.
Qed.

Lemma count_if_perm p l l' :
  Permutation l l' -> count_if p l = count_if p l'.
Proof.
  unfold count_if. induction 1 as [|x l l' _ IH|x y l|l l' l'' _ IH1 _ IH2];
    cbn.
  - reflexivity.
  - destruct (p x); cbn; congruence.
  - destruct (p x), (p y); reflexivity.
  - congruence.
Qed.

Lemma count_if_values (q : float -> bool) l :
  count_if (fun d => q (IoTDevice.current_pct d)) l =
    length (filter q (map IoTDevice.current_pct l)).
Proof.
  unfold count_if. induction l as [|x l IH]; cbn; [reflexivity|].
  destruct (q (IoTDevice.current_pct x)); cbn; congruence.
Qed.

(** [fleet_status] reads and never writes; what it returns is this. *)
Lemma fleet_status_returns flt db fs db' :
  fleet_status flt db = (Returns fs, db') ->
  let devices := Sql.order_by_pct (iot_devices db) in
  db' = db /\
  total_devices fs = length devices /\
  avg_battery_pct fs =
    (if Nat.eqb (length devices) 0 then 0
     else PyFloat.round
            (py_sum (map IoTDevice.current_pct devices)
             / PyFloat.of_int (Z.of_nat (length devices))) 1) /\
  healthy fs =
    count_if (fun d => PyFloat.geb (IoTDevice.current_pct d) 60) devices /\
  warning fs =
    count_if (fun d => (30 <=? IoTDevice.current_pct d)
                       && (IoTDevice.current_pct d <? 60)) devices /\
  low fs =
    count_if (fun d => (15 <=? IoTDevice.current_pct d)
                       && (IoTDevice.current_pct d <? 30)) devices /\
  critical fs =
    count_if (fun d => IoTDevice.current_pct d <? 15) devices /\
  active_alerts fs =
    length (filter (fun a => negb (BatteryAlert.resolved a))
                   (battery_alerts db)).
Proof.
  pose proof (fleet_status_run flt db) as Hrun. cbv zeta in Hrun.
  rewrite Hrun. intros H devices.
  destruct (flt 0%nat); [discriminate|].
  destruct (flt 1%nat); [discriminate|].
  inversion H; subst fs db'; clear H.
  cbn [total_devices avg_battery_pct healthy warning low critical
       active_alerts].
  repeat split; reflexivity.
Qed.

Lemma fleet_status_total flt db :
  flt 0%nat = false -> flt 1%nat = false ->
  exists fs, fleet_status flt db = (Returns fs, db).
Proof.
  intros H0 H1.
  pose proof (fleet_status_run flt db) as Hrun. cbv zeta in Hrun.
  rewrite Hrun, H0, H1. eauto.
Qed.

Lemma fleet_status_raises flt db e db' :
  fleet_status flt db = (Raises e, db') -> e = OperationalError.
Proof.
  pose proof (fleet_status_run flt db) as Hrun. cbv zeta in Hrun.
  rewrite Hrun.
  destruct (flt 0%nat); [congruence|].
  destruct (flt 1%nat); [congruence|discriminate].
Qed.

Lemma fleet_status_reads flt db : snd (fleet_status flt db) = db.
Proof.
  pose proof (fleet_status_run flt db) as Hrun. cbv zeta in Hrun.
  rewrite Hrun.
  destruct (flt 0%nat); [reflexivity|].
  destruct (flt 1%nat); reflexivity.
Qed.

(** The plain [sum] is the left-to-right sum from 0.0; and either [sum]
    of one float is that float added to 0.0. *)
Lemma py_sum_plain (xs : list float) :
  compensated_sum = false -> py_sum xs = fold_left PrimFloat.add xs 0.
Proof.
  intros H. unfold py_sum. destruct xs as [|x xs]; [reflexivity|].
  rewrite H. reflexivity.
Qed.

Lemma py_sum_single (x : float) : py_sum [x] = 0 + x.
Proof.
  unfold py_sum. destruct compensated_sum; reflexivity.
Qed.

End Fleet.

Section FleetClaims.

Context {rt : PyRuntime}.

Import BatteryManager.

Open Scope float_scope.

(** No level is in two buckets, and a number is in one. *)
Lemma buckets_exclusive (x : float) :
  (Bucket.count (Bucket.healthy x) + Bucket.count (Bucket.warning x)
   + Bucket.count (Bucket.low x) + Bucket.count (Bucket.critical x)
   <= 1)%nat.
Proof.
  unfold Bucket.healthy, Bucket.warning, Bucket.low, Bucket.critical.
  pose proof (FloatFacts.leb_trans 30 60 x eq_refl) as Hab.
  pose proof (FloatFacts.leb_trans 15 30 x eq_refl) as Hbc.
  pose proof (FloatFacts.ltb_leb_false x 60) as Ha.
  pose proof (FloatFacts.ltb_leb_false x 30) as Hb.
  pose proof (FloatFacts.ltb_leb_false x 15) as Hc.
  destruct (60 <=? x), (30 <=? x), (15 <=? x), (x <? 60), (x <? 30),
    (x <? 15); cbn;
    try lia;
    try (specialize (Hab eq_refl); discriminate);
    try (specialize (Hbc eq_refl); discriminate);
    try (specialize (Ha eq_refl); discriminate);
    try (specialize (Hb eq_refl); discriminate);
    try (specialize (Hc eq_refl); discriminate).
Qed.

Lemma buckets_cover (x : float) :
  PyFloat.isnan x = false ->
  (Bucket.count (Bucket.healthy x) + Bucket.count (Bucket.warning x)
   + Bucket.count (Bucket.low x) + Bucket.count (Bucket.critical x)
   = 1)%nat.
Proof.
  intros Hx.
  unfold Bucket.healthy, Bucket.warning, Bucket.low, Bucket.critical.
  pose proof (FloatFacts.leb_trans 30 60 x eq_refl) as Hab.
  pose proof (FloatFacts.leb_trans 15 30 x eq_refl) as Hbc.
  rewrite (FloatFacts.ltb_negb_leb x 60 Hx eq_refl).
  rewrite (FloatFacts.ltb_negb_leb x 30 Hx eq_refl).
  rewrite (FloatFacts.ltb_negb_leb x 15 Hx eq_refl).
  destruct (60 <=? x), (30 <=? x), (15 <=? x); cbn;
    try reflexivity;
    try (specialize (Hab eq_refl); discriminate);
    try (specialize (Hbc eq_refl); discriminate).
Qed.

Lemma buckets_sum (l : list float) :
  Forall (fun x => PyFloat.isnan x = false) l ->
  (length (filter Bucket.healthy l) + length (filter Bucket.warning l)
   + length (filter Bucket.low l) + length (filter Bucket.critical l)
   = length l)%nat.
Proof.
  induction 1 as [|x l Hx _ IH]; [reflexivity|].
  pose proof (buckets_cover x Hx) as Hc. cbn [filter length].
  destruct (Bucket.healthy x), (Bucket.warning x), (Bucket.low x),
    (Bucket.critical x); cbn [length Bucket.count] in *; lia.
Qed.

(** C7. [fleet_status] counts its four buckets on the [current_pct]
    values alone (healthy: [>= 60], warning: [30 <= . < 60], low:
    [15 <= . < 30], critical: [< 15]), whatever [status] the rows store;
    no level is in two buckets; and on rows as the table holds them
    (REAL NOT NULL, so no NaN) the four counts add up to
    [total_devices]. *)
Theorem C7_fleet_buckets flt db fs db' :
  fleet_status flt db = (Returns fs, db') ->
  let levels := map IoTDevice.current_pct (iot_devices db) in
  total_devices fs = length (iot_devices db) /\
  healthy fs = length (filter Bucket.healthy levels) /\
  warning fs = length (filter Bucket.warning levels) /\
  low fs = length (filter Bucket.low levels) /\
  critical fs = length (filter Bucket.critical levels) /\
  (forall x : float,
     (Bucket.count (Bucket.healthy x) + Bucket.count (Bucket.warning x)
      + Bucket.count (Bucket.low x) + Bucket.count (Bucket.critical x)
      <= 1)%nat) /\
  (real_not_null (iot_devices db) ->
   (healthy fs + warning fs + low fs + critical fs = total_devices fs)%nat).
Proof.
  intros H levels. apply fleet_status_returns in H. cbv zeta in H.
  destruct H as (_ & Ht & _ & Hh & Hw & Hl & Hc & _).
  pose proof (order_by_pct_perm (iot_devices db)) as Hperm.
  rewrite <- (Permutation_length Hperm) in Ht.
  assert (Hbucket :
    forall (q : float -> bool) (n : nat),
      n = count_if (fun d => q (IoTDevice.current_pct d))
                   (Sql.order_by_pct (iot_devices db)) ->
      n = length (filter q levels)).
  { intros q n ->. rewrite <- (count_if_perm _ _ _ Hperm).
    apply count_if_values. }
  apply (Hbucket Bucket.healthy) in Hh.
  apply (Hbucket Bucket.warning) in Hw.
  apply (Hbucket Bucket.low) in Hl.
  apply (Hbucket Bucket.critical) in Hc.
  split; [exact Ht|]. split; [exact Hh|]. split; [exact Hw|].
  split; [exact Hl|]. split; [exact Hc|].
  split; [exact buckets_exclusive|].
  intros Hreal. rewrite Ht, Hh, Hw, Hl, Hc.
  rewrite <- (length_map IoTDevice.current_pct (iot_devices db)).
  apply buckets_sum. unfold levels, real_not_null in *.
  apply Forall_map. exact Hreal.
Qed.

(** C8. [fleet_status] never raises ZeroDivisionError and returns when the
    store answers.  For an empty fleet [avg_battery_pct] is exactly 0.0.
    For a fleet with devices it is the mean rounded to 1 decimal place:
    the mean is the [sum] of the levels, taken in ORDER BY order in
    binary64 arithmetic (left to right from 0.0, unless the interpreter
    compensates), divided by their number; the average is the float
    nearest to the decimal with one place nearest to that mean, ties to
    even, and no other float is. *)
Theorem C8_fleet_average flt db :
  fst (fleet_status flt db) <> Raises ZeroDivisionError /\
  (flt 0%nat = false -> flt 1%nat = false ->
   exists fs, fleet_status flt db = (Returns fs, db)) /\
  (forall fs db', fleet_status flt db = (Returns fs, db') ->
     (iot_devices db = [] -> avg_battery_pct fs = 0) /\
     (iot_devices db <> [] ->
      let levels :=
        map IoTDevice.current_pct (Sql.order_by_pct (iot_devices db)) in
      let mean :=
        py_sum levels / PyFloat.of_int (Z.of_nat (length (iot_devices db))) in
      avg_battery_pct fs = PyFloat.round mean 1 /\
      rounded_to 1 mean (avg_battery_pct fs) /\
      (forall avg, rounded_to 1 mean avg -> avg = avg_battery_pct fs) /\
      (compensated_sum = false ->
       py_sum levels = fold_left PrimFloat.add levels 0))).
Proof.
  split; [|split].
  - destruct (fleet_status flt db) as [[fs|e] db'] eqn:E; cbn.
    + discriminate.
    + apply fleet_status_raises in E. subst e. discriminate.
  - apply fleet_status_total.
  - intros fs db' H. apply fleet_status_returns in H. cbv zeta in H.
    destruct H as (_ & _ & Havg & _).
    pose proof (Permutation_length (order_by_pct_perm (iot_devices db)))
      as Hlen.
    rewrite <- Hlen in Havg. split.
    + intros Hempty. rewrite Hempty in Havg. exact Havg.
    + intros Hne levels mean.
      assert (Hround : avg_battery_pct fs = PyFloat.round mean 1).
      { destruct (iot_devices db) as [|d l] eqn:Ed; [contradiction|].
        exact Havg. }
      assert (Hrt : rounded_to 1 mean (avg_battery_pct fs)).
      { rewrite Hround. apply round_rounded_to. lia. }
      split; [exact Hround|]. split; [exact Hrt|]. split.
      * intros avg Havg'. exact (rounded_to_unique _ _ _ _ Havg' Hrt).
      * apply py_sum_plain.
Qed.

(** C9. An accepted reading of exactly 15.0 leaves the device with status
    "critical" (15.0 <= 15.0), while [fleet_status] counts the same row in
    its "low" bucket and not in its "critical" bucket (15.0 < 15 fails):
    label and bucket disagree at the boundary. *)
Theorem C9_boundary_disagreement clk flt dev v t rssi db r db' :
  record_reading clk flt dev 15 v t rssi db = (Returns r, db') ->
  forall d', In d' (iot_devices db') -> IoTDevice.id d' = dev ->
    IoTDevice.current_pct d' = 15 /\
    IoTDevice.status d' = "critical"%string /\
    IoTDevice.health_label d' = "low"%string /\
    forall flt' fs db'', fleet_status flt' db' = (Returns fs, db'') ->
      low fs =
        count_if (fun d => (15 <=? IoTDevice.current_pct d)
                           && (IoTDevice.current_pct d <? 30))
                 (iot_devices db') /\
      critical fs =
        count_if (fun d => IoTDevice.current_pct d <? 15) (iot_devices db') /\
      In d' (filter (fun d => (15 <=? IoTDevice.current_pct d)
                              && (IoTDevice.current_pct d <? 30))
                    (iot_devices db')) /\
      ~ In d' (filter (fun d => IoTDevice.current_pct d <? 15)
                      (iot_devices db')) /\
      (1 <= low fs)%nat.
Proof.
  intros H d' Hin Hid.
  apply record_reading_returns in H.
  destruct H as (_ & _ & _ & _ & Hdev & _).
  pose proof Hin as Hin'. rewrite Hdev in Hin'.
  destruct (update_rows_hit _ _ _ _ _ Hin' Hid) as (Hp & _ & Hs).
  change (sqlite_real 15) with 15 in Hp.
  split; [exact Hp|]. split; [exact Hs|].
  split; [unfold IoTDevice.health_label; rewrite Hp; reflexivity|].
  intros flt' fs db'' Hf. apply fleet_status_returns in Hf. cbv zeta in Hf.
  destruct Hf as (_ & _ & _ & _ & _ & Hl & Hc & _).
  pose proof (order_by_pct_perm (iot_devices db')) as Hperm.
  rewrite <- (count_if_perm _ _ _ Hperm) in Hl.
  rewrite <- (count_if_perm _ _ _ Hperm) in Hc.
  assert (Hlow : In d' (filter (fun d => (15 <=? IoTDevice.current_pct d)
                                   && (IoTDevice.current_pct d <? 30))
                               (iot_devices db'))).
  { apply filter_In. split; [exact Hin|]. rewrite Hp. reflexivity. }
  split; [exact Hl|]. split; [exact Hc|]. split; [exact Hlow|]. split.
  - intros Hcrit. apply filter_In in Hcrit. destruct Hcrit as [_ Hcrit].
    rewrite Hp in Hcrit. discriminate.
  - rewrite Hl. unfold count_if.
    destruct (filter _ (iot_devices db')) as [|x l]; [destruct Hlow|].
    cbn. lia.
Qed.

End FleetClaims.

(** The fleet at 80, 45, 15 and 10 percent: one device per bucket. *)
Lemma C7_witness :
  exists fs,
    BatteryManager.fleet_status (rt := BasicRuntime.basic) no_faults
      Scenario.fleet = (Returns fs, Scenario.fleet) /\
    total_devices fs = 4%nat /\
    (healthy fs + warning fs + low fs + critical fs = total_devices fs)%nat.
Proof.
  destruct (BatteryManager.fleet_status (rt := BasicRuntime.basic) no_faults
              Scenario.fleet) as [[fs|e] db'] eqn:E;
    [|vm_compute in E; discriminate].
  pose proof (C7_fleet_buckets (rt := BasicRuntime.basic) _ _ _ _ E)
    as (Ht & _ & _ & _ & _ & _ & Hsum).
  destruct (fleet_status_returns (rt := BasicRuntime.basic) _ _ _ _ E)
    as (Hdb & _).
  exists fs. split.
  - rewrite Hdb. reflexivity.
  - split; [rewrite Ht; vm_compute; reflexivity|].
    apply Hsum. unfold real_not_null. vm_compute.
    repeat (apply Forall_cons; [reflexivity|]). apply Forall_nil.
Defined.

(** The fleet at 80, 15 and 5 percent has mean 33.33..., reported as 33.3
    by either [sum]; the empty fleet has average 0.0.  On the levels
    -1e100, 1 and 1e100 the plain sum loses the 1 and the average is 0.0,
    the compensated sum keeps it and the average is 0.3. *)
Lemma C8_witness :
  (exists fs,
     BatteryManager.fleet_status (rt := BasicRuntime.basic) no_faults
       Scenario.trio = (Returns fs, Scenario.trio) /\
     avg_battery_pct fs = 33.3%float) /\
  (exists fs,
     BatteryManager.fleet_status (rt := BasicRuntime.compensated) no_faults
       Scenario.trio = (Returns fs, Scenario.trio) /\
     avg_battery_pct fs = 33.3%float) /\
  (exists fs,
     BatteryManager.fleet_status (rt := BasicRuntime.basic) no_faults
       BatteryManager._init_db = (Returns fs, BatteryManager._init_db) /\
     avg_battery_pct fs = 0%float) /\
  (exists fs,
     BatteryManager.fleet_status (rt := BasicRuntime.basic) no_faults
       Scenario.wild = (Returns fs, Scenario.wild) /\
     avg_battery_pct fs = 0%float) /\
  (exists fs,
     BatteryManager.fleet_status (rt := BasicRuntime.compensated) no_faults
       Scenario.wild = (Returns fs, Scenario.wild) /\
     avg_battery_pct fs = 0.3%float).
Proof.
  assert (H : forall (rt : PyRuntime) (db : DB) (avg : float),
            iot_devices db <> [] ->
            PyFloat.round
              (py_sum (map IoTDevice.current_pct
                         (Sql.order_by_pct (iot_devices db)))
               / PyFloat.of_int (Z.of_nat (length (iot_devices db)))) 1
            = avg ->
            exists fs,
              BatteryManager.fleet_status no_faults db = (Returns fs, db) /\
              avg_battery_pct fs = avg).
  { intros rt db avg Hne Hval.
    destruct (C8_fleet_average (rt := rt) no_faults db)
      as (_ & Hret & Havg).
    destruct (Hret eq_refl eq_refl) as [fs E].
    exists fs. split; [exact E|].
    destruct (Havg fs _ E) as [_ Hmean].
    destruct (Hmean Hne) as (Hround & _).
    rewrite Hround. exact Hval. }
  split; [|split; [|split; [|split]]].
  - apply H; [vm_compute; discriminate|vm_compute; reflexivity].
  - apply H; [vm_compute; discriminate|vm_compute; reflexivity].
  - destruct (C8_fleet_average (rt := BasicRuntime.basic) no_faults
                BatteryManager._init_db) as (_ & Hret & Havg).
    destruct (Hret eq_refl eq_refl) as [fs E].
    exists fs. split; [exact E|].
    destruct (Havg fs _ E) as [Hempty _]. apply Hempty. reflexivity.
  - apply H; [vm_compute; discriminate|vm_compute; reflexivity].
  - apply H; [vm_compute; discriminate|vm_compute; reflexivity].
Defined.

(** Device 3 of the fleet reported exactly 15.0: status "critical",
    bucket "low". *)
Lemma C9_witness :
  exists d',
    In d' (iot_devices Scenario.fleet) /\
    IoTDevice.id d' = 3%Z /\
    IoTDevice.status d' = "critical"%string /\
    IoTDevice.health_label d' = "low"%string.
Proof.
  set (before := Scenario.report 2 45 (Scenario.report 1 80
                   (Scenario.register "d" (Scenario.register "c"
                      (Scenario.register "b" (Scenario.register "a"
                         BatteryManager._init_db)))))).
  destruct (BatteryManager.record_reading (rt := BasicRuntime.basic)
              (Scenario.clock "2024-01-01T10:00:00") no_faults 3 15
              None None None before) as [[r|e] db'] eqn:E;
    [|vm_compute in E; discriminate].
  pose proof (C9_boundary_disagreement (rt := BasicRuntime.basic)
                _ _ _ _ _ _ _ _ _ E) as H.
  set (d' := IoTDevice.mk 3 "c" "sensor" "lab" "LiPo" 2000 15
               "2024-01-01T10:00:00" "critical" "1.0.0" ""
               (Some "2024-01-01 08:00:00"%string)).
  assert (Hin : In d' (iot_devices db')).
  { vm_compute in E. inversion E. vm_compute. auto. }
  destruct (H d' Hin eq_refl) as (_ & Hs & Hl & _).
  exists d'. split; [|split; [reflexivity|split; [exact Hs|exact Hl]]].
  vm_compute. auto.
Defined.

(** ** Registration *)

Section Registration.

Import BatteryManager.

Open Scope float_scope.

(** C10. A device that [add_device] returns is the row it appended to
    [iot_devices]; whatever the registration arguments, the row has
    [current_pct] exactly 100.0 and status "online", and no reading was
    ingested for it: the readings table is as it was, and the row's id is
    one no registered device had. *)
Theorem C10_new_device_defaults
    clk flt name device_type location battery_type capacity_mah firmware
    notes db od db' :
  add_device clk flt name device_type location battery_type capacity_mah
    firmware notes db = (Returns od, db') ->
  exists d,
    od = Some d /\
    iot_devices db' = iot_devices db ++ [d] /\
    IoTDevice.name d = name /\
    IoTDevice.current_pct d = 100 /\
    IoTDevice.status d = "online"%string /\
    battery_readings db' = battery_readings db /\
    (forall x, In x (iot_devices db) -> IoTDevice.id x <> IoTDevice.id d).
Proof.
  pose proof (add_device_run clk flt name device_type location battery_type
                capacity_mah firmware notes db) as Hrun.
  cbv zeta in Hrun. rewrite Hrun.
  destruct (flt 0%nat); [discriminate|].
  destruct (negb (is_int64 capacity_mah)); [discriminate|].
  destruct (negb (rowid_available _ _)); [discriminate|].
  destruct (existsb _ (iot_devices db)); [discriminate|].
  destruct (flt 1%nat); [discriminate|].
  destruct (flt 2%nat); [discriminate|].
  intros H; inversion H; subst od db'; clear H.
  eexists. split; [reflexivity|]. cbn.
  repeat split; try reflexivity.
  intros x Hx. apply next_rowid_fresh. apply in_map. exact Hx.
Qed.

(** Registration succeeds when the store answers and has room, the
    capacity fits SQLite and the name is new. *)
Lemma add_device_total
    clk flt name device_type location battery_type capacity_mah firmware
    notes db :
  (forall k, flt k = false) ->
  is_int64 capacity_mah = true -> devices_not_full db ->
  (forall x, In x (iot_devices db) -> IoTDevice.name x <> name) ->
  exists d db',
    add_device clk flt name device_type location battery_type capacity_mah
      firmware notes db = (Returns (Some d), db').
Proof.
  intros Hflt Hcap Hroom Hname.
  assert (Hex : existsb (fun d => String.eqb (IoTDevice.name d) name)
                  (iot_devices db) = false).
  { destruct (existsb _ (iot_devices db)) eqn:E; [|reflexivity].
    apply existsb_exists in E. destruct E as (x & Hx & Hn).
    apply String.eqb_eq in Hn. exfalso. exact (Hname x Hx Hn). }
  pose proof (add_device_run clk flt name device_type location battery_type
                capacity_mah firmware notes db) as Hrun.
  cbv zeta in Hrun. unfold devices_not_full in Hroom.
  rewrite Hrun, !Hflt, Hcap, Hroom, Hex. cbn [negb]. eauto.
Qed.

End Registration.

(** Registering "sensor-1" on the fresh database. *)
Lemma C10_witness :
  exists d,
    iot_devices Scenario.registered = [d] /\
    IoTDevice.current_pct d = 100%float /\
    IoTDevice.status d = "online"%string /\
    battery_readings Scenario.registered = [].
Proof.
  destruct (BatteryManager.add_device (Scenario.clock "2024-01-01T09:00:00")
              no_faults "sensor-1" "sensor" "lab" "LiPo" 2000 "1.0.0" ""
              BatteryManager._init_db) as [[od|e] db'] eqn:E;
    [|vm_compute in E; discriminate].
  destruct (C10_new_device_defaults _ _ _ _ _ _ _ _ _ _ _ _ E)
    as (d & _ & Hrows & _ & Hpct & Hstatus & Hreadings & _).
  assert (Hdb : db' = Scenario.registered).
  { unfold Scenario.registered. rewrite E. reflexivity. }
  rewrite <- Hdb. exists d.
  split; [exact Hrows|]. split; [exact Hpct|]. split; [exact Hstatus|].
  exact Hreadings.
Defined.

(** ** The REAL NOT NULL column *)

Section StoredLevels.

Context {rt : PyRuntime}.

Import BatteryManager.

(** Neither method stores a NaN level: the invariant the bucket sum of
    [fleet_status] rests on holds in every database the methods reach. *)
Lemma add_device_real_not_null
    clk flt name device_type location battery_type capacity_mah firmware
    notes db :
  real_not_null (iot_devices db) ->
  real_not_null
    (iot_devices
       (snd (add_device clk flt name device_type location battery_type
               capacity_mah firmware notes db))).
Proof.
  intros Hdb.
  pose proof (add_device_run clk flt name device_type location battery_type
                capacity_mah firmware notes db) as Hrun.
  cbv zeta in Hrun. rewrite Hrun.
  assert (Hnew : real_not_null
                   (iot_devices
                      (with_device
                         (device_row clk name device_type location
                            battery_type capacity_mah firmware notes db)
                         db))).
  { cbn. apply Forall_app. split; [exact Hdb|].
    apply Forall_cons; [reflexivity|apply Forall_nil]. }
  destruct (flt 0%nat); [exact Hdb|].
  destruct (negb (is_int64 capacity_mah)); [exact Hdb|].
  destruct (negb (rowid_available _ _)); [exact Hdb|].
  destruct (existsb _ (iot_devices db)); [exact Hdb|].
  destruct (flt 1%nat); [exact Hdb|].
  destruct (flt 2%nat); exact Hnew.
Qed.

Lemma record_reading_real_not_null clk flt dev pct v t rssi db :
  real_not_null (iot_devices db) ->
  real_not_null
    (iot_devices (snd (record_reading clk flt dev pct v t rssi db))).
Proof.
  intros Hdb.
  pose proof (record_reading_tables clk flt dev pct v t rssi db) as H.
  cbv zeta in H. destruct H as [[_ Hsame]|(drain & Hd & _ & Hp)].
  - rewrite Hsame. exact Hdb.
  - rewrite Hd. unfold update_rows, real_not_null in *.
    apply Forall_map. eapply Forall_impl; [|exact Hdb].
    intros d Hnan. cbn beta.
    destruct (IoTDevice.id d =? dev)%Z; [|exact Hnan].
    cbn. rewrite sqlite_real_isnan. exact Hp.
Qed.

End StoredLevels.

(** ** The scenario of the specification, run *)

(** Register "sensor-1"; ingest 80 (online, no drain rate), 50 an hour
    later (drain rate 30.0, online), 20 an hour later (drain rate 30.0,
    warning, a low_battery alert on 20.0), then 10 an hour later (drain
    rate 10.0, critical, a critical alert on 10.0). *)
Example scenario_runs :
  map (fun r => (BatteryReading.battery_pct r, BatteryReading.drain_rate r))
      (battery_readings Scenario.after_10)
    = [(80, None); (50, Some 30); (20, Some 30); (10, Some 10)]%float /\
  map (fun db => map IoTDevice.status (iot_devices db))
      [Scenario.registered; Scenario.after_80; Scenario.after_50;
       Scenario.after_20; Scenario.after_10]
    = [["online"]; ["online"]; ["online"]; ["warning"]; ["critical"]]%string
  /\
  map (fun a => (BatteryAlert.alert_type a, BatteryAlert.threshold a,
                 BatteryAlert.current_value a, BatteryAlert.message a))
      (battery_alerts Scenario.after_10)
    = [("low_battery"%string, 30%float, 20%float,
        "Battery low: 20.0%"%string);
       ("critical"%string, 15%float, 10%float,
        "CRITICAL: battery at 10.0%!"%string)].
Proof. vm_compute. repeat split; reflexivity. Qed.

(** A reading table whose AUTOINCREMENT counter stands at the largest
    rowid takes no more rows: the INSERT fails and nothing changes. *)
Example full_table_refuses :
  let db :=
    {| iot_devices := []; battery_readings := []; battery_alerts := [];
       seq_iot_devices := 0; seq_battery_readings := 2 ^ 63 - 1;
       seq_battery_alerts := 0 |} in
  BatteryManager.record_reading (rt := BasicRuntime.basic)
    (Scenario.clock "2024-01-01T10:00:00") no_faults 1 50 None None None db
  = (Raises OperationalError, db).
Proof. vm_compute. reflexivity. Qed.

(* ================================================================== *)
(** * Further properties of the module *)

(** ** Listing and looking up devices *)

Section Listing.

Import BatteryManager.

Open Scope float_scope.

Lemma insert_by_pct_Forall (P : IoTDevice.t -> Prop) d l :
  P d -> Forall P l -> Forall P (Sql.insert_by_pct d l).
Proof.
  intros Hd Hl.
  apply (Permutation_Forall (insert_by_pct_perm d l)).
  apply Forall_cons; assumption.
Qed.

Lemma leb_total (x y : float) :
  PyFloat.isnan x = false -> PyFloat.isnan y = false ->
  (x <=? y) = false -> (y <=? x) = true.
Proof.
  intros Hx Hy H. apply FloatFacts.ltb_leb.
  rewrite (FloatFacts.ltb_negb_leb y x Hy Hx), H. reflexivity.
Qed.

Lemma insert_by_pct_sorted d l :
  PyFloat.isnan (IoTDevice.current_pct d) = false ->
  real_not_null l ->
  StronglySorted
    (fun a b => (IoTDevice.current_pct a <=? IoTDevice.current_pct b) = true)
    l ->
  StronglySorted
    (fun a b => (IoTDevice.current_pct a <=? IoTDevice.current_pct b) = true)
    (Sql.insert_by_pct d l).
Proof.
  intros Hd Hl Hs. induction Hs as [|x l Hs IH Hx]; cbn.
  - apply SSorted_cons; [apply SSorted_nil|apply Forall_nil].
  - inversion Hl as [|? ? Hxn Hln]; subst.
    destruct (IoTDevice.current_pct d <=? IoTDevice.current_pct x) eqn:E.
    + apply SSorted_cons.
      * apply SSorted_cons; assumption.
      * apply Forall_cons; [exact E|].
        eapply Forall_impl; [|exact Hx]. cbn. intros y Hy.
        exact (FloatFacts.leb_trans _ _ _ E Hy).
    + apply SSorted_cons; [apply IH; exact Hln|].
      apply insert_by_pct_Forall; [|exact Hx].
      apply leb_total; assumption.
Qed.

Lemma order_by_pct_sorted l :
  real_not_null l ->
  StronglySorted
    (fun a b => (IoTDevice.current_pct a <=? IoTDevice.current_pct b) = true)
    (Sql.order_by_pct l).
Proof.
  induction 1 as [|x l Hx Hl IH]; cbn; [apply SSorted_nil|].
  apply insert_by_pct_sorted; [exact Hx| |exact IH].
  apply (Permutation_Forall (order_by_pct_perm l)). exact Hl.
Qed.

(** X1. [list_devices] returns the devices lowest battery first: on the
    rows the table can hold (no NaN level), every device of the list has
    a level at most that of every device after it, with or without a
    status filter. *)
Theorem X1_list_devices_sorted flt status db devices db' :
  real_not_null (iot_devices db) ->
  list_devices flt status db = (Returns devices, db') ->
  StronglySorted
    (fun a b => (IoTDevice.current_pct a <=? IoTDevice.current_pct b) = true)
    devices.
Proof.
  intros Hreal. rewrite list_devices_run.
  destruct (flt 0%nat); [discriminate|].
  intros H; inversion H; subst devices db'; clear H.
  apply order_by_pct_sorted.
  destruct status as [[|c s]|]; try exact Hreal.
  unfold real_not_null in *. apply Forall_forall. intros d Hd.
  apply filter_In in Hd. destruct Hd as [Hd _].
  revert d Hd. apply Forall_forall. exact Hreal.
Qed.

(** X2. What [list_devices] returns is a rearrangement of the rows it
    selects: with no status, or with the empty string ([if status:] is
    false for it), all the devices; with a non-empty status exactly the
    devices whose stored status is that text, so none for a text no
    device carries. *)
Theorem X2_list_devices_selection flt status db devices db' :
  list_devices flt status db = (Returns devices, db') ->
  (status = None \/ status = Some EmptyString ->
   Permutation (iot_devices db) devices) /\
  (forall s, status = Some s -> s <> EmptyString ->
     Permutation
       (filter (fun d => String.eqb (IoTDevice.status d) s) (iot_devices db))
       devices /\
     (forall d, In d devices <->
                In d (iot_devices db) /\ IoTDevice.status d = s)).
Proof.
  rewrite list_devices_run.
  destruct (flt 0%nat); [discriminate|].
  intros H; inversion H; subst devices db'; clear H. split.
  - intros [->| ->]; apply order_by_pct_perm.
  - intros s -> Hs. destruct s as [|c s]; [contradiction|].
    split; [apply order_by_pct_perm|].
    intros d. split.
    + intros Hd.
      apply (Permutation_in _ (Permutation_sym (order_by_pct_perm _))) in Hd.
      apply filter_In in Hd. destruct Hd as [Hd He].
      apply String.eqb_eq in He. auto.
    + intros [Hd He].
      apply (Permutation_in _ (order_by_pct_perm _)).
      apply filter_In. split; [exact Hd|]. apply String.eqb_eq. exact He.
Qed.

(** X3. [_get_device] is a lookup by primary key: the row it returns is a
    row of the table with the asked id, and it returns [None] exactly when
    no row has that id; either way the database is as before. *)
Theorem X3_get_device_lookup flt device_id db od db' :
  _get_device flt device_id db = (Returns od, db') ->
  db' = db /\
  match od with
  | Some d => In d (iot_devices db) /\ IoTDevice.id d = device_id
  | None => forall d, In d (iot_devices db) -> IoTDevice.id d <> device_id
  end.
Proof.
  rewrite _get_device_run.
  destruct (flt 0%nat); [discriminate|].
  destruct (negb (is_int64 device_id)); [discriminate|].
  intros H; inversion H; subst od db'; clear H. split; [reflexivity|].
  destruct (find _ (iot_devices db)) as [d|] eqn:E.
  - apply find_some in E. destruct E as [Hin Hid].
    apply Z.eqb_eq in Hid. auto.
  - intros d Hd Hid. apply (find_none _ _ E) in Hd.
    apply Z.eqb_neq in Hd. contradiction.
Qed.

(** X4. Insert then look up: the device [add_device] returns is the one a
    later [_get_device] on its id finds, from any connection whose SELECT
    succeeds. *)
Theorem X4_get_device_after_add
    clk flt name device_type location battery_type capacity_mah firmware
    notes db d db' flt' :
  add_device clk flt name device_type location battery_type capacity_mah
    firmware notes db = (Returns (Some d), db') ->
  flt' 0%nat = false ->
  _get_device flt' (IoTDevice.id d) db' = (Returns (Some d), db').
Proof.
  pose proof (add_device_run clk flt name device_type location battery_type
                capacity_mah firmware notes db) as Hrun.
  cbv zeta in Hrun. rewrite Hrun.
  destruct (flt 0%nat); [discriminate|].
  destruct (negb (is_int64 capacity_mah)); [discriminate|].
  destruct (rowid_available _ _) eqn:Hroom; [|discriminate]. cbn [negb].
  destruct (existsb _ (iot_devices db)); [discriminate|].
  destruct (flt 1%nat); [discriminate|].
  destruct (flt 2%nat); [discriminate|].
  intros H Hflt; inversion H; subst d db'; clear H.
  rewrite _get_device_run, Hflt. cbn [IoTDevice.id device_row].
  rewrite (rowid_available_int64 _ _ Hroom). cbn [negb].
  unfold with_device. cbn [iot_devices].
  erewrite find_new_row; [reflexivity| |reflexivity].
  intros x Hx. apply next_rowid_fresh. apply in_map. exact Hx.
Qed.

End Listing.

(** The scenario's devices, lowest level first. *)
Lemma X1_witness :
  exists devices,
    BatteryManager.list_devices no_faults None Scenario.fleet
      = (Returns devices, Scenario.fleet) /\
    map IoTDevice.current_pct devices = [10; 15; 45; 80]%float /\
    StronglySorted
      (fun a b =>
         (IoTDevice.current_pct a <=? IoTDevice.current_pct b)%float = true)
      devices.
Proof.
  destruct (BatteryManager.list_devices no_faults None Scenario.fleet)
    as [[devices|e] db'] eqn:E; [|vm_compute in E; discriminate].
  assert (Hreal : real_not_null (iot_devices Scenario.fleet)).
  { unfold real_not_null. vm_compute.
    repeat (apply Forall_cons; [reflexivity|]). apply Forall_nil. }
  pose proof (X1_list_devices_sorted _ _ _ _ _ Hreal E) as Hs.
  exists devices. vm_compute in E. inversion E; subst devices db'.
  split; [reflexivity|]. split; [vm_compute; reflexivity|exact Hs].
Defined.

(** Filtering the fleet on "critical" gives the devices at 15 and 10
    percent. *)
Lemma X2_witness :
  exists devices,
    BatteryManager.list_devices no_faults (Some "critical"%string)
      Scenario.fleet = (Returns devices, Scenario.fleet) /\
    (forall d, In d devices <->
               In d (iot_devices Scenario.fleet) /\
               IoTDevice.status d = "critical"%string) /\
    map IoTDevice.id devices = [4; 3]%Z.
Proof.
  destruct (BatteryManager.list_devices no_faults (Some "critical"%string)
              Scenario.fleet) as [[devices|e] db'] eqn:E;
    [|vm_compute in E; discriminate].
  destruct (X2_list_devices_selection _ _ _ _ _ E) as [_ H].
  destruct (H "critical"%string eq_refl) as [_ Hin]; [discriminate|].
  exists devices. vm_compute in E. inversion E; subst devices db'.
  split; [reflexivity|]. split; [exact Hin|reflexivity].
Defined.

(** Looking up id 9 in the scenario's database finds nothing; id 1 finds
    "sensor-1". *)
Lemma X3_witness :
  (forall d, In d (iot_devices Scenario.registered) -> IoTDevice.id d <> 9%Z)
  /\ exists d,
       BatteryManager._get_device no_faults 1 Scenario.registered
         = (Returns (Some d), Scenario.registered) /\
       In d (iot_devices Scenario.registered) /\ IoTDevice.id d = 1%Z.
Proof.
  split.
  - destruct (BatteryManager._get_device no_faults 9 Scenario.registered)
      as [[od|e] db'] eqn:E; [|vm_compute in E; discriminate].
    destruct (X3_get_device_lookup _ _ _ _ _ E) as [_ H].
    vm_compute in E. inversion E; subst od db'. exact H.
  - destruct (BatteryManager._get_device no_faults 1 Scenario.registered)
      as [[od|e] db'] eqn:E; [|vm_compute in E; discriminate].
    destruct (X3_get_device_lookup _ _ _ _ _ E) as [Hdb H].
    destruct od as [d|]; [|vm_compute in E; discriminate].
    exists d. subst db'. split; [reflexivity|exact H].
Defined.

(** Registering "sensor-1" and reading it back. *)
Lemma X4_witness :
  exists d,
    BatteryManager._get_device no_faults (IoTDevice.id d) Scenario.registered
      = (Returns (Some d), Scenario.registered) /\
    IoTDevice.name d = "sensor-1"%string.
Proof.
  destruct (BatteryManager.add_device (Scenario.clock "2024-01-01T09:00:00")
              no_faults "sensor-1" "sensor" "lab" "LiPo" 2000 "1.0.0" ""
              BatteryManager._init_db) as [[[d|]|e] db'] eqn:E;
    try (vm_compute in E; discriminate).
  assert (Hdb : db' = Scenario.registered).
  { unfold Scenario.registered. rewrite E. reflexivity. }
  exists d. rewrite <- Hdb. split.
  - apply (X4_get_device_after_add _ _ _ _ _ _ _ _ _ _ _ _ _ E eq_refl).
  - vm_compute in E. inversion E. reflexivity.
Defined.

(** ** Health label and days remaining *)

Section DeviceMethods.

Open Scope float_scope.

Lemma SFeqb_SFleb (x y : spec_float) : SFeqb x y = true -> SFleb x y = true.
Proof.
  unfold SFeqb, SFleb. destruct (SFcompare x y) as [[]|]; congruence.
Qed.

Lemma leb_false_nonzero (y : float) : (y <=? 0) = false -> (y =? 0) = false.
Proof.
  rewrite leb_spec, FloatAxioms.eqb_spec. intros H.
  destruct (SFeqb (Prim2SF y) (Prim2SF 0)) eqn:E; [|reflexivity].
  apply SFeqb_SFleb in E. congruence.
Qed.

(** X5. [health_label] and the buckets of [fleet_status] draw the same
    lines: a device is labelled "healthy", "warning" or "low" exactly when
    its level is in the bucket of that name, and "critical" exactly when
    it is in none of the three; for a level that is a number, that is the
    critical bucket.  (A NaN level is labelled "critical" and counted in
    no bucket.) *)
Theorem X5_health_label_matches_buckets (d : IoTDevice.t) :
  let x := IoTDevice.current_pct d in
  (IoTDevice.health_label d = "healthy"%string <-> Bucket.healthy x = true) /\
  (IoTDevice.health_label d = "warning"%string <-> Bucket.warning x = true) /\
  (IoTDevice.health_label d = "low"%string <-> Bucket.low x = true) /\
  (IoTDevice.health_label d = "critical"%string <->
     Bucket.healthy x = false /\ Bucket.warning x = false /\
     Bucket.low x = false) /\
  (PyFloat.isnan x = false ->
   (IoTDevice.health_label d = "critical"%string <->
    Bucket.critical x = true)) /\
  (PyFloat.isnan x = true ->
   IoTDevice.health_label d = "critical"%string /\ Bucket.critical x = false).
Proof.
  intros x.
  unfold IoTDevice.health_label, PyFloat.geb, Bucket.healthy, Bucket.warning,
    Bucket.low, Bucket.critical. fold x.
  pose proof (FloatFacts.leb_trans 30 60 x eq_refl) as Hab.
  pose proof (FloatFacts.leb_trans 15 30 x eq_refl) as Hbc.
  pose proof (FloatFacts.ltb_leb_false x 60) as Ha.
  pose proof (FloatFacts.ltb_leb_false x 30) as Hb.
  pose proof (FloatFacts.ltb_leb_false x 15) as Hc.
  pose proof (fun H => FloatFacts.ltb_negb_leb x 60 H eq_refl) as Na.
  pose proof (fun H => FloatFacts.ltb_negb_leb x 30 H eq_refl) as Nb.
  pose proof (fun H => FloatFacts.ltb_negb_leb x 15 H eq_refl) as Nc.
  pose proof (fun c => FloatFacts.leb_isnan c x) as Hn.
  pose proof (fun c => FloatFacts.ltb_isnan x c) as Hm.
  assert (Hnan : PyFloat.isnan x = true \/ PyFloat.isnan x = false)
    by (destruct (PyFloat.isnan x); auto).
  destruct Hnan as [Hx|Hx].
  - assert (E60 : (60 <=? x) = false).
    { destruct (60 <=? x) eqn:E; [|reflexivity].
      destruct (Hn 60 E) as [_ H]. congruence. }
    assert (E30 : (30 <=? x) = false).
    { destruct (30 <=? x) eqn:E; [|reflexivity].
      destruct (Hn 30 E) as [_ H]. congruence. }
    assert (E15 : (15 <=? x) = false).
    { destruct (15 <=? x) eqn:E; [|reflexivity].
      destruct (Hn 15 E) as [_ H]. congruence. }
    assert (L15 : (x <? 15) = false).
    { destruct (x <? 15) eqn:E; [|reflexivity].
      destruct (Hm 15 E) as [H _]. congruence. }
    rewrite E60, E30, E15, L15. cbn.
    repeat split; try discriminate; try congruence; auto.
  - rewrite (Na Hx), (Nb Hx), (Nc Hx).
    destruct (60 <=? x), (30 <=? x), (15 <=? x); cbn;
      try (specialize (Hab eq_refl); discriminate);
      try (specialize (Hbc eq_refl); discriminate);
      repeat split; try discriminate; try congruence; auto;
      try (intros (? & ? & ?); discriminate).
Qed.

(** X6. [days_remaining] never raises: its guard returns [None] exactly
    when the daily drain is at most zero, which covers both zeros, so the
    division that follows never has a zero divisor; for any other rate
    (a NaN included) the result is the quotient rounded to 1 decimal. *)
Theorem X6_days_remaining_guard (d : IoTDevice.t) (daily_drain_pct : float) :
  (IoTDevice.days_remaining d daily_drain_pct = Returns None <->
   (daily_drain_pct <=? 0) = true) /\
  ((daily_drain_pct <=? 0) = false ->
   IoTDevice.days_remaining d daily_drain_pct =
     Returns (Some (PyFloat.round
                      (IoTDevice.current_pct d / daily_drain_pct) 1))) /\
  (forall e, IoTDevice.days_remaining d daily_drain_pct <> Raises e).
Proof.
  unfold IoTDevice.days_remaining, PyFloat.truediv.
  destruct (daily_drain_pct <=? 0) eqn:E.
  - split; [split; reflexivity|]. split; [discriminate|].
    intros e. discriminate.
  - rewrite (leb_false_nonzero _ E).
    split; [split; discriminate|]. split; [reflexivity|].
    intros e. discriminate.
Qed.

End DeviceMethods.

(** A full battery at the default rate of 2.0 percent a day lasts 50.0
    days. *)
Lemma X6_witness :
  IoTDevice.days_remaining
    (IoTDevice.mk 1 "sensor-1" "sensor" "lab" "LiPo" 2000 100
       "2024-01-01T09:00:00" "online" "1.0.0" "" None) 2
  = Returns (Some 50%float).
Proof.
  destruct (X6_days_remaining_guard
              (IoTDevice.mk 1 "sensor-1" "sensor" "lab" "LiPo" 2000 100
                 "2024-01-01T09:00:00" "online" "1.0.0" "" None) 2)
    as (_ & H & _).
  rewrite (H eq_refl). vm_compute. reflexivity.
Defined.

(** ** Keys of the device table *)

Section Keys.

Context {rt : PyRuntime}.

Import BatteryManager.

Open Scope float_scope.

Lemma add_device_duplicate
    clk flt name device_type location battery_type capacity_mah firmware
    notes db x :
  In x (iot_devices db) -> IoTDevice.name x = name ->
  let res := add_device clk flt name device_type location battery_type
               capacity_mah firmware notes db in
  (exists e, res = (Raises e, db)) /\
  (flt 0%nat = false -> is_int64 capacity_mah = true ->
   devices_not_full db -> res = (Raises IntegrityError, db)) /\
  (flt 0%nat = false -> is_int64 capacity_mah = false ->
   res = (Raises OverflowError, db)).
Proof.
  intros Hin Hname res.
  assert (Hex : existsb (fun d => String.eqb (IoTDevice.name d) name)
                  (iot_devices db) = true).
  { apply existsb_exists. exists x. split; [exact Hin|].
    apply String.eqb_eq. exact Hname. }
  pose proof (add_device_run clk flt name device_type location battery_type
                capacity_mah firmware notes db) as Hrun.
  cbv zeta in Hrun. unfold res. rewrite Hrun, Hex.
  split; [|split].
  - destruct (flt 0%nat); [eauto|].
    destruct (negb (is_int64 capacity_mah)); [eauto|].
    destruct (negb (rowid_available _ _)); eauto.
  - intros -> -> Hroom. unfold devices_not_full in Hroom.
    rewrite Hroom. reflexivity.
  - intros -> ->. reflexivity.
Qed.

(** X7. Registering a name a device already carries always raises and
    leaves the database as it was.  When the store answers and has room
    and the capacity fits SQLite, the error is IntegrityError (the UNIQUE
    column); a capacity outside the 64-bit range is refused with
    OverflowError when it is bound, before the name is looked at. *)
Theorem X7_duplicate_name_rejected
    clk flt name device_type location battery_type capacity_mah firmware
    notes db x :
  In x (iot_devices db) -> IoTDevice.name x = name ->
  let res := add_device clk flt name device_type location battery_type
               capacity_mah firmware notes db in
  (exists e, res = (Raises e, db)) /\
  (flt 0%nat = false -> is_int64 capacity_mah = true ->
   devices_not_full db -> res = (Raises IntegrityError, db)) /\
  (flt 0%nat = false -> is_int64 capacity_mah = false ->
   res = (Raises OverflowError, db)).
Proof. exact (add_device_duplicate clk flt name device_type location
                battery_type capacity_mah firmware notes db x). Qed.

Lemma update_rows_ids pct ts dev rows :
  map IoTDevice.id (update_rows pct ts dev rows) = map IoTDevice.id rows.
Proof.
  unfold update_rows. rewrite map_map. apply map_ext.
  intros d. destruct (IoTDevice.id d =? dev)%Z; reflexivity.
Qed.

Lemma update_rows_names pct ts dev rows :
  map IoTDevice.name (update_rows pct ts dev rows) = map IoTDevice.name rows.
Proof.
  unfold update_rows. rewrite map_map. apply map_ext.
  intros d. destruct (IoTDevice.id d =? dev)%Z; reflexivity.
Qed.

Lemma NoDup_snoc {A : Type} (l : list A) (x : A) :
  NoDup l -> ~ In x l -> NoDup (l ++ [x]).
Proof.
  intros Hl Hx. apply NoDup_app.
  - exact Hl.
  - apply NoDup_cons; [intros []|apply NoDup_nil].
  - intros y Hy [<-|[]]. exact (Hx Hy).
Qed.

(** X8. The keys stay keys: if no two device rows share an id and no two
    share a name, the same holds in the database [add_device] leaves and
    in the one [record_reading] leaves, whatever their outcome. *)
Theorem X8_device_keys_stay_unique db :
  NoDup (map IoTDevice.id (iot_devices db)) ->
  NoDup (map IoTDevice.name (iot_devices db)) ->
  (forall clk flt name device_type location battery_type capacity_mah
          firmware notes,
     let db' := snd (add_device clk flt name device_type location
                       battery_type capacity_mah firmware notes db) in
     NoDup (map IoTDevice.id (iot_devices db')) /\
     NoDup (map IoTDevice.name (iot_devices db'))) /\
  (forall clk flt dev pct v t rssi,
     let db' := snd (record_reading clk flt dev pct v t rssi db) in
     NoDup (map IoTDevice.id (iot_devices db')) /\
     NoDup (map IoTDevice.name (iot_devices db'))).
Proof.
  intros Hid Hname. split.
  - intros clk flt name device_type location battery_type capacity_mah
      firmware notes.
    pose proof (add_device_run clk flt name device_type location
                  battery_type capacity_mah firmware notes db) as Hrun.
    cbv zeta in Hrun. rewrite Hrun.
    destruct (flt 0%nat); [cbn; auto|].
    destruct (negb (is_int64 capacity_mah)); [cbn; auto|].
    destruct (negb (rowid_available _ _)); [cbn; auto|].
    destruct (existsb _ (iot_devices db)) eqn:Hex; [cbn; auto|].
    destruct (flt 1%nat); [cbn; auto|].
    assert (Hnew :
      let db' := with_device
                   (device_row clk name device_type location battery_type
                      capacity_mah firmware notes db) db in
      NoDup (map IoTDevice.id (iot_devices db')) /\
      NoDup (map IoTDevice.name (iot_devices db'))).
    { cbn. rewrite !map_app. cbn [map IoTDevice.id IoTDevice.name]. split.
      - apply NoDup_snoc; [exact Hid|].
        intros H. exact (next_rowid_fresh _ _ _ H eq_refl).
      - apply NoDup_snoc; [exact Hname|].
        intros H. apply in_map_iff in H. destruct H as (y & Hy & Hin).
        assert (Hc : existsb (fun d => String.eqb (IoTDevice.name d) name)
                       (iot_devices db) = true).
        { apply existsb_exists. exists y. split; [exact Hin|].
          apply String.eqb_eq. exact Hy. }
        congruence. }
    destruct (flt 2%nat); exact Hnew.
  - intros clk flt dev pct v t rssi.
    pose proof (record_reading_tables clk flt dev pct v t rssi db) as H.
    cbv zeta in *. destruct H as [[_ Hsame]|(drain & Hd & _)].
    + rewrite Hsame. auto.
    + rewrite Hd, update_rows_ids, update_rows_names. auto.
Qed.

End Keys.

(** Registering "sensor-1" a second time; and a second time with a
    capacity of 2^63. *)
Lemma X7_witness :
  BatteryManager.add_device (Scenario.clock "2024-01-02T09:00:00") no_faults
    "sensor-1" "gateway" "roof" "AA" 1200 "2.0.0" "" Scenario.registered
  = (Raises IntegrityError, Scenario.registered) /\
  BatteryManager.add_device (Scenario.clock "2024-01-02T09:00:00") no_faults
    "sensor-1" "gateway" "roof" "AA" (2 ^ 63) "2.0.0" "" Scenario.registered
  = (Raises OverflowError, Scenario.registered).
Proof.
  split.
  - refine (proj1 (proj2
      (X7_duplicate_name_rejected _ _ _ _ _ _ _ _ _ _
         (IoTDevice.mk 1 "sensor-1" "sensor" "lab" "LiPo" 2000 100
            "2024-01-01T09:00:00" "online" "1.0.0" ""
            (Some "2024-01-01 08:00:00"%string)) _ _)) _ _ _).
    + vm_compute. left. reflexivity.
    + reflexivity.
    + reflexivity.
    + reflexivity.
    + reflexivity.
  - refine (proj2 (proj2
      (X7_duplicate_name_rejected _ _ _ _ _ _ _ _ _ _
         (IoTDevice.mk 1 "sensor-1" "sensor" "lab" "LiPo" 2000 100
            "2024-01-01T09:00:00" "online" "1.0.0" ""
            (Some "2024-01-01 08:00:00"%string)) _ _)) _ _).
    + vm_compute. left. reflexivity.
    + reflexivity.
    + reflexivity.
    + reflexivity.
Defined.

(** The fleet of the scenario has four ids and four names, and keeps them
    apart through one more ingestion. *)
Lemma X8_witness :
  NoDup (map IoTDevice.id
           (iot_devices (Scenario.report 2 5 Scenario.fleet))) /\
  NoDup (map IoTDevice.name
           (iot_devices (Scenario.report 2 5 Scenario.fleet))).
Proof.
  assert (Hid : NoDup (map IoTDevice.id (iot_devices Scenario.fleet))).
  { vm_compute. repeat (apply NoDup_cons; [cbn; intuition discriminate|]).
    apply NoDup_nil. }
  assert (Hname : NoDup (map IoTDevice.name (iot_devices Scenario.fleet))).
  { vm_compute. repeat (apply NoDup_cons; [cbn; intuition discriminate|]).
    apply NoDup_nil. }
  destruct (X8_device_keys_stay_unique (rt := BasicRuntime.basic)
              Scenario.fleet Hid Hname) as [_ H].
  exact (H (Scenario.clock "2024-01-01T10:00:00") no_faults 2%Z 5%float
           None None None).
Defined.

(** ** What an ingestion accepts, writes and leaves alone *)

Section IngestionEffects.

Context {rt : PyRuntime}.

Import BatteryManager.

Open Scope float_scope.

(** X9. There is no range check on the level.  A NaN level makes every
    call raise and leaves the database untouched, alerts included; so
    does, once the store answers, an id or a signal strength outside the
    64-bit range (OverflowError).  With the store answering and having
    room and no earlier reading of the device, these are the only
    arguments refused: the call returns exactly when the level is a
    number (negative, above 100 or infinite alike) and the ints fit
    SQLite. *)
Theorem X9_accepts_every_number clk flt dev pct v t rssi db :
  let call := record_reading clk flt dev pct v t rssi db in
  (PyFloat.isnan pct = true -> exists e, call = (Raises e, db)) /\
  (flt 0%nat = false -> is_int64 dev = false ->
   call = (Raises OverflowError, db)) /\
  (~ bindable dev rssi -> exists e, call = (Raises e, db)) /\
  ((forall k, flt k = false) ->
   readings_not_full db -> alerts_not_full db ->
   (forall p, In p (battery_readings db) ->
              BatteryReading.device_id p <> dev) ->
   ((exists r db', call = (Returns r, db')) <->
    PyFloat.isnan pct = false /\ bindable dev rssi)).
Proof.
  intros call. unfold call.
  pose proof (record_reading_outcomes clk flt dev pct v t rssi db) as Hout.
  cbv zeta in Hout.
  split; [|split; [|split]].
  - intros Hnan.
    destruct (record_reading clk flt dev pct v t rssi db) as [o db'].
    cbn [fst snd] in Hout.
    destruct Hout as [[[e ->] ->]|(drain & Hn & _)]; [eauto|congruence].
  - intros H0 Hd. rewrite record_reading_run, H0, Hd. reflexivity.
  - intros Hbind.
    destruct (record_reading clk flt dev pct v t rssi db) as [[r|e] db']
      eqn:E.
    + apply record_reading_returns in E.
      destruct E as (_ & _ & _ & _ & _ & _ & _ & Hb & _). contradiction.
    + cbn [fst snd] in Hout.
      destruct Hout as [[_ ->]|(drain & Hn & Hd & Hr & Ha)]; [eauto|].
      exfalso. revert E. rewrite record_reading_run.
      destruct (flt 0%nat); [intros E; inversion E; subst db';
                             apply (f_equal (@length _)) in Hr;
                             rewrite length_app in Hr; cbn in Hr; lia|].
      destruct (is_int64 dev) eqn:Hdev; cbn [negb];
        [|intros E; inversion E; subst db';
          apply (f_equal (@length _)) in Hr;
          rewrite length_app in Hr; cbn in Hr; lia].
      destruct (drain_rate_of _ _ pct) as [drain'|e'];
        [|intros E; inversion E; subst db';
          apply (f_equal (@length _)) in Hr;
          rewrite length_app in Hr; cbn in Hr; lia].
      destruct (flt 1%nat);
        [intros E; inversion E; subst db';
         apply (f_equal (@length _)) in Hr;
         rewrite length_app in Hr; cbn in Hr; lia|].
      destruct (forallb is_int64 (opt_int rssi)) eqn:Hrssi; cbn [negb];
        [|intros E; inversion E; subst db';
          apply (f_equal (@length _)) in Hr;
          rewrite length_app in Hr; cbn in Hr; lia].
      exfalso. apply Hbind. apply opt_int_bindable. cbn [forallb].
      rewrite Hdev, Hrssi. reflexivity.
  - intros Hflt Hroom Haroom Hfirst. split.
    + intros (r & db' & H). apply record_reading_returns in H.
      destruct H as (_ & _ & Hn & _ & _ & _ & _ & Hb & _). auto.
    + intros [Hn Hb]. apply latest_reading_None in Hfirst.
      apply (record_reading_total clk flt dev pct v t rssi db None
               Hflt Hn Hb Hroom Haroom).
      unfold prev_of. rewrite Hfirst. reflexivity.
Qed.

Lemma update_rows_frame pct ts dev rows :
  Forall2 (fun d d' => identity_of d' = identity_of d /\
                       (IoTDevice.id d <> dev -> d' = d))
          rows (update_rows pct ts dev rows).
Proof.
  unfold update_rows. induction rows as [|x rows IH]; cbn.
  - apply Forall2_nil.
  - apply Forall2_cons; [|exact IH].
    destruct (IoTDevice.id x =? dev)%Z eqn:E.
    + split; [reflexivity|]. apply Z.eqb_eq in E. contradiction.
    + auto.
Qed.

Lemma Forall2_same {A : Type} (R : A -> A -> Prop) (l : list A) :
  (forall x, R x x) -> Forall2 R l l.
Proof.
  intros H. induction l; [apply Forall2_nil|apply Forall2_cons; auto].
Qed.

(** X10. An ingestion writes three fields of one device and nothing else
    of the device table: whatever the outcome, the table keeps its rows in
    place, each with its id, name, type, location, battery type, capacity,
    firmware, notes and creation time, and every row of another device
    is exactly as it was. *)
Theorem X10_ingest_frame clk flt dev pct v t rssi db :
  Forall2 (fun d d' => identity_of d' = identity_of d /\
                       (IoTDevice.id d <> dev -> d' = d))
          (iot_devices db)
          (iot_devices (snd (record_reading clk flt dev pct v t rssi db))).
Proof.
  pose proof (record_reading_outcomes clk flt dev pct v t rssi db) as H.
  cbv zeta in H. destruct H as [[_ ->]|(drain & _ & -> & _)].
  - apply Forall2_same. auto.
  - apply update_rows_frame.
Qed.

(** X11. Status and alert go together: a call that returns has appended
    no alert when it left the device "online", one "low_battery" alert
    when it left it "warning", and one "critical" alert when it left it
    "critical"; the alert carries the level as the REAL column stores it,
    which is the level the device row holds. *)
Theorem X11_alert_follows_status clk flt dev pct v t rssi db r db' :
  record_reading clk flt dev pct v t rssi db = (Returns r, db') ->
  (new_status_of pct = "online"%string ->
   battery_alerts db' = battery_alerts db) /\
  (new_status_of pct = "warning"%string ->
   exists a, battery_alerts db' = battery_alerts db ++ [a] /\
             BatteryAlert.alert_type a = "low_battery"%string /\
             BatteryAlert.device_id a = dev /\
             BatteryAlert.current_value a = sqlite_real pct /\
             (BatteryAlert.current_value a =? pct) = true /\
             forall d', In d' (iot_devices db') -> IoTDevice.id d' = dev ->
               IoTDevice.current_pct d' = BatteryAlert.current_value a) /\
  (new_status_of pct = "critical"%string ->
   exists a, battery_alerts db' = battery_alerts db ++ [a] /\
             BatteryAlert.alert_type a = "critical"%string /\
             BatteryAlert.device_id a = dev /\
             BatteryAlert.current_value a = sqlite_real pct /\
             (BatteryAlert.current_value a =? pct) = true /\
             forall d', In d' (iot_devices db') -> IoTDevice.id d' = dev ->
               IoTDevice.current_pct d' = BatteryAlert.current_value a).
Proof.
  intros H. apply record_reading_returns in H.
  destruct H as (_ & _ & Hnan & _ & Hdev & _ & Ha & _).
  assert (Hrow : forall d', In d' (iot_devices db') -> IoTDevice.id d' = dev ->
                   IoTDevice.current_pct d' = sqlite_real pct).
  { intros d' Hin Hid. rewrite Hdev in Hin.
    apply (update_rows_hit _ _ _ _ _ Hin Hid). }
  pose proof (sqlite_real_eqb pct Hnan) as Heq.
  rewrite Ha. unfold new_status_of, new_alerts.
  destruct (pct <=? CRITICAL_PCT); [|destruct (pct <=? LOW_PCT)].
  - split; [discriminate|]. split; [discriminate|].
    intros _. eexists. split; [reflexivity|]. cbn. auto.
  - split; [discriminate|]. split; [|discriminate].
    intros _. eexists. split; [reflexivity|]. cbn. auto.
  - split; [intros _; apply app_nil_r|]. split; discriminate.
Qed.

(** X12. Readings and alerts are append-only: whatever the outcome of a
    call, the rows that were in [battery_readings] and [battery_alerts]
    are still there, unchanged and in front; the call adds at most one
    reading and at most one alert, and an alert only together with its
    reading. *)
Theorem X12_append_only clk flt dev pct v t rssi db :
  let db' := snd (record_reading clk flt dev pct v t rssi db) in
  exists new_readings new_alerts,
    battery_readings db' = battery_readings db ++ new_readings /\
    battery_alerts db' = battery_alerts db ++ new_alerts /\
    (length new_readings <= 1)%nat /\
    (length new_alerts <= length new_readings)%nat.
Proof.
  pose proof (record_reading_outcomes clk flt dev pct v t rssi db) as H.
  cbv zeta in *.
  destruct H as [[_ ->]|(drain & _ & _ & Hr & [[_ Ha]|[_ Ha]])].
  - exists [], []. rewrite !app_nil_r. cbn. auto.
  - exists [reading_row clk dev pct v t rssi drain db], [].
    rewrite app_nil_r. cbn. auto.
  - exists [reading_row clk dev pct v t rssi drain db],
      (new_alerts clk dev pct (seq_battery_alerts db) (battery_alerts db)).
    split; [exact Hr|]. split; [exact Ha|].
    rewrite new_alerts_length. cbn.
    destruct (pct <=? LOW_PCT); auto.
Qed.

End IngestionEffects.

(** A first reading of 150 percent is stored as it comes; a reading for
    device 2^63 is refused. *)
Lemma X9_witness :
  (exists r db',
     BatteryManager.record_reading (rt := BasicRuntime.basic)
       (Scenario.clock "2024-01-01T10:00:00") no_faults 1 150
       None None None Scenario.registered = (Returns r, db') /\
     map IoTDevice.current_pct (iot_devices db') = [150%float]) /\
  BatteryManager.record_reading (rt := BasicRuntime.basic)
    (Scenario.clock "2024-01-01T10:00:00") no_faults (2 ^ 63) 20
    None None None Scenario.registered
  = (Raises OverflowError, Scenario.registered).
Proof.
  split.
  - destruct (X9_accepts_every_number (rt := BasicRuntime.basic)
                (Scenario.clock "2024-01-01T10:00:00") no_faults 1 150
                None None None Scenario.registered) as (_ & _ & _ & H).
    destruct H as [_ H].
    + reflexivity.
    + reflexivity.
    + reflexivity.
    + intros p [].
    + destruct H as (r & db' & E).
      * split; [reflexivity|]. split; [reflexivity|discriminate].
      * exists r, db'. split; [exact E|].
        vm_compute in E. inversion E. reflexivity.
  - destruct (X9_accepts_every_number (rt := BasicRuntime.basic)
                (Scenario.clock "2024-01-01T10:00:00") no_faults (2 ^ 63) 20
                None None None Scenario.registered) as (_ & H & _).
    apply H; reflexivity.
Defined.

(** The 20 percent reading of the scenario: status "warning", one
    low_battery alert. *)
Lemma X11_witness :
  exists r db' a,
    Scenario.ingest "2024-01-01T12:00:00" 20 Scenario.after_50
      = (Returns r, db') /\
    battery_alerts db' = battery_alerts Scenario.after_50 ++ [a] /\
    BatteryAlert.alert_type a = "low_battery"%string /\
    BatteryAlert.current_value a = 20%float.
Proof.
  destruct (Scenario.ingest "2024-01-01T12:00:00" 20 Scenario.after_50)
    as [[r|e] db'] eqn:E; [|vm_compute in E; discriminate].
  destruct (X11_alert_follows_status (rt := BasicRuntime.basic)
              _ _ _ _ _ _ _ _ _ _ E) as (_ & Hw & _).
  destruct (Hw eq_refl) as (a & Ha & Ht & _ & Hv & _).
  exists r, db', a. split; [reflexivity|]. split; [exact Ha|].
  split; [exact Ht|]. rewrite Hv. reflexivity.
Defined.

(** ** From one ingestion to the next *)

Section Chaining.

Context {rt : PyRuntime}.

Import BatteryManager.

Open Scope float_scope.

Lemma string_lt_le_trans (a b c : string) :
  String.ltb a b = true -> String.ltb c b = false -> String.ltb a c = true.
Proof.
  intros Hab Hcb.
  destruct (String.ltb a c) eqn:Hac; [reflexivity|].
  destruct (String.ltb c a) eqn:Hca.
  - rewrite (string_ltb_trans _ _ _ Hca Hab) in Hcb. discriminate.
  - rewrite (string_ltb_neither _ _ Hac Hca) in Hab. congruence.
Qed.

Lemma string_le_lt_trans (a b c : string) :
  String.ltb b a = false -> String.ltb b c = true -> String.ltb a c = true.
Proof.
  intros Hba Hbc.
  destruct (String.ltb a b) eqn:Hab.
  - exact (string_ltb_trans _ _ _ Hab Hbc).
  - rewrite (string_ltb_neither _ _ Hab Hba). exact Hbc.
Qed.

(** The SELECT of the prior reading over a table with one more row. *)
Lemma latest_reading_app dev rows r :
  Sql.latest_reading dev (rows ++ [r]) =
    if (BatteryReading.device_id r =? dev)%Z
    then Sql.later (Sql.latest_reading dev rows) r
    else Sql.latest_reading dev rows.
Proof.
  unfold Sql.latest_reading. rewrite filter_app. cbn [filter].
  destruct (BatteryReading.device_id r =? dev)%Z.
  - rewrite fold_left_app. reflexivity.
  - rewrite app_nil_r. reflexivity.
Qed.

(** X13. Which reading the next ingestion is measured against: after a
    call that returns, the prior reading of the device is the new one when
    its timestamp is later (as text) than that of every earlier reading of
    the device, and it then carries the level as the REAL column stores
    it (the level itself, but 0.0 for the negative zero); it is the same
    as before when some earlier reading has a timestamp that is not
    earlier (a clock set back, or two readings in one instant); the prior
    reading of any other device is unaffected. *)
Theorem X13_next_prior_reading clk flt dev pct v t rssi db r db' :
  record_reading clk flt dev pct v t rssi db = (Returns r, db') ->
  ((forall p, In p (battery_readings db) ->
              BatteryReading.device_id p = dev ->
              String.ltb (BatteryReading.reading_time p) (now_isoformat clk)
                = true) ->
   exists row,
     Sql.latest_reading dev (battery_readings db') = Some row /\
     BatteryReading.id row = BatteryReading.id r /\
     BatteryReading.battery_pct row = sqlite_real pct /\
     (BatteryReading.battery_pct row =? pct) = true /\
     BatteryReading.reading_time row = now_isoformat clk) /\
  (forall p, In p (battery_readings db) ->
             BatteryReading.device_id p = dev ->
             String.ltb (BatteryReading.reading_time p) (now_isoformat clk)
               = false ->
   Sql.latest_reading dev (battery_readings db') =
     Sql.latest_reading dev (battery_readings db)) /\
  (forall other, other <> dev ->
   Sql.latest_reading other (battery_readings db') =
     Sql.latest_reading other (battery_readings db)).
Proof.
  intros H. apply record_reading_returns in H.
  destruct H as (drain & _ & Hnan & Hr & _ & Hrows & _).
  rewrite Hrows. split; [|split].
  - intros Hlater. rewrite latest_reading_app.
    cbn [reading_row BatteryReading.device_id]. rewrite Z.eqb_refl.
    exists (reading_row clk dev pct v t rssi drain db).
    split; [|subst r; cbn; repeat split; apply sqlite_real_eqb; exact Hnan].
    destruct (Sql.latest_reading dev (battery_readings db)) as [q|] eqn:E;
      [|reflexivity].
    apply latest_reading_Some in E. destruct E as (Hq & Hd & _).
    cbn [Sql.later reading_row BatteryReading.reading_time].
    rewrite (Hlater q Hq Hd). reflexivity.
  - intros p Hp Hd Hnot. rewrite latest_reading_app.
    cbn [reading_row BatteryReading.device_id]. rewrite Z.eqb_refl.
    destruct (Sql.latest_reading dev (battery_readings db)) as [q|] eqn:E.
    + apply latest_reading_Some in E. destruct E as (_ & _ & Hmax).
      cbn [Sql.later reading_row BatteryReading.reading_time].
      destruct (String.ltb (BatteryReading.reading_time q) (now_isoformat clk))
        eqn:Hq; [|reflexivity].
      pose proof (string_lt_le_trans _ _ _ Hq Hnot) as Hqp.
      rewrite (Hmax p Hp Hd) in Hqp. discriminate.
    + exfalso. exact (proj1 (latest_reading_None _ _) E p Hp Hd).
  - intros other Hother. rewrite latest_reading_app.
    cbn [reading_row BatteryReading.device_id].
    destruct (dev =? other)%Z eqn:E; [|reflexivity].
    apply Z.eqb_eq in E. congruence.
Qed.

Lemma filter_unresolved_new clk dev pct seq alerts :
  filter (fun a => negb (BatteryAlert.resolved a))
         (new_alerts clk dev pct seq alerts)
  = new_alerts clk dev pct seq alerts.
Proof.
  unfold new_alerts.
  destruct (pct <=? CRITICAL_PCT); [reflexivity|].
  destruct (pct <=? LOW_PCT); reflexivity.
Qed.

(** X14. Ingestion seen from the fleet summary: a reading that is
    ingested leaves [total_devices] as it was and raises [active_alerts]
    by one when its level is at most 30.0, by nothing otherwise. *)
Theorem X14_ingest_then_fleet_status
    clk flt dev pct v t rssi db r db' flt0 fs0 db0 flt1 fs1 db1 :
  record_reading clk flt dev pct v t rssi db = (Returns r, db') ->
  fleet_status flt0 db = (Returns fs0, db0) ->
  fleet_status flt1 db' = (Returns fs1, db1) ->
  total_devices fs1 = total_devices fs0 /\
  active_alerts fs1 =
    (active_alerts fs0 + Bucket.count (pct <=? 30)%float)%nat.
Proof.
  intros H H0 H1. apply record_reading_returns in H.
  destruct H as (_ & _ & _ & _ & Hdev & _ & Ha & _).
  apply fleet_status_returns in H0, H1. cbv zeta in H0, H1.
  destruct H0 as (_ & Ht0 & _ & _ & _ & _ & _ & Ha0).
  destruct H1 as (_ & Ht1 & _ & _ & _ & _ & _ & Ha1).
  split.
  - rewrite Ht0, Ht1.
    rewrite <- !(Permutation_length (order_by_pct_perm _)).
    rewrite Hdev. unfold update_rows. apply length_map.
  - rewrite Ha0, Ha1, Ha, filter_app, length_app, filter_unresolved_new,
      new_alerts_length. reflexivity.
Qed.

End Chaining.

(** In the scenario the 50 percent reading of 11:00 becomes the prior
    reading. *)
Lemma X13_witness :
  exists r db' row,
    Scenario.ingest "2024-01-01T11:00:00" 50 Scenario.after_80
      = (Returns r, db') /\
    Sql.latest_reading 1 (battery_readings db') = Some row /\
    BatteryReading.battery_pct row = 50%float /\
    BatteryReading.reading_time row = "2024-01-01T11:00:00"%string.
Proof.
  destruct (Scenario.ingest "2024-01-01T11:00:00" 50 Scenario.after_80)
    as [[r|e] db'] eqn:E; [|vm_compute in E; discriminate].
  destruct (X13_next_prior_reading (rt := BasicRuntime.basic)
              _ _ _ _ _ _ _ _ _ _ E) as (H & _).
  destruct H as (row & Hrow & _ & Hp & _ & Ht).
  - intros p Hp _. vm_compute in Hp. destruct Hp as [<-|[]]. reflexivity.
  - exists r, db', row. split; [reflexivity|]. split; [exact Hrow|].
    split; [rewrite Hp; reflexivity|exact Ht].
Defined.

(** The 20 percent reading of the scenario raises the fleet's active
    alerts from 0 to 1. *)
Lemma X14_witness :
  exists r db' fs0 fs1,
    Scenario.ingest "2024-01-01T12:00:00" 20 Scenario.after_50
      = (Returns r, db') /\
    BatteryManager.fleet_status (rt := BasicRuntime.basic) no_faults
      Scenario.after_50 = (Returns fs0, Scenario.after_50) /\
    BatteryManager.fleet_status (rt := BasicRuntime.basic) no_faults
      db' = (Returns fs1, db') /\
    total_devices fs1 = total_devices fs0 /\
    active_alerts fs1 = (active_alerts fs0 + 1)%nat.
Proof.
  destruct (Scenario.ingest "2024-01-01T12:00:00" 20 Scenario.after_50)
    as [[r|e] db'] eqn:E; [|vm_compute in E; discriminate].
  destruct (fleet_status_total (rt := BasicRuntime.basic) no_faults
              Scenario.after_50 eq_refl eq_refl) as [fs0 E0].
  destruct (fleet_status_total (rt := BasicRuntime.basic) no_faults
              db' eq_refl eq_refl) as [fs1 E1].
  exists r, db', fs0, fs1.
  split; [reflexivity|]. split; [exact E0|]. split; [exact E1|].
  exact (X14_ingest_then_fleet_status (rt := BasicRuntime.basic)
           _ _ _ _ _ _ _ _ _ _ _ _ _ _ _ _ E E0 E1).
Defined.

(** ** Export *)

Section Exporting.

Context {rt : PyRuntime}.

Import BatteryManager.

Open Scope float_scope.

Lemma created_before_asym a b :
  JsonExport.created_before a b = true ->
  JsonExport.created_before b a = false.
Proof.
  destruct a as [x|], b as [y|]; cbn; try congruence.
  intros H. destruct (String.ltb y x) eqn:E; [|reflexivity].
  pose proof (string_ltb_trans _ _ _ H E) as Hxx.
  rewrite string_ltb_irrefl in Hxx. discriminate.
Qed.

Lemma created_not_before_trans a b c :
  JsonExport.created_before a b = false ->
  JsonExport.created_before b c = false ->
  JsonExport.created_before a c = false.
Proof.
  destruct a as [x|], b as [y|], c as [z|]; cbn; try congruence.
  intros Hxy Hyz.
  destruct (String.ltb x z) eqn:E; [|reflexivity].
  rewrite (string_le_lt_trans _ _ _ Hxy E) in Hyz. discriminate.
Qed.

Lemma insert_by_created_perm a l :
  Permutation (a :: l) (JsonExport.insert_by_created a l).
Proof.
  induction l as [|x l IH]; cbn.
  - apply Permutation_refl.
  - destruct (JsonExport.created_before _ _).
    + eapply Permutation_trans; [apply perm_swap|].
      apply perm_skip. exact IH.
    + apply Permutation_refl.
Qed.

Lemma sort_by_created_perm l :
  Permutation l (fold_right JsonExport.insert_by_created [] l).
Proof.
  induction l as [|x l IH]; cbn.
  - apply Permutation_refl.
  - eapply Permutation_trans; [|apply insert_by_created_perm].
    apply perm_skip. exact IH.
Qed.

Lemma insert_by_created_sorted a l :
  StronglySorted
    (fun x y => JsonExport.created_before (BatteryAlert.created_at x)
                  (BatteryAlert.created_at y) = false) l ->
  StronglySorted
    (fun x y => JsonExport.created_before (BatteryAlert.created_at x)
                  (BatteryAlert.created_at y) = false)
    (JsonExport.insert_by_created a l).
Proof.
  intros Hs. induction Hs as [|x l Hs IH Hx]; cbn.
  - apply SSorted_cons; [apply SSorted_nil|apply Forall_nil].
  - destruct (JsonExport.created_before (BatteryAlert.created_at a)
                (BatteryAlert.created_at x)) eqn:E.
    + apply SSorted_cons; [exact IH|].
      apply (Permutation_Forall (insert_by_created_perm a l)).
      apply Forall_cons; [|exact Hx].
      apply created_before_asym. exact E.
    + apply SSorted_cons; [apply SSorted_cons; assumption|].
      apply Forall_cons; [exact E|].
      eapply Forall_impl; [|exact Hx]. cbn. intros y Hy.
      exact (created_not_before_trans _ _ _ E Hy).
Qed.

Lemma sort_by_created_sorted l :
  StronglySorted
    (fun x y => JsonExport.created_before (BatteryAlert.created_at x)
                  (BatteryAlert.created_at y) = false)
    (fold_right JsonExport.insert_by_created [] l).
Proof.
  induction l as [|x l IH]; cbn; [apply SSorted_nil|].
  apply insert_by_created_sorted. exact IH.
Qed.

(** What a returned [export_json] call did. *)
Lemma export_json_returns clk flt path db p doc db' :
  JsonExport.export_json clk flt path db = (Returns (p, doc), db') ->
  db' = db /\ p = path /\
  ExportPayload.exported_at doc = now_isoformat clk /\
  ExportPayload.devices doc = Sql.order_by_pct (iot_devices db) /\
  ExportPayload.active_alerts doc =
    fold_right JsonExport.insert_by_created []
      (filter (fun a => negb (BatteryAlert.resolved a)) (battery_alerts db)) /\
  fleet_status (shift 2 flt) db = (Returns (ExportPayload.fleet_status doc), db).
Proof.
  unfold JsonExport.export_json, bind, ret. rewrite list_devices_run.
  destruct (flt 0%nat); [discriminate|].
  unfold with_connection, execute, JsonExport.select_unresolved.
  cbn [pending committed forallb negb]. unfold shift at 1.
  destruct (flt (1 + 0)%nat); [discriminate|].
  cbn [pending committed].
  pose proof (fleet_status_reads (shift 2 flt) db) as Hdb.
  destruct (fleet_status (shift 2 flt) db) as [[fs|e] db2];
    [|discriminate].
  cbn in Hdb. subst db2.
  intros H; inversion H; subst p doc db'; clear H. cbn. auto 10.
Qed.

(** X15. The exported document agrees with itself and with the database:
    its devices are all the device rows, its alerts exactly the
    unresolved alert rows, and the summary inside it counts as many
    devices and as many active alerts as the document lists; the call
    returns the path it was given and leaves the database as it was. *)
Theorem X15_export_is_consistent clk flt path db p doc db' :
  JsonExport.export_json clk flt path db = (Returns (p, doc), db') ->
  p = path /\ db' = db /\
  Permutation (iot_devices db) (ExportPayload.devices doc) /\
  (forall a, In a (ExportPayload.active_alerts doc) <->
             In a (battery_alerts db) /\ BatteryAlert.resolved a = false) /\
  total_devices (ExportPayload.fleet_status doc) =
    length (ExportPayload.devices doc) /\
  active_alerts (ExportPayload.fleet_status doc) =
    length (ExportPayload.active_alerts doc).
Proof.
  intros H. apply export_json_returns in H.
  destruct H as (Hdb & Hp & _ & Hd & Ha & Hfs).
  apply fleet_status_returns in Hfs. cbv zeta in Hfs.
  destruct Hfs as (_ & Ht & _ & _ & _ & _ & _ & Hc).
  split; [exact Hp|]. split; [exact Hdb|]. split; [|split; [|split]].
  - rewrite Hd. apply order_by_pct_perm.
  - intros a. rewrite Ha. split.
    + intros Hin.
      apply (Permutation_in _ (Permutation_sym (sort_by_created_perm _)))
        in Hin.
      apply filter_In in Hin. destruct Hin as [Hin Hr].
      apply negb_true_iff in Hr. auto.
    + intros [Hin Hr].
      apply (Permutation_in _ (sort_by_created_perm _)).
      apply filter_In. split; [exact Hin|]. rewrite Hr. reflexivity.
  - rewrite Ht, Hd. reflexivity.
  - rewrite Hc, Ha. apply Permutation_length. apply sort_by_created_perm.
Qed.

(** X16. The exported lists are ordered as the queries ask: no alert of
    the document was created before an alert that follows it (latest
    first, alerts without a creation time last), and on rows without a
    NaN level no device has a higher level than a device that follows
    it. *)
Theorem X16_export_order clk flt path db p doc db' :
  JsonExport.export_json clk flt path db = (Returns (p, doc), db') ->
  StronglySorted
    (fun x y => JsonExport.created_before (BatteryAlert.created_at x)
                  (BatteryAlert.created_at y) = false)
    (ExportPayload.active_alerts doc) /\
  (real_not_null (iot_devices db) ->
   StronglySorted
     (fun a b => (IoTDevice.current_pct a <=? IoTDevice.current_pct b) = true)
     (ExportPayload.devices doc)).
Proof.
  intros H. apply export_json_returns in H.
  destruct H as (_ & _ & _ & Hd & Ha & _). rewrite Hd, Ha. split.
  - apply sort_by_created_sorted.
  - apply order_by_pct_sorted.
Qed.

(** X17. The reading methods never write: [list_devices], [_get_device],
    [fleet_status] and [export_json] leave the database exactly as it
    was, whether they return or raise. *)
Theorem X17_queries_leave_the_database flt db :
  (forall status, snd (list_devices flt status db) = db) /\
  (forall device_id, snd (_get_device flt device_id db) = db) /\
  snd (fleet_status flt db) = db /\
  (forall clk path, snd (JsonExport.export_json clk flt path db) = db).
Proof.
  split; [|split; [|split]].
  - intros status. rewrite list_devices_run.
    destruct (flt 0%nat); reflexivity.
  - intros device_id. rewrite _get_device_run.
    destruct (flt 0%nat); [reflexivity|].
    destruct (negb (is_int64 device_id)); reflexivity.
  - apply fleet_status_reads.
  - intros clk path. unfold JsonExport.export_json, bind, ret.
    rewrite list_devices_run.
    destruct (flt 0%nat); [reflexivity|].
    unfold with_connection, execute, JsonExport.select_unresolved.
    cbn [pending committed forallb negb]. unfold shift at 1.
    destruct (flt (1 + 0)%nat); [reflexivity|].
    cbn [pending committed].
    pose proof (fleet_status_reads (shift 2 flt) db) as Hdb.
    destruct (fleet_status (shift 2 flt) db) as [[fs|e] db2];
      cbn in Hdb; subst db2; reflexivity.
Qed.

End Exporting.

(** Exporting the scenario's last database: one device, two alerts, the
    summary saying the same. *)
Lemma X15_witness :
  exists doc,
    JsonExport.export_json (rt := BasicRuntime.basic)
      (Scenario.clock "2024-01-01T14:00:00") no_faults "battery_export.json"
      Scenario.after_10
    = (Returns ("battery_export.json"%string, doc), Scenario.after_10) /\
    length (ExportPayload.devices doc) = 1%nat /\
    length (ExportPayload.active_alerts doc) = 2%nat /\
    total_devices (ExportPayload.fleet_status doc) = 1%nat /\
    active_alerts (ExportPayload.fleet_status doc) = 2%nat.
Proof.
  destruct (JsonExport.export_json (rt := BasicRuntime.basic)
              (Scenario.clock "2024-01-01T14:00:00") no_faults
              "battery_export.json" Scenario.after_10)
    as [[[p doc]|e] db'] eqn:E; [|vm_compute in E; discriminate].
  destruct (X15_export_is_consistent (rt := BasicRuntime.basic)
              _ _ _ _ _ _ _ E) as (Hp & Hdb & _ & _ & Ht & Ha).
  exists doc. subst p db'. split; [reflexivity|].
  rewrite Ht, Ha. vm_compute in E. inversion E. cbn. auto.
Defined.

(** The same export lists its alerts latest first. *)
Lemma X16_witness :
  exists doc,
    JsonExport.export_json (rt := BasicRuntime.basic)
      (Scenario.clock "2024-01-01T14:00:00") no_faults "battery_export.json"
      Scenario.fleet
    = (Returns ("battery_export.json"%string, doc), Scenario.fleet) /\
    map IoTDevice.current_pct (ExportPayload.devices doc)
      = [10; 15; 45; 80]%float /\
    StronglySorted
      (fun a b =>
         (IoTDevice.current_pct a <=? IoTDevice.current_pct b)%float = true)
      (ExportPayload.devices doc).
Proof.
  destruct (JsonExport.export_json (rt := BasicRuntime.basic)
              (Scenario.clock "2024-01-01T14:00:00") no_faults
              "battery_export.json" Scenario.fleet)
    as [[[p doc]|e] db'] eqn:E; [|vm_compute in E; discriminate].
  destruct (X16_export_order (rt := BasicRuntime.basic) _ _ _ _ _ _ _ E)
    as [_ Hs].
  exists doc. vm_compute in E. inversion E; subst p doc db'.
  split; [reflexivity|]. split; [reflexivity|].
  apply Hs. unfold real_not_null. vm_compute.
  repeat (apply Forall_cons; [reflexivity|]). apply Forall_nil.
Defined.

(** ** Calls that raise after they committed *)

Section CommittedThenRaised.

Context {rt : PyRuntime}.

Import BatteryManager.

Open Scope float_scope.

(** X18. [add_device] commits before it reads the new row back.  With
    a new name, a capacity that fits SQLite and room in the table: a
    failed COMMIT leaves no device; a failed read-back raises although
    the device is registered, and registering the same name again then
    always raises and changes nothing, with IntegrityError (a duplicate)
    when the store answers and has room and the capacity fits. *)
Theorem X18_add_device_readback_failure
    clk flt name device_type location battery_type capacity_mah firmware
    notes db :
  flt 0%nat = false -> is_int64 capacity_mah = true ->
  devices_not_full db ->
  (forall x, In x (iot_devices db) -> IoTDevice.name x <> name) ->
  let res := add_device clk flt name device_type location battery_type
               capacity_mah firmware notes db in
  (flt 1%nat = true -> res = (Raises OperationalError, db)) /\
  (flt 1%nat = false -> flt 2%nat = true ->
   fst res = Raises OperationalError /\
   (exists d, iot_devices (snd res) = iot_devices db ++ [d] /\
              IoTDevice.name d = name) /\
   forall clk' flt' device_type' location' battery_type' capacity_mah'
          firmware' notes',
     let again := add_device clk' flt' name device_type' location'
                    battery_type' capacity_mah' firmware' notes' (snd res) in
     (exists e, again = (Raises e, snd res)) /\
     (flt' 0%nat = false -> is_int64 capacity_mah' = true ->
      devices_not_full (snd res) ->
      again = (Raises IntegrityError, snd res))).
Proof.
  intros H0 Hcap Hroom Hfree res.
  assert (Hex : existsb (fun d => String.eqb (IoTDevice.name d) name)
                  (iot_devices db) = false).
  { destruct (existsb _ (iot_devices db)) eqn:E; [|reflexivity].
    apply existsb_exists in E. destruct E as (x & Hx & Hn).
    apply String.eqb_eq in Hn. exfalso. exact (Hfree x Hx Hn). }
  pose proof (add_device_run clk flt name device_type location battery_type
                capacity_mah firmware notes db) as Hrun.
  cbv zeta in Hrun. unfold devices_not_full in Hroom.
  unfold res. rewrite Hrun, H0, Hcap, Hroom, Hex. cbn [negb]. split.
  - intros ->. reflexivity.
  - intros -> ->. cbn [fst snd].
    split; [reflexivity|]. split; [eexists; split; reflexivity|].
    intros clk' flt' device_type' location' battery_type' capacity_mah'
      firmware' notes'.
    destruct (add_device_duplicate clk' flt' name device_type' location'
                battery_type' capacity_mah' firmware' notes'
                (with_device
                   (device_row clk name device_type location battery_type
                      capacity_mah firmware notes db) db)
                (device_row clk name device_type location battery_type
                   capacity_mah firmware notes db))
      as (Hraise & Hdup & _).
    + cbn. apply in_or_app. right. left. reflexivity.
    + reflexivity.
    + split; [exact Hraise|exact Hdup].
Qed.

(** X19. [record_reading] commits the reading before it evaluates the
    alert.  A call that raises and yet changed the database is one whose
    alert was not stored: the error is OperationalError, the level was at
    most 30.0, the reading is stored and the device updated (both with
    the level as the REAL column stores it), and no alert row was
    written. *)
Theorem X19_lost_alert clk flt dev pct v t rssi db e db' :
  record_reading clk flt dev pct v t rssi db = (Raises e, db') ->
  db' <> db ->
  e = OperationalError /\ (pct <=? 30) = true /\
  (exists row,
     battery_readings db' = battery_readings db ++ [row] /\
     BatteryReading.device_id row = dev /\
     BatteryReading.battery_pct row = sqlite_real pct /\
     (BatteryReading.battery_pct row =? pct) = true) /\
  iot_devices db' = update_rows pct (now_isoformat clk) dev (iot_devices db) /\
  (forall d', In d' (iot_devices db') -> IoTDevice.id d' = dev ->
     IoTDevice.current_pct d' = sqlite_real pct) /\
  battery_alerts db' = battery_alerts db.
Proof.
  rewrite record_reading_run.
  destruct (flt 0%nat); [intros H; inversion H; congruence|].
  destruct (is_int64 dev) eqn:Hdev; cbn [negb];
    [|intros H; inversion H; congruence].
  destruct (drain_rate_of _ _ pct) as [drain|e0];
    [|intros H; inversion H; congruence].
  destruct (flt 1%nat); [intros H; inversion H; congruence|].
  destruct (negb (forallb _ _)); [intros H; inversion H; congruence|].
  destruct (negb (rowid_available _ _)); [intros H; inversion H; congruence|].
  destruct (PyFloat.isnan pct) eqn:Hnan;
    [intros H; inversion H; congruence|].
  destruct (flt 2%nat); [intros H; inversion H; congruence|].
  destruct (flt 3%nat); [intros H; inversion H; congruence|].
  destruct (_check_alerts _ _ _ _ _) as [[u|e1] db2] eqn:E; [discriminate|].
  intros H _; inversion H; subst e1 db2; clear H.
  apply _check_alerts_raises in E. destruct E as (-> & Hl & He).
  split; [destruct He as [He|[_ He]]; [exact He|congruence]|].
  split; [exact Hl|]. cbn.
  split; [eexists; split; [reflexivity|]; cbn;
          repeat split; apply sqlite_real_eqb; exact Hnan|].
  split; [reflexivity|]. split; [|reflexivity].
  intros d' Hin Hid. apply (update_rows_hit _ _ _ _ _ Hin Hid).
Qed.

End CommittedThenRaised.

(** Registering "sensor-2" with a failing read-back. *)
Lemma X18_witness :
  let res :=
    BatteryManager.add_device (Scenario.clock "2024-01-02T09:00:00")
      (fun k => Nat.eqb k 2) "sensor-2" "gateway" "roof" "AA" 1200 "2.0.0" ""
      Scenario.registered in
  fst res = Raises OperationalError /\
  exists d, iot_devices (snd res) = iot_devices Scenario.registered ++ [d] /\
            IoTDevice.name d = "sensor-2"%string.
Proof.
  destruct (X18_add_device_readback_failure
              (Scenario.clock "2024-01-02T09:00:00") (fun k => Nat.eqb k 2)
              "sensor-2" "gateway" "roof" "AA" 1200 "2.0.0" ""
              Scenario.registered) as [_ H].
  - reflexivity.
  - reflexivity.
  - reflexivity.
  - intros x Hx. vm_compute in Hx. destruct Hx as [<-|[]]. discriminate.
  - destruct (H eq_refl eq_refl) as (He & Hd & _). split; assumption.
Defined.

(** The 20 percent reading of the scenario with the alert INSERT
    failing: the reading stays, the alert is missing. *)
Lemma X19_witness :
  exists db',
    BatteryManager.record_reading (rt := BasicRuntime.basic)
      (Scenario.clock "2024-01-01T12:00:00") (fun k => Nat.eqb k 4) 1 20
      None None None Scenario.after_50 = (Raises OperationalError, db') /\
    length (battery_readings db') = 3%nat /\
    battery_alerts db' = battery_alerts Scenario.after_50.
Proof.
  destruct (BatteryManager.record_reading (rt := BasicRuntime.basic)
              (Scenario.clock "2024-01-01T12:00:00") (fun k => Nat.eqb k 4)
              1 20 None None None Scenario.after_50)
    as [[r|e] db'] eqn:E; [vm_compute in E; discriminate|].
  destruct (X19_lost_alert (rt := BasicRuntime.basic) _ _ _ _ _ _ _ _ _ _ E)
    as (He & _ & (row & Hr & _) & _ & _ & Ha).
  - vm_compute in E. inversion E. vm_compute. discriminate.
  - exists db'. subst e. split; [reflexivity|].
    split; [rewrite Hr, length_app; vm_compute; reflexivity|exact Ha].
Defined.

(** ** The battery bar *)

Section BatteryBar.

Open Scope float_scope.

(** A float that compares equal to 100.0 is 100.0. *)
Lemma eq_100 (x : float) : (100 <=? x) = true -> (100 <? x) = false -> x = 100.
Proof.
  rewrite leb_spec, ltb_spec. unfold SFleb, SFltb.
  intros Hle Hlt.
  assert (Hc : SFcompare (Prim2SF 100) (Prim2SF x) = Some Eq).
  { destruct (SFcompare (Prim2SF 100) (Prim2SF x)) as [[]|];
      try discriminate; reflexivity. }
  clear Hle Hlt.
  assert (E : Prim2SF x = Prim2SF 100).
  { revert Hc.
    change (Prim2SF 100) with (S754_finite false 7036874417766400 (-46)).
    destruct (Prim2SF x) as [s|s| |s m e]; cbv [SFcompare];
      try discriminate; try (destruct s; discriminate).
    destruct s; [discriminate|].
    destruct (Z.compare_spec (-46) e) as [He|He|He]; try discriminate.
    rewrite FloatFacts.pos_compare_cont_Eq.
    destruct (Pos.compare_spec 7036874417766400 m) as [Hm|Hm|Hm];
      try discriminate.
    intros _. subst. reflexivity. }
  rewrite <- (SF2Prim_Prim2SF x), E. apply SF2Prim_Prim2SF.
Qed.

Lemma isnan_is_nan (x : float) : PyFloat.isnan x = true -> x = nan.
Proof.
  rewrite FloatFacts.isnan_spec. intros H.
  rewrite <- (SF2Prim_Prim2SF x).
  destruct (Prim2SF x); try discriminate. reflexivity.
Qed.

(** X20. The colour and the icon of the bar follow the health buckets:
    green exactly for a healthy level, yellow exactly for a warning
    level, red for every other level (low, critical, NaN); and the empty
    battery icon is drawn exactly when the bar is red. *)
Theorem X20_bar_colour_and_icon (pct : float) :
  (Display.bar_color pct = Display.GREEN <-> Bucket.healthy pct = true) /\
  (Display.bar_color pct = Display.YELLOW <-> Bucket.warning pct = true) /\
  (Display.bar_color pct = Display.RED <->
   Bucket.healthy pct = false /\ Bucket.warning pct = false) /\
  (Display.bar_icon pct = "🪫"%string <-> Display.bar_color pct = Display.RED).
Proof.
  unfold Display.bar_color, Display.bar_icon, PyFloat.geb, Bucket.healthy,
    Bucket.warning.
  pose proof (FloatFacts.leb_trans 30 60 pct eq_refl) as Hab.
  pose proof (FloatFacts.ltb_leb_false pct 60) as Ha.
  assert (Hlt : (30 <=? pct) = true -> (60 <=? pct) = false ->
                (pct <? 60) = true).
  { intros H30 H60. destruct (FloatFacts.leb_isnan _ _ H30) as [_ Hn].
    rewrite (FloatFacts.ltb_negb_leb pct 60 Hn eq_refl), H60. reflexivity. }
  destruct (60 <=? pct) eqn:E60.
  - rewrite (Hab eq_refl). cbn.
    destruct (pct <? 60) eqn:L; [specialize (Ha eq_refl); discriminate|].
    repeat split; try discriminate; try reflexivity;
      try (intros [? ?]; discriminate).
  - destruct (30 <=? pct) eqn:E30.
    + rewrite (Hlt eq_refl eq_refl). cbn.
      repeat split; try discriminate; try reflexivity;
        try (intros [? ?]; discriminate).
    + cbn. repeat split; try discriminate; try reflexivity.
Qed.

(** X21. Levels of 100 and more are clamped: at the default width of 12
    the bar of every level [>= 100] (250.0, infinity) is the full green
    bar, twelve filled cells and no empty one, followed by the level
    itself. *)
Theorem X21_bar_is_clamped_at_100 (pct : float) :
  (100 <=? pct) = true ->
  Display._batt_bar pct 12 =
    inl ("🔋 " ++ Display.GREEN ++ Display.repeat_string "█" 12
         ++ Display.NC ++ " " ++ Display.format_5_1f pct ++ "%")%string.
Proof.
  intros H.
  assert (H60 : (60 <=? pct) = true)
    by (apply (FloatFacts.leb_trans 60 100 pct); [reflexivity|exact H]).
  assert (H30 : (30 <=? pct) = true)
    by (apply (FloatFacts.leb_trans 30 100 pct); [reflexivity|exact H]).
  unfold Display._batt_bar, Display.bar_icon, Display.bar_color,
    PyFloat.geb, Display.min_100.
  rewrite H60, H30.
  destruct (100 <? pct) eqn:L.
  - reflexivity.
  - rewrite (eq_100 pct H L). reflexivity.
Qed.

(** X22. The bar of a NaN level and of minus infinity cannot be drawn:
    whatever the width, [_batt_bar] raises ([int()] of a NaN or of an
    infinity) and returns no text. *)
Theorem X22_bar_raises (pct : float) (width : Z) :
  PyFloat.isnan pct = true \/ pct = neg_infinity ->
  exists e, Display._batt_bar pct width = inr e.
Proof.
  intros H. unfold Display._batt_bar.
  destruct (Display.float_of_int width) as [w|e]; [|eauto].
  unfold Display.int_of_float. rewrite mul_spec.
  destruct H as [H| ->].
  - rewrite (isnan_is_nan pct H).
    change (Prim2SF (Display.min_100 nan / PyFloat.of_int 100))
      with S754_nan.
    cbn. eauto.
  - change (Prim2SF (Display.min_100 neg_infinity / PyFloat.of_int 100))
      with (S754_infinity true).
    destruct (Prim2SF w) as [s|s| |s m e]; cbn; eauto.
Qed.

End BatteryBar.

(** The bar of 250 percent. *)
Lemma X21_witness :
  Display._batt_bar 250 12 =
    inl ("🔋 " ++ Display.GREEN ++ "████████████" ++ Display.NC
         ++ " 250.0%")%string.
Proof.
  rewrite (X21_bar_is_clamped_at_100 250 eq_refl). vm_compute. reflexivity.
Defined.

(** The bar of minus infinity at the default width. *)
Lemma X22_witness : exists e, Display._batt_bar neg_infinity 12 = inr e.
Proof.
  apply X22_bar_raises. right. reflexivity.
Defined.

(** ** The stored reading *)

Section StoredReading.

Context {rt : PyRuntime}.

Import BatteryManager.

Open Scope float_scope.

(** X23. The reading the drain rate is measured against is chosen by
    timestamp text, not by insertion: the SELECT of [record_reading] finds
    nothing exactly when the device has no reading, and otherwise finds
    the level and timestamp of a reading of that device whose
    [reading_time] no reading of the device exceeds. *)
Theorem X23_prior_is_latest_by_timestamp device_id db :
  (Sql.select_prev device_id db = Returns (None, db) <->
   forall p, In p (battery_readings db) ->
             BatteryReading.device_id p <> device_id) /\
  (forall prev_pct prev_time,
     Sql.select_prev device_id db = Returns (Some (prev_pct, prev_time), db) ->
     (exists p, In p (battery_readings db) /\
                BatteryReading.device_id p = device_id /\
                BatteryReading.battery_pct p = prev_pct /\
                BatteryReading.reading_time p = prev_time) /\
     (forall p, In p (battery_readings db) ->
                BatteryReading.device_id p = device_id ->
                String.ltb prev_time (BatteryReading.reading_time p) = false)).
Proof.
  unfold Sql.select_prev. split.
  - rewrite <- latest_reading_None.
    destruct (Sql.latest_reading device_id (battery_readings db)); cbn;
      split; congruence.
  - intros prev_pct prev_time H.
    destruct (Sql.latest_reading device_id (battery_readings db)) as [q|]
      eqn:E; cbn in H; [|discriminate].
    inversion H; subst prev_pct prev_time; clear H.
    apply latest_reading_Some in E. destruct E as (Hq & Hd & Hmax).
    split; [exists q; auto|exact Hmax].
Qed.

(** X24. The reading a call returns and the row it stored: the row is
    the last of the table, carries the returned id, which is above the id
    of every earlier reading, and the same device, timestamp and signal.
    The level and the optional float values are in the row as REAL columns
    store them: as returned, except that a NaN is NULL in the table (so a
    NaN drain rate is returned to the caller and NULL in the table) and a
    negative zero is 0.0 there. *)
Theorem X24_returned_and_stored_reading clk flt dev pct v t rssi db r db' :
  record_reading clk flt dev pct v t rssi db = (Returns r, db') ->
  exists row,
    battery_readings db' = battery_readings db ++ [row] /\
    BatteryReading.id row = BatteryReading.id r /\
    (forall p, In p (battery_readings db) ->
               (BatteryReading.id p < BatteryReading.id r)%Z) /\
    BatteryReading.device_id row = BatteryReading.device_id r /\
    BatteryReading.reading_time row = BatteryReading.reading_time r /\
    BatteryReading.signal_rssi row = BatteryReading.signal_rssi r /\
    BatteryReading.battery_pct row =
      sqlite_real (BatteryReading.battery_pct r) /\
    (BatteryReading.battery_pct row =? BatteryReading.battery_pct r) = true /\
    BatteryReading.voltage_mv row =
      bind_real_opt (BatteryReading.voltage_mv r) /\
    BatteryReading.temperature_c row =
      bind_real_opt (BatteryReading.temperature_c r) /\
    BatteryReading.drain_rate row =
      bind_real_opt (BatteryReading.drain_rate r) /\
    (forall o, bind_real_opt o =
               match o with
               | Some x => if PyFloat.isnan x then None
                           else Some (sqlite_real x)
               | None => None
               end).
Proof.
  intros H. apply record_reading_returns in H.
  destruct H as (drain & _ & Hnan & Hr & _ & Hrows & _).
  exists (reading_row clk dev pct v t rssi drain db).
  split; [exact Hrows|]. subst r. cbn.
  split; [reflexivity|]. split.
  - intros p Hp.
    assert (Hb : (BatteryReading.id p
                  <= fold_right Z.max 0
                       (map BatteryReading.id (battery_readings db)))%Z).
    { apply fold_max_bound. apply in_map. exact Hp. }
    unfold next_rowid. lia.
  - repeat split; try reflexivity.
    apply sqlite_real_eqb. exact Hnan.
Qed.

End StoredReading.

(** In the scenario after the first reading, the prior reading of device 1
    is the one of 10:00 at 80 percent. *)
Lemma X23_witness :
  exists p,
    In p (battery_readings Scenario.after_80) /\
    BatteryReading.battery_pct p = 80%float /\
    BatteryReading.reading_time p = "2024-01-01T10:00:00"%string.
Proof.
  destruct (X23_prior_is_latest_by_timestamp 1 Scenario.after_80) as [_ H].
  destruct (H 80%float "2024-01-01T10:00:00"%string eq_refl)
    as [(p & Hp & _ & Hpct & Ht) _].
  exists p. auto.
Defined.

(** The second reading of the scenario is stored with the id it
    returns; a reading of 80 percent with a voltage of -0.0 and a NaN
    temperature is stored with voltage 0.0 and no temperature. *)
Lemma X24_witness :
  (exists r db' row,
     Scenario.ingest "2024-01-01T11:00:00" 50 Scenario.after_80
       = (Returns r, db') /\
     battery_readings db' = battery_readings Scenario.after_80 ++ [row] /\
     BatteryReading.id row = BatteryReading.id r /\
     BatteryReading.id r = 2%Z /\
     BatteryReading.drain_rate row = Some 30%float) /\
  (exists r db' row,
     BatteryManager.record_reading (rt := BasicRuntime.basic)
       (Scenario.clock "2024-01-01T10:00:00") no_faults 1 80
       (Some (-0)%float) (Some nan) None Scenario.registered
       = (Returns r, db') /\
     battery_readings db' = [row] /\
     BatteryReading.voltage_mv r = Some (-0)%float /\
     BatteryReading.voltage_mv row = Some 0%float /\
     BatteryReading.temperature_c row = None).
Proof.
  split.
  - destruct (Scenario.ingest "2024-01-01T11:00:00" 50 Scenario.after_80)
      as [[r|e] db'] eqn:E; [|vm_compute in E; discriminate].
    destruct (X24_returned_and_stored_reading (rt := BasicRuntime.basic)
                _ _ _ _ _ _ _ _ _ _ E)
      as (row & Hrows & Hid & _ & _ & _ & _ & _ & _ & _ & _ & Hdrain & _).
    exists r, db', row. split; [reflexivity|]. split; [exact Hrows|].
    split; [exact Hid|].
    vm_compute in E. inversion E; subst r. split; [reflexivity|].
    rewrite Hdrain. reflexivity.
  - destruct (BatteryManager.record_reading (rt := BasicRuntime.basic)
                (Scenario.clock "2024-01-01T10:00:00") no_faults 1 80
                (Some (-0)%float) (Some nan) None Scenario.registered)
      as [[r|e] db'] eqn:E; [|vm_compute in E; discriminate].
    destruct (X24_returned_and_stored_reading (rt := BasicRuntime.basic)
                _ _ _ _ _ _ _ _ _ _ E)
      as (row & Hrows & _ & _ & _ & _ & _ & _ & _ & Hv & Ht & _).
    exists r, db', row. split; [reflexivity|]. split; [exact Hrows|].
    vm_compute in E. inversion E; subst r. cbn in Hv, Ht.
    split; [reflexivity|]. split; [exact Hv|exact Ht].
Defined.
